(** * Handlips API: a shallow embedding of [src/app.js]

    The Express application of [src/app.js] is embedded handler by handler.
    A handler is a computation in a small state-and-exception monad over a
    [world]: the relational tables, the storage bucket and the log of the
    calls issued to external services.  What a request cannot decide by
    itself (the identifiers drawn by [uuidv4], the clock, the answers and
    the failures of the external services) is read from an [env].

    Conventions of the embedding.
    - ECMAScript numbers are modelled by exact rationals together with
      [NaN] and the two infinities.  The model agrees with IEEE doubles
      wherever every intermediate value is exactly representable (integers
      of magnitude below 2^53, dyadic fractions such as 2.5); rounding and
      the sign of zero are not modelled.
    - Strings are byte strings; the white space recognised by the numeric
      conversions is the ASCII one.
    - A table is the list of its rows in insertion order; a [SELECT]
      without [ORDER BY] returns its rows in an order read from the [env].
      A column holds the value the handler bound to it, and a
      [WHERE column = ?] holds when both sides are the same text, number or
      boolean; the coercions and collations of MySQL are not modelled.
    - A [Date] is represented by its time value, in milliseconds.
    - The clients of the database, of the bucket and of the speech
      synthesis are taken as initialised.

    The routes embedded are those that create, list and delete
    soundboards, open a history and append a message to it, update a
    profile, record a feedback and list the reports. *)

From Stdlib Require Import ZArith QArith Qround String Ascii List Lia Bool.
From Stdlib Require Import DecimalString DecimalZ DecimalN.
From stdpp Require Import gmap strings list sorting.

Open Scope string_scope.

(** ** The fragment of ECMAScript the handlers rely on *)

Module JS.

(** *** Numbers *)

Inductive number :=
| NaN
| Infinity (negative : bool)
| Fin (q : Q).

Definition of_Q (q : Q) : number := Fin (Qred q).
Definition of_Z (z : Z) : number := Fin (inject_Z z).

Definition is_zero (q : Q) : bool := (Qnum q =? 0)%Z.
Definition is_neg (q : Q) : bool := (Qnum q <? 0)%Z.

(** [a - b] *)
Definition sub (a b : number) : number :=
  match a, b with
  | NaN, _ | _, NaN => NaN
  | Fin x, Fin y => of_Q (x - y)
  | Infinity s, Infinity t => if Bool.eqb s t then NaN else Infinity s
  | Infinity s, Fin _ => Infinity s
  | Fin _, Infinity t => Infinity (negb t)
  end.

(** [a * b] *)
Definition mul (a b : number) : number :=
  match a, b with
  | NaN, _ | _, NaN => NaN
  | Fin x, Fin y => of_Q (x * y)
  | Infinity s, Infinity t => Infinity (xorb s t)
  | Infinity s, Fin y | Fin y, Infinity s =>
      if is_zero y then NaN else Infinity (xorb s (is_neg y))
  end.

(** [a / b] *)
Definition div (a b : number) : number :=
  match a, b with
  | NaN, _ | _, NaN => NaN
  | Infinity _, Infinity _ => NaN
  | Infinity s, Fin y => Infinity (xorb s (is_neg y))
  | Fin _, Infinity _ => of_Z 0
  | Fin x, Fin y =>
      if is_zero y
      then (if is_zero x then NaN else Infinity (is_neg x))
      else of_Q (x / y)
  end.

(** [a < b] on numbers: false as soon as one side is [NaN]. *)
Definition num_lt (a b : number) : bool :=
  match a, b with
  | NaN, _ | _, NaN => false
  | Fin x, Fin y => negb (Qle_bool y x)
  | Infinity s, Infinity t => s && negb t
  | Infinity s, Fin _ => s
  | Fin _, Infinity t => negb t
  end.

(** SQL and strict equality of two numbers. *)
Definition num_eqb (a b : number) : bool :=
  match a, b with
  | Fin x, Fin y => Qeq_bool x y
  | Infinity s, Infinity t => Bool.eqb s t
  | _, _ => false
  end.

(** [Math.ceil] *)
Definition Math_ceil (a : number) : number :=
  match a with
  | Fin q => of_Z (Qceiling q)
  | _ => a
  end.

(** *** Reading numerals *)

Definition is_ws (a : ascii) : bool :=
  let n := nat_of_ascii a in
  ((9 <=? n) && (n <=? 13) || (n =? 32))%nat.

Fixpoint skip_ws (s : string) : string :=
  match s with
  | String a r => if is_ws a then skip_ws r else s
  | EmptyString => EmptyString
  end.

Definition dec_digit (a : ascii) : option (Decimal.uint -> Decimal.uint) :=
  match a with
  | "0"%char => Some Decimal.D0 | "1"%char => Some Decimal.D1
  | "2"%char => Some Decimal.D2 | "3"%char => Some Decimal.D3
  | "4"%char => Some Decimal.D4 | "5"%char => Some Decimal.D5
  | "6"%char => Some Decimal.D6 | "7"%char => Some Decimal.D7
  | "8"%char => Some Decimal.D8 | "9"%char => Some Decimal.D9
  | _ => None
  end.

(** The longest prefix of decimal digits, and what follows it. *)
Fixpoint take_uint (s : string) : Decimal.uint * string :=
  match s with
  | String a r =>
      match dec_digit a with
      | Some d => let (u, rest) := take_uint r in (d u, rest)
      | None => (Decimal.Nil, s)
      end
  | EmptyString => (Decimal.Nil, EmptyString)
  end.

(** The value of a digit in a radix up to 16. *)
Definition digit_val (a : ascii) : option N :=
  let n := N_of_ascii a in
  if (48 <=? n)%N && (n <=? 57)%N then Some (n - 48)%N
  else if (97 <=? n)%N && (n <=? 102)%N then Some (n - 87)%N
  else if (65 <=? n)%N && (n <=? 70)%N then Some (n - 55)%N
  else None.

(** The longest prefix of digits of the radix: its value when it is not
    empty, and what follows it. *)
Fixpoint take_radix (radix : N) (s : string) (acc : option N) : option N * string :=
  match s with
  | String a r =>
      match digit_val a with
      | Some d =>
          if (d <? radix)%N
          then take_radix radix r (Some (default 0%N acc * radix + d)%N)
          else (acc, s)
      | None => (acc, s)
      end
  | EmptyString => (acc, EmptyString)
  end.

Definition take_sign (s : string) : bool * string :=
  match s with
  | String "-"%char r => (true, r)
  | String "+"%char r => (false, r)
  | _ => (false, s)
  end.

Definition signed (negative : bool) (q : Q) : Q := if negative then (- q)%Q else q.

Definition pow10 (e : Z) : Q := Qpower (10 # 1) e.

(** The prefixes [0x], [0o] and [0b] of a numeric string. *)
Definition radix_prefix (s : string) : option (N * string) :=
  match s with
  | String "0"%char (String x r) =>
      if (Ascii.eqb x "x" || Ascii.eqb x "X")%bool then Some (16%N, r)
      else if (Ascii.eqb x "o" || Ascii.eqb x "O")%bool then Some (8%N, r)
      else if (Ascii.eqb x "b" || Ascii.eqb x "B")%bool then Some (2%N, r)
      else None
  | _ => None
  end.

(** [e] or [E], an optional sign and at least one digit. *)
Definition take_exponent (s : string) : option (Z * string) :=
  match s with
  | String x r =>
      if (Ascii.eqb x "e" || Ascii.eqb x "E")%bool then
        let (negative, r1) := take_sign r in
        match take_uint r1 with
        | (Decimal.Nil, _) => None
        | (u, r2) =>
            let e := Z.of_N (N.of_uint u) in
            Some (if negative then (- e)%Z else e, r2)
        end
      else Some (0%Z, s)
  | EmptyString => Some (0%Z, s)
  end.

(** An unsigned decimal literal: digits, an optional fraction, an optional
    exponent; at least one digit before the exponent. *)
Definition take_decimal (s : string) : option (Q * string) :=
  let (ip, s1) := take_uint s in
  let (fp, s2) :=
    match s1 with
    | String "."%char r => take_uint r
    | _ => (Decimal.Nil, s1)
    end in
  match ip, fp with
  | Decimal.Nil, Decimal.Nil => None
  | _, _ =>
      match take_exponent s2 with
      | None => None
      | Some (e, s3) =>
          let i := inject_Z (Z.of_N (N.of_uint ip)) in
          let f := (inject_Z (Z.of_N (N.of_uint fp))
                    * pow10 (- Z.of_nat (Decimal.nb_digits fp)))%Q in
          Some (((i + f) * pow10 e)%Q, s3)
      end
  end.

Definition at_end (s : string) : bool := String.eqb (skip_ws s) "".

Definition starts_with (p s : string) : option string :=
  if String.prefix p s
  then Some (String.substring (String.length p) (String.length s - String.length p) s)
  else None.

(** [Number(s)]: the value of a string as a numeric literal. *)
Definition StringToNumber (s : string) : number :=
  let s1 := skip_ws s in
  if String.eqb s1 "" then of_Z 0 else
  match radix_prefix s1 with
  | Some (radix, r) =>
      match take_radix radix r None with
      | (Some n, rest) => if at_end rest then of_Z (Z.of_N n) else NaN
      | (None, _) => NaN
      end
  | None =>
      let (negative, s2) := take_sign s1 in
      match starts_with "Infinity" s2 with
      | Some rest => if at_end rest then Infinity negative else NaN
      | None =>
          match take_decimal s2 with
          | Some (q, rest) => if at_end rest then of_Q (signed negative q) else NaN
          | None => NaN
          end
      end
  end.

(** [parseInt(s)] without a radix argument. *)
Definition parseInt_string (s : string) : number :=
  let (negative, s1) := take_sign (skip_ws s) in
  let sign z := if negative then (- z)%Z else z in
  match radix_prefix s1 with
  | Some (16%N, r) =>
      match take_radix 16 r None with
      | (Some n, _) => of_Z (sign (Z.of_N n))
      | (None, _) => NaN
      end
  | _ =>
      match take_uint s1 with
      | (Decimal.Nil, _) => NaN
      | (u, _) => of_Z (sign (Z.of_N (N.of_uint u)))
      end
  end.

(** *** Printing numbers *)

Definition Z_to_string (z : Z) : string := NilEmpty.string_of_int (Z.to_int z).

Fixpoint zeros (n : nat) : string :=
  match n with
  | O => EmptyString
  | S k => String "0" (zeros k)
  end.

Fixpoint drop_zeros (l : list ascii) : list ascii :=
  match l with
  | "0"%char :: r => drop_zeros r
  | _ => l
  end.

Definition strip_trailing_zeros (s : string) : string :=
  string_of_list_ascii (rev (drop_zeros (rev (list_ascii_of_string s)))).

(** The number of fractional digits of [num / den], at most [fuel]. *)
Fixpoint frac_len (fuel : nat) (num den : Z) : nat :=
  match fuel with
  | O => O
  | S k => if (num mod den =? 0)%Z then O else S (frac_len k (num * 10) den)
  end.

(** [Number::toString] of a positive value that is not an integer below
    10^21: the digits [s], their number [k] and the decimal exponent [n]
    with [s * 10^(n - k)] the value, laid out as ECMAScript does.  The
    digits are those of the exact decimal expansion, cut after 20
    fractional digits. *)
Definition render_digits (num den : Z) : string :=
  let f := frac_len 20 num den in
  let ds := Z_to_string (num * 10 ^ Z.of_nat f / den) in
  let s := strip_trailing_zeros ds in
  let k := Z.of_nat (String.length s) in
  let n := (Z.of_nat (String.length ds) - Z.of_nat f)%Z in
  if (k <=? n)%Z && (n <=? 21)%Z then s ++ zeros (Z.to_nat (n - k))
  else if (0 <? n)%Z && (n <=? 21)%Z then
    String.substring 0 (Z.to_nat n) s ++ "."
      ++ String.substring (Z.to_nat n) (Z.to_nat (k - n)) s
  else if (-6 <? n)%Z && (n <=? 0)%Z then "0." ++ zeros (Z.to_nat (- n)) ++ s
  else
    let e := (n - 1)%Z in
    (if (k =? 1)%Z then s
     else String.substring 0 1 s ++ "." ++ String.substring 1 (Z.to_nat (k - 1)) s)
      ++ "e" ++ (if (e <? 0)%Z then "-" else "+") ++ Z_to_string (Z.abs e).

(** [String(x)] for a number [x]. *)
Definition NumberToString (x : number) : string :=
  match x with
  | NaN => "NaN"
  | Infinity negative => if negative then "-Infinity" else "Infinity"
  | Fin q =>
      let r := Qred q in
      if (Z.pos (Qden r) =? 1)%Z && (Z.abs (Qnum r) <? 10 ^ 21)%Z
      then Z_to_string (Qnum r)
      else (if is_neg r then "-" else "")
             ++ render_digits (Z.abs (Qnum r)) (Z.pos (Qden r))
  end.

(** *** Values *)

#[local] Set Warnings "-register-all".

Inductive value :=
| VUndefined
| VNull
| VBool (b : bool)
| VNum (n : number)
| VStr (s : string)
| VArr (items : list value)
| VObj (fields : list (string * value)).

(** [!!v] *)
Definition truthy (v : value) : bool :=
  match v with
  | VUndefined | VNull => false
  | VBool b => b
  | VNum (Fin q) => negb (is_zero q)
  | VNum NaN => false
  | VNum (Infinity _) => true
  | VStr s => negb (String.eqb s "")
  | VArr _ | VObj _ => true
  end.

(** [v === undefined] *)
Definition is_undefined (v : value) : bool :=
  match v with
  | VUndefined => true
  | _ => false
  end.

(** [v === n] for a number [n]: no value of another type is strictly
    equal to a number. *)
Definition strictly_equals (v : value) (n : number) : bool :=
  match v with
  | VNum x => num_eqb x n
  | _ => false
  end.

(** [String(v)]; an array joins its items with commas, printing nothing
    for [null] and [undefined]. *)
Fixpoint ToString (v : value) : string :=
  match v with
  | VUndefined => "undefined"
  | VNull => "null"
  | VBool b => if b then "true" else "false"
  | VNum n => NumberToString n
  | VStr s => s
  | VArr items =>
      (fix join (l : list value) : string :=
         match l with
         | [] => ""
         | x :: r =>
             let sx := match x with
                       | VUndefined | VNull => ""
                       | _ => ToString x
                       end in
             match r with
             | [] => sx
             | _ :: _ => sx ++ "," ++ join r
             end
         end) items
  | VObj _ => "[object Object]"
  end.

(** [Number(v)] *)
Definition ToNumber (v : value) : number :=
  match v with
  | VUndefined => NaN
  | VNull => of_Z 0
  | VBool b => of_Z (if b then 1 else 0)
  | VNum n => n
  | VStr s => StringToNumber s
  | VArr _ | VObj _ => StringToNumber (ToString v)
  end.

(** [a < b] and [a > b] when one operand is a number. *)
Definition lt (a b : value) : bool := num_lt (ToNumber a) (ToNumber b).
Definition gt (a b : value) : bool := num_lt (ToNumber b) (ToNumber a).

(** [parseInt(v)] *)
Definition parseInt (v : value) : number := parseInt_string (ToString v).

(** A parameter with a default, as in [const { page = 1 } = req.query]. *)
Definition or_default (v d : value) : value :=
  if is_undefined v then d else v.

(** *** Strings *)

(** [s.split(sep)] for a separator of one character. *)
Fixpoint split (sep : ascii) (s : string) : list string :=
  match s with
  | EmptyString => [EmptyString]
  | String a r =>
      if Ascii.eqb a sep then EmptyString :: split sep r
      else match split sep r with
           | h :: t => String a h :: t
           | [] => [String a EmptyString]
           end
  end.

(** [a.pop()]: the last item, [undefined] on an empty array. *)
Definition pop (a : list string) : option string := last a.

End JS.
Import JS.

(** ** Tables, bucket and external services *)

Module Soundboard.
Record t := {
  id : string;
  title : value;
  text : value;
  audioUrl : string;
  fileName : string;
  createdByEmail : value;
  createdAt : Z;
  updatedAt : Z
}.
End Soundboard.

Module History.
Record t := {
  email : value;
  id : string;
  title : value
}.
End History.

Module Message.
Record t := {
  message_id : string;
  email : string;
  message : value;
  created_at : Z;
  is_speech_to_text : value
}.
End Message.

Module Profile.
Record t := {
  name : value;
  email : value;
  profile_picture_url : value
}.
End Profile.

Module Feedback.
Record t := {
  id : Z;
  comment : value;
  rating : value
}.
End Feedback.

Module Report.
Record t := {
  id : string;
  comment : value;
  createdAt : Z;
  updatedAt : Z
}.
End Report.

Definition bytes := list Byte.byte.

(** An object of the bucket. *)
Record blob := {
  content : bytes;
  contentType : string
}.

Inductive sql := SELECT | INSERT | UPDATE | DELETE.

(** The calls a handler issues to the outside. *)
Inductive call :=
| synthesizeSpeech (text : value)
| file_save (name : string)
| file_exists (name : string)
| file_delete (name : string)
| query (statement : sql) (table : string).

Record world := {
  Soundboards : list Soundboard.t;
  HISTORY : list History.t;
  MESSAGE : list Message.t;
  profile : list Profile.t;
  feedback : list Feedback.t;
  Reports : list Report.t;
  bucket : gmap string blob;
  calls : list call
}.

(** What one request reads from its surroundings. *)
Record env := {
  GCP_BUCKET_NAME : string;          (* process.env.GCP_BUCKET_NAME *)
  uuidv4 : string;                   (* the identifier [uuidv4()] returns *)
  UUIDV4 : string;                   (* the default the ORM draws for an [id] *)
  Date_now : Z;                      (* the clock, in milliseconds *)
  audioContent : bytes;              (* the audio the synthesis answers with *)
  unordered : list Message.t -> list Message.t;
                                     (* the order the database answers a SELECT
                                        without ORDER BY in *)
  fault : call -> option string      (* the error an external call fails with *)
}.

Definition set_Soundboards (f : list Soundboard.t -> list Soundboard.t) (w : world) : world :=
  {| Soundboards := f (Soundboards w); HISTORY := HISTORY w; MESSAGE := MESSAGE w;
     profile := profile w; feedback := feedback w; Reports := Reports w;
     bucket := bucket w; calls := calls w |}.

Definition set_HISTORY (f : list History.t -> list History.t) (w : world) : world :=
  {| Soundboards := Soundboards w; HISTORY := f (HISTORY w); MESSAGE := MESSAGE w;
     profile := profile w; feedback := feedback w; Reports := Reports w;
     bucket := bucket w; calls := calls w |}.

Definition set_MESSAGE (f : list Message.t -> list Message.t) (w : world) : world :=
  {| Soundboards := Soundboards w; HISTORY := HISTORY w; MESSAGE := f (MESSAGE w);
     profile := profile w; feedback := feedback w; Reports := Reports w;
     bucket := bucket w; calls := calls w |}.

Definition set_profile (f : list Profile.t -> list Profile.t) (w : world) : world :=
  {| Soundboards := Soundboards w; HISTORY := HISTORY w; MESSAGE := MESSAGE w;
     profile := f (profile w); feedback := feedback w; Reports := Reports w;
     bucket := bucket w; calls := calls w |}.

Definition set_feedback (f : list Feedback.t -> list Feedback.t) (w : world) : world :=
  {| Soundboards := Soundboards w; HISTORY := HISTORY w; MESSAGE := MESSAGE w;
     profile := profile w; feedback := f (feedback w); Reports := Reports w;
     bucket := bucket w; calls := calls w |}.

Definition set_bucket (f : gmap string blob -> gmap string blob) (w : world) : world :=
  {| Soundboards := Soundboards w; HISTORY := HISTORY w; MESSAGE := MESSAGE w;
     profile := profile w; feedback := feedback w; Reports := Reports w;
     bucket := f (bucket w); calls := calls w |}.

Definition log (c : call) (w : world) : world :=
  {| Soundboards := Soundboards w; HISTORY := HISTORY w; MESSAGE := MESSAGE w;
     profile := profile w; feedback := feedback w; Reports := Reports w;
     bucket := bucket w; calls := (calls w ++ [c])%list |}.

(** ** Computations that change the world or throw *)

Inductive result (A : Type) :=
| Ok (a : A)
| Err (message : string).
Arguments Ok {A} a.
Arguments Err {A} message.

Definition M (A : Type) : Type := world -> result A * world.

Definition ret {A} (a : A) : M A := fun w => (Ok a, w).

Definition throw {A} (message : string) : M A := fun w => (Err message, w).

Definition bind {A B} (m : M A) (k : A -> M B) : M B :=
  fun w =>
    match m w with
    | (Ok a, w') => k a w'
    | (Err message, w') => (Err message, w')
    end.

(** [try { m } catch (error) { h error.message }] *)
Definition try_catch {A} (m : M A) (h : string -> M A) : M A :=
  fun w =>
    match m w with
    | (Ok a, w') => (Ok a, w')
    | (Err message, w') => h message w'
    end.

Definition get : M world := fun w => (Ok w, w).

Definition modify (f : world -> world) : M unit := fun w => (Ok tt, f w).

Declare Scope handler_scope.
Delimit Scope handler_scope with handler.
Notation "'let!' x ':=' m 'in' k" := (bind m (fun x => k))
  (at level 10, x name, m at level 100, k at level 200) : handler_scope.
Notation "'do!' m 'in' k" := (bind m (fun _ => k))
  (at level 10, m at level 100, k at level 200) : handler_scope.
Open Scope handler_scope.

(** An external call is logged, then fails if the surroundings say so. *)
Definition external (e : env) (c : call) : M unit :=
  fun w =>
    match fault e c with
    | Some message => (Err message, log c w)
    | None => (Ok tt, log c w)
    end.

(** [await Promise.all(l.map(async (x) => f x))]: [map] starts the callback
    of every element in turn, also after one of them has thrown; a
    rejection is what the [await] throws, the first one if there are
    several. *)
Fixpoint Promise_all_map {A B} (f : A -> M B) (l : list A) : M (list B) :=
  match l with
  | [] => ret []
  | x :: r =>
      fun w =>
        match f x w with
        | (Ok y, w1) => (let! ys := Promise_all_map f r in ret (y :: ys)) w1
        | (Err message, w1) => (Err message, snd (Promise_all_map f r w1))
        end
  end.

(** ** Responses *)

Record response := {
  status : nat;
  json : value
}.

(** [res.status(code).json(body)] *)
Definition respond (code : nat) (body : value) : response :=
  {| status := code; json := body |}.

(** A route: the handler body inside its [try], and the [catch] that
    answers with the 500 the handler builds from the error message. *)
Definition route (m : M response) (h : string -> response) : world -> response * world :=
  fun w =>
    match m w with
    | (Ok r, w') => (r, w')
    | (Err message, w') => (h message, w')
    end.

(** [const { name } = object] *)
Definition prop (object : gmap string value) (name : string) : value :=
  default VUndefined (object !! name).

(** ** The database

    [sequelize.define] declares every column [allowNull: false]; a text
    column refuses [null], [undefined], arrays and objects before any
    statement is sent.  A statement reaches the database as an external
    call; the database then enforces the primary keys. *)

Definition accepts_text (v : value) : bool :=
  match v with
  | VBool _ | VNum _ | VStr _ => true
  | VUndefined | VNull | VArr _ | VObj _ => false
  end.

Definition not_null (v : value) : bool :=
  match v with
  | VUndefined | VNull => false
  | _ => true
  end.

(** [column = ?] *)
Definition sql_eq (a b : value) : bool :=
  match a, b with
  | VStr x, VStr y => String.eqb x y
  | VNum x, VNum y => num_eqb x y
  | VBool x, VBool y => Bool.eqb x y
  | _, _ => false
  end.

(** [ORDER BY createdAt DESC] *)
Definition newest_first {A} (createdAt : A -> Z) : relation A :=
  fun a b => (createdAt b <= createdAt a)%Z.

#[global] Instance newest_first_dec {A} (createdAt : A -> Z) :
  RelDecision (newest_first createdAt) :=
  fun a b => Z_le_dec (createdAt b) (createdAt a).

(** [Soundboard.create({ text, title, audioUrl, fileName, createdByEmail })] *)
Definition Soundboard_create (e : env) (text title : value)
    (audioUrl fileName : string) (createdByEmail : value) : M Soundboard.t :=
  if negb (accepts_text title && accepts_text text && accepts_text createdByEmail)
  then throw "Validation error"
  else
    do! external e (query INSERT "Soundboards") in
    let! w := get in
    if existsb (fun r => String.eqb (Soundboard.id r) (UUIDV4 e)) (Soundboards w)
    then throw "Validation error"
    else
      let row := {| Soundboard.id := UUIDV4 e;
                    Soundboard.title := title;
                    Soundboard.text := text;
                    Soundboard.audioUrl := audioUrl;
                    Soundboard.fileName := fileName;
                    Soundboard.createdByEmail := createdByEmail;
                    Soundboard.createdAt := Date_now e;
                    Soundboard.updatedAt := Date_now e |} in
      do! modify (set_Soundboards (fun rows => (rows ++ [row])%list)) in
      ret row.

(** [Soundboard.findAll({ where: { createdByEmail: email },
    order: [["createdAt", "DESC"]] })] *)
Definition Soundboard_findAll (e : env) (email : string) : M (list Soundboard.t) :=
  do! external e (query SELECT "Soundboards") in
  let! w := get in
  ret (merge_sort (newest_first Soundboard.createdAt)
         (List.filter (fun r => sql_eq (Soundboard.createdByEmail r) (VStr email))
            (Soundboards w))).

(** [Soundboard.findByPk(id)] *)
Definition Soundboard_findByPk (e : env) (id : string) : M (option Soundboard.t) :=
  do! external e (query SELECT "Soundboards") in
  let! w := get in
  ret (List.find (fun r => String.eqb (Soundboard.id r) id) (Soundboards w)).

(** [soundboard.destroy()] *)
Definition Soundboard_destroy (e : env) (soundboard : Soundboard.t) : M unit :=
  do! external e (query DELETE "Soundboards") in
  modify (set_Soundboards
            (List.filter (fun r => negb (String.eqb (Soundboard.id r)
                                           (Soundboard.id soundboard))))).

(** [soundboard.toJSON()] *)
Definition Soundboard_toJSON (r : Soundboard.t) : list (string * value) :=
  [("id", VStr (Soundboard.id r));
   ("text", Soundboard.text r);
   ("title", Soundboard.title r);
   ("audioUrl", VStr (Soundboard.audioUrl r));
   ("fileName", VStr (Soundboard.fileName r));
   ("createdByEmail", Soundboard.createdByEmail r);
   ("createdAt", VNum (of_Z (Soundboard.createdAt r)));
   ("updatedAt", VNum (of_Z (Soundboard.updatedAt r)))].

(** [History.findOne({ where: { email } })] *)
Definition History_findOne (e : env) (email : value) : M (option History.t) :=
  do! external e (query SELECT "HISTORY") in
  let! w := get in
  ret (List.find (fun r => sql_eq (History.email r) email) (HISTORY w)).

(** [History.create({ email, id, title })] *)
Definition History_create (e : env) (email : value) (id : string) (title : value) : M unit :=
  if negb (accepts_text email && accepts_text title)
  then throw "Validation error"
  else
    do! external e (query INSERT "HISTORY") in
    let! w := get in
    if existsb (fun r => sql_eq (History.email r) email) (HISTORY w)
    then throw "Validation error"
    else
      modify (set_HISTORY (fun rows =>
        (rows ++ [{| History.email := email; History.id := id;
                     History.title := title |}])%list)).

(** [Message.create({ message_id, email, message, created_at,
    is_speech_to_text })]; [Message.belongsTo(History)] makes [email] a
    foreign key. *)
Definition Message_create (e : env) (message_id email : string) (message : value)
    (created_at : Z) (is_speech_to_text : value) : M unit :=
  if negb (accepts_text message && not_null is_speech_to_text)
  then throw "Validation error"
  else
    do! external e (query INSERT "MESSAGE") in
    let! w := get in
    if existsb (fun r => String.eqb (Message.message_id r) message_id) (MESSAGE w)
    then throw "Validation error"
    else if negb (existsb (fun r => sql_eq (History.email r) (VStr email)) (HISTORY w))
    then throw "Cannot add or update a child row: a foreign key constraint fails"
    else
      modify (set_MESSAGE (fun rows =>
        (rows ++ [{| Message.message_id := message_id;
                     Message.email := email;
                     Message.message := message;
                     Message.created_at := created_at;
                     Message.is_speech_to_text := is_speech_to_text |}])%list)).

(** [const [result] = await sequelize.query("UPDATE profile SET name = ?
    WHERE email = ?", { type: QueryTypes.UPDATE })], with the picture when
    there is one.  To a statement of type [UPDATE] the mysql dialect of
    Sequelize answers [[undefined, affectedRows]]: its first component is
    the model instance of the query, which a raw query does not have.  The
    handler reads this first component only, and it is what is returned
    here. *)
Definition profile_update (e : env) (name profilePictureUrl : value) (email : string)
    : M value :=
  do! external e (query UPDATE "profile") in
  let matched r := sql_eq (Profile.email r) (VStr email) in
  do! modify (set_profile (map (fun r =>
        if matched r
        then {| Profile.name := name;
                Profile.email := Profile.email r;
                Profile.profile_picture_url :=
                  if truthy profilePictureUrl then profilePictureUrl
                  else Profile.profile_picture_url r |}
        else r))) in
  ret VUndefined.

(** [INSERT INTO feedback (comment, rating) VALUES (?, ?)]; the result is
    the identifier the table assigned. *)
Definition feedback_insert (e : env) (comment rating : value) : M Z :=
  do! external e (query INSERT "feedback") in
  let! w := get in
  let id := (1 + fold_right Z.max 0 (map Feedback.id (feedback w)))%Z in
  do! modify (set_feedback (fun rows =>
        (rows ++ [{| Feedback.id := id; Feedback.comment := comment;
                     Feedback.rating := rating |}])%list)) in
  ret id.

(** A [LIMIT] or an [OFFSET]: a natural number, anything else is an error
    of the statement. *)
Definition row_count (n : number) : option nat :=
  match n with
  | Fin q =>
      let r := Qred q in
      if (Z.pos (Qden r) =? 1)%Z && (0 <=? Qnum r)%Z
      then Some (Z.to_nat (Qnum r))
      else None
  | _ => None
  end.

(** [Report.findAndCountAll({ limit, offset, order: [["createdAt", "DESC"]] })] *)
Definition Report_findAndCountAll (e : env) (limit offset : number)
    : M (nat * list Report.t) :=
  do! external e (query SELECT "Reports") in
  let! w := get in
  match row_count limit, row_count offset with
  | Some l, Some o =>
      ret (length (Reports w),
           take l (drop o (merge_sort (newest_first Report.createdAt) (Reports w))))
  | _, _ => throw "You have an error in your SQL syntax"
  end.

Definition Report_toJSON (r : Report.t) : value :=
  VObj [("id", VStr (Report.id r));
        ("comment", Report.comment r);
        ("createdAt", VNum (of_Z (Report.createdAt r)));
        ("updatedAt", VNum (of_Z (Report.updatedAt r)))].

(** ** The bucket *)

(** [bucket.file(name).save(buffer, { contentType })] *)
Definition file_save_ (e : env) (name : string) (buffer : bytes) (type : string) : M unit :=
  do! external e (file_save name) in
  modify (set_bucket (fun b => <[name := {| content := buffer; contentType := type |}]> b)).

(** [bucket.file(name).exists()] *)
Definition file_exists_ (e : env) (name : string) : M bool :=
  do! external e (file_exists name) in
  let! w := get in
  ret (bool_decide (is_Some (bucket w !! name))).

(** [bucket.file(name).delete()]: an error when there is no such object. *)
Definition file_delete_ (e : env) (name : string) : M unit :=
  do! external e (file_delete name) in
  let! w := get in
  match bucket w !! name with
  | None => throw ("No such object: " ++ name)
  | Some _ => modify (set_bucket (fun b => delete name b))
  end.

(** ** Helper functions of the application *)

Definition generateSpeech (e : env) (text : value) : M bytes :=
  try_catch
    (do! external e (synthesizeSpeech text) in
     ret (audioContent e))
    (fun message => throw ("Error generating speech: " ++ message)).

Definition uploadToGCS (e : env) (buffer : bytes) (filename contentType : string)
    : M string :=
  try_catch
    (do! file_save_ e filename buffer contentType in
     ret ("https://storage.googleapis.com/" ++ GCP_BUCKET_NAME e ++ "/" ++ filename))
    (fun message => throw ("Error uploading to Google Cloud Storage: " ++ message)).

(** [bucket.file(url.split("/").pop())]; the client throws when the name is
    falsy ([if (!name)]): a missing name and the empty one, which is the last
    segment of an empty URL and of one that ends in a slash. *)
Definition bucket_file (url : string) : M string :=
  match pop (split "/" url) with
  | Some filename =>
      if negb (truthy (VStr filename))
      then throw "A file name must be specified."
      else ret filename
  | None => throw "A file name must be specified."
  end.

(** ** Routes *)

Definition failure (key message : string) : value :=
  VObj [("success", VBool false); (key, VStr message)].

(** [POST /soundboards] *)
Definition post_soundboards (e : env) (body : gmap string value)
    : world -> response * world :=
  route
    (let title := prop body "title" in
     let text := prop body "text" in
     let email := prop body "email" in
     if negb (truthy title) || negb (truthy text) || negb (truthy email)
     then ret (respond 400 (VObj [("error", VStr "Title, text, and email are required")]))
     else
       let! audioBuffer := generateSpeech e text in
       let fileName := uuidv4 e ++ ".mp3" in
       let! audioUrl := uploadToGCS e audioBuffer fileName "audio/mpeg" in
       let! soundboard := Soundboard_create e text title audioUrl fileName email in
       ret (respond 201
              (VObj [("success", VBool true);
                     ("message", VStr "Soundboard created successfully");
                     ("data", VObj (Soundboard_toJSON soundboard))])))
    (fun _ => respond 500 (failure "error" "Failed to create soundboard")).

(** The check of one listed soundboard. *)
Definition validate_soundboard (e : env) (soundboard : Soundboard.t) : M value :=
  let! filename := bucket_file (Soundboard.audioUrl soundboard) in
  try_catch
    (let! exists_ := file_exists_ e filename in
     ret (VObj (Soundboard_toJSON soundboard ++ [("fileExists", VBool exists_)])%list))
    (fun _ =>
     ret (VObj (Soundboard_toJSON soundboard ++ [("fileExists", VBool false)])%list)).

(** [GET /soundboards/:email] *)
Definition get_soundboards (e : env) (email : string) : world -> response * world :=
  route
    (let! soundboards := Soundboard_findAll e email in
     if (length soundboards =? 0)%nat
     then ret (respond 404
                 (VObj [("success", VBool false);
                        ("message", VStr "No soundboards found for this email")]))
     else
       let! validatedSoundboards := Promise_all_map (validate_soundboard e) soundboards in
       ret (respond 200
              (VObj [("success", VBool true);
                     ("message", VStr "Soundboards retrieved successfully");
                     ("data", VArr validatedSoundboards)])))
    (fun _ => respond 500 (failure "error" "Failed to fetch soundboards")).

(** [DELETE /soundboards/:id] *)
Definition delete_soundboards (e : env) (id : string) : world -> response * world :=
  route
    (let! found := Soundboard_findByPk e id in
     match found with
     | None =>
         ret (respond 404
                (VObj [("success", VBool false); ("message", VStr "Soundboard not found")]))
     | Some soundboard =>
         let! filename := bucket_file (Soundboard.audioUrl soundboard) in
         do! try_catch (file_delete_ e filename) (fun _ => ret tt) in
         do! Soundboard_destroy e soundboard in
         ret (respond 200
                (VObj [("success", VBool true);
                       ("message", VStr "Soundboard deleted successfully")]))
     end)
    (fun _ => respond 500 (failure "error" "Failed to delete soundboard")).

(** [POST /history/email] *)
Definition post_history_email (e : env) (body : gmap string value)
    : world -> response * world :=
  route
    (let email := prop body "email" in
     let title := prop body "title" in
     if negb (truthy email) || negb (truthy title)
     then ret (respond 400 (VObj [("message", VStr "Email dan title harus diisi")]))
     else
       let! existingHistory := History_findOne e email in
       match existingHistory with
       | Some _ => ret (respond 400 (VObj [("message", VStr "Email sudah terdaftar")]))
       | None =>
           let id := uuidv4 e in
           do! History_create e email id title in
           ret (respond 201
                  (VObj [("message", VStr "Data History berhasil dibuat");
                         ("data", VObj [("email", email); ("id", VStr id);
                                        ("title", title)])]))
       end)
    (fun message => respond 500 (VObj [("message", VStr message)])).

(** [POST /history/:email]; the route above takes the requests whose path
    is [/history/email], this one the others. *)
Definition post_history (e : env) (email : string) (body : gmap string value)
    : world -> response * world :=
  route
    (let message := prop body "message" in
     let is_speech_to_text := prop body "is_speech_to_text" in
     if negb (truthy message) || is_undefined is_speech_to_text
     then ret (respond 400
                 (VObj [("message", VStr "Message dan is_speech_to_text harus diisi")]))
     else
       let! existingHistory := History_findOne e (VStr email) in
       match existingHistory with
       | None =>
           ret (respond 404
                  (VObj [("message",
                          VStr ("History dengan email " ++ email ++ " tidak ditemukan"))]))
       | Some _ =>
           let message_id := uuidv4 e in
           let created_at := Date_now e in
           do! Message_create e message_id email message created_at is_speech_to_text in
           ret (respond 201
                  (VObj [("message", VStr "Data Message berhasil dibuat");
                         ("data", VObj [("message_id", VStr message_id);
                                        ("email", VStr email);
                                        ("message", message);
                                        ("created_at", VNum (of_Z created_at));
                                        ("is_speech_to_text", is_speech_to_text)])]))
       end)
    (fun message => respond 500 (VObj [("message", VStr message)])).

(** The file of a multipart request. *)
Record upload := {
  originalname : string;
  buffer : bytes;
  mimetype : string
}.

Definition allowedMimes : list string := ["image/jpeg"; "image/png"; "image/jpg"].

(** [upload.single("profile_picture")]: the filter and the size limit of
    the multer configuration. *)
Definition upload_single (file : option upload) : result (option upload) :=
  match file with
  | None => Ok None
  | Some f =>
      if negb (existsb (String.eqb (mimetype f)) allowedMimes)
      then Err "File harus berupa gambar."
      else if (5 * 1024 * 1024 <? Z.of_nat (length (buffer f)))%Z
      then Err "File too large"
      else Ok (Some f)
  end.

(** [PUT /profile/:email]; an error of the upload middleware is answered
    by the error-handling middleware. *)
Definition put_profile (e : env) (email : string) (body : gmap string value)
    (file : option upload) : world -> response * world :=
  match upload_single file with
  | Err message => fun w => (respond 500 (failure "message" message), w)
  | Ok req_file =>
      route
        (let name := prop body "name" in
         if negb (truthy name)
         then ret (respond 400 (failure "message" "Name is required"))
         else
           let! profilePictureUrl :=
             match req_file with
             | Some f =>
                 let filename :=
                   "profiles/" ++ Z_to_string (Date_now e) ++ "-" ++ originalname f in
                 let! url := uploadToGCS e (buffer f) filename (mimetype f) in
                 ret (VStr url)
             | None => ret VNull
             end in
           let! result := profile_update e name profilePictureUrl email in
           if strictly_equals result (of_Z 0)
           then ret (respond 404 (failure "message" "Profile not found"))
           else ret (respond 200
                       (VObj [("success", VBool true);
                              ("message", VStr "Profile updated successfully")])))
        (fun message => respond 500 (failure "message" message))
  end.

(** [POST /feedback] *)
Definition post_feedback (e : env) (body : gmap string value)
    : world -> response * world :=
  route
    (let comment := prop body "comment" in
     let rating := prop body "rating" in
     if negb (truthy comment) || negb (truthy rating)
     then ret (respond 400 (failure "message" "Rating harus diisi"))
     else if lt rating (VNum (of_Z 1)) || gt rating (VNum (of_Z 4))
     then ret (respond 400 (failure "message" "Rating harus antara 1-4"))
     else
       let! result := feedback_insert e comment rating in
       ret (respond 201
              (VObj [("success", VBool true);
                     ("data", VObj [("id", VNum (of_Z result));
                                    ("comment", comment);
                                    ("rating", rating)])])))
    (fun message => respond 500 (failure "message" message)).

(** [GET /report] *)
Definition get_report (e : env) (query_ : gmap string value)
    : world -> response * world :=
  route
    (let page := or_default (prop query_ "page") (VNum (of_Z 1)) in
     let limit := or_default (prop query_ "limit") (VNum (of_Z 10)) in
     let offset := mul (sub (ToNumber page) (of_Z 1)) (ToNumber limit) in
     let! found := Report_findAndCountAll e (parseInt limit) (parseInt (VNum offset)) in
     let count := of_Z (Z.of_nat (fst found)) in
     let reports := snd found in
     ret (respond 200
            (VObj [("success", VBool true);
                   ("total", VNum count);
                   ("currentPage", VNum (parseInt page));
                   ("totalPages", VNum (Math_ceil (div count (ToNumber limit))));
                   ("data", VArr (map Report_toJSON reports))])))
    (fun message => respond 500 (failure "message" message)).

(** ** Vocabulary of the statements *)

(** A field that is missing from the body, or the empty text. *)
Definition missing_or_empty (v : value) : Prop := v = VUndefined \/ v = VStr "".

(** A field that holds the non-empty text [s]. *)
Definition nonempty_text (v : value) (s : string) : Prop := v = VStr s /\ s <> "".

Fixpoint contains (c : ascii) (s : string) : bool :=
  match s with
  | EmptyString => false
  | String a r => Ascii.eqb a c || contains c r
  end.

Definition is_hex (a : ascii) : bool :=
  let n := nat_of_ascii a in
  ((48 <=? n) && (n <=? 57) || (97 <=? n) && (n <=? 102))%nat.

Fixpoint uuid_chars (i : nat) (s : string) : bool :=
  match s with
  | EmptyString => true
  | String a r =>
      (if existsb (Nat.eqb i) [8; 13; 18; 23]%nat then Ascii.eqb a "-" else is_hex a)
      && uuid_chars (S i) r
  end.

(** The text of an identifier as the [uuid] package prints it: 36
    characters, hexadecimal digits in groups of 8, 4, 4, 4 and 12 separated
    by hyphens. *)
Definition is_uuid (s : string) : bool :=
  (String.length s =? 36)%nat && uuid_chars 0 s.

(** The invariant of a soundboard: the last segment of its URL is the name
    of its file. *)
Definition url_names_file (r : Soundboard.t) : Prop :=
  pop (split "/" (Soundboard.audioUrl r)) = Some (Soundboard.fileName r).

(** The last segment of the URL of a soundboard is not empty, so that the
    client of the bucket takes it as the name of an object. *)
Definition names_an_object (r : Soundboard.t) : bool :=
  match pop (split "/" (Soundboard.audioUrl r)) with
  | Some filename => negb (String.eqb filename "")
  | None => false
  end.

(** The soundboards of an owner, in table order. *)
Definition owned_by (email : string) (w : world) : list Soundboard.t :=
  List.filter (fun r => sql_eq (Soundboard.createdByEmail r) (VStr email)) (Soundboards w).

(** What the existence check of a listed soundboard comes to: the object
    is in the bucket and the check did not fail. *)
Definition fileExists (e : env) (objects : gmap string blob) (r : Soundboard.t) : bool :=
  match pop (split "/" (Soundboard.audioUrl r)) with
  | Some filename =>
      match fault e (file_exists filename) with
      | Some _ => false
      | None => bool_decide (is_Some (objects !! filename))
      end
  | None => false
  end.

(** A soundboard as the listing returns it. *)
Definition listed (e : env) (objects : gmap string blob) (r : Soundboard.t) : value :=
  VObj (Soundboard_toJSON r ++ [("fileExists", VBool (fileExists e objects r))])%list.

(** The rows of [HISTORY] whose key is [email]. *)
Definition history_of (email : string) (w : world) : list History.t :=
  List.filter (fun r => sql_eq (History.email r) (VStr email)) (HISTORY w).

(** No two rows of [HISTORY] have the same key. *)
Fixpoint unique_emails (rows : list History.t) : bool :=
  match rows with
  | [] => true
  | r :: rest =>
      negb (existsb (fun r' => sql_eq (History.email r') (History.email r)) rest)
      && unique_emails rest
  end.

Definition no_history (email : string) (w : world) : Prop :=
  forall r, In r (HISTORY w) -> History.email r <> VStr email.

Definition history_not_found (email : string) : response :=
  respond 404
    (VObj [("message", VStr ("History dengan email " ++ email ++ " tidak ditemukan"))]).

Definition is_integer (q : Q) : Prop := Qden (Qred q) = 1%positive.

(** The identifier the [feedback] table assigns next. *)
Definition next_feedback_id (w : world) : Z :=
  (1 + fold_right Z.max 0 (map Feedback.id (feedback w)))%Z.

Definition MAX_SAFE_INTEGER : Z := 2 ^ 53 - 1.

(** A parameter of the query string: the decimal numeral of [n], or
    nothing when [n] is the default [d]. *)
Definition numeral_or_default (v : value) (n d : Z) : Prop :=
  v = VStr (Z_to_string n) \/ (v = VUndefined /\ n = d).

(** The reports of a page: newest first, [(page - 1) * limit] rows
    skipped, at most [limit] rows kept. *)
Definition reports_page (w : world) (page limit : Z) : list Report.t :=
  take (Z.to_nat limit)
    (drop (Z.to_nat ((page - 1) * limit))
       (merge_sort (newest_first Report.createdAt) (Reports w))).

(** The key a profile picture is stored under. *)
Definition profile_picture_key (e : env) (file : upload) : string :=
  "profiles/" ++ Z_to_string (Date_now e) ++ "-" ++ originalname file.

(** ** Sample requests *)

Definition env0 : env :=
  {| GCP_BUCKET_NAME := "handlips-audio";
     uuidv4 := "3f2b8c1e-9a4d-4e6f-8b7a-1c2d3e4f5a6b";
     UUIDV4 := "0b6f1c2a-7d3e-4a8b-9c5d-2e1f0a9b8c7d";
     Date_now := 1730419200000;
     audioContent := [];
     unordered := fun rows => rows;
     fault := fun _ => None |}.

(** The storage service is unreachable. *)
Definition env_storage_down : env :=
  {| GCP_BUCKET_NAME := GCP_BUCKET_NAME env0;
     uuidv4 := uuidv4 env0;
     UUIDV4 := UUIDV4 env0;
     Date_now := Date_now env0;
     audioContent := audioContent env0;
     unordered := unordered env0;
     fault := fun c =>
       match c with
       | file_save _ | file_exists _ | file_delete _ => Some "ECONNRESET"
       | _ => None
       end |}.

(** The speech synthesis is unreachable. *)
Definition env_synthesis_down : env :=
  {| GCP_BUCKET_NAME := GCP_BUCKET_NAME env0;
     uuidv4 := uuidv4 env0;
     UUIDV4 := UUIDV4 env0;
     Date_now := Date_now env0;
     audioContent := audioContent env0;
     unordered := unordered env0;
     fault := fun c =>
       match c with
       | synthesizeSpeech _ => Some "UNAVAILABLE"
       | _ => None
       end |}.

(** A later request: other identifiers, a later clock. *)
Definition env1 : env :=
  {| GCP_BUCKET_NAME := GCP_BUCKET_NAME env0;
     uuidv4 := "9d8c7b6a-5f4e-4d3c-a2b1-0f9e8d7c6b5a";
     UUIDV4 := "6a5b4c3d-2e1f-4a0b-8c9d-7e6f5a4b3c2d";
     Date_now := 1730419260000;
     audioContent := audioContent env0;
     unordered := unordered env0;
     fault := fun _ => None |}.

Definition world0 : world :=
  {| Soundboards := []; HISTORY := []; MESSAGE := []; profile := [];
     feedback := []; Reports := []; bucket := ∅; calls := [] |}.

Definition soundboard_body : gmap string value :=
  {[ "title" := VStr "Salam"; "text" := VStr "Selamat pagi"; "email" := VStr "sari@example.com" ]}.

Definition history_body : gmap string value :=
  {[ "email" := VStr "sari@example.com"; "title" := VStr "Percakapan" ]}.

Definition message_body : gmap string value :=
  {[ "message" := VStr "Apa kabar?"; "is_speech_to_text" := VBool true ]}.

Definition feedback_body (rating : value) : gmap string value :=
  {[ "comment" := VStr "Bagus"; "rating" := rating ]}.

Definition picture : upload :=
  {| originalname := "sari.png"; buffer := []; mimetype := "image/png" |}.

(** The world after two soundboards of the same owner were created. *)
Definition world_soundboards : world :=
  snd (post_soundboards env1 soundboard_body (snd (post_soundboards env0 soundboard_body world0))).

(** The world after a history was opened. *)
Definition world_history : world := snd (post_history_email env0 history_body world0).

(** A world with 25 reports. *)
Definition world_reports : world :=
  {| Soundboards := []; HISTORY := []; MESSAGE := []; profile := []; feedback := [];
     Reports := map (fun i : nat =>
                       {| Report.id := Z_to_string (Z.of_nat i);
                          Report.comment := VStr "Suara tidak keluar";
                          Report.createdAt := Date_now env0 + Z.of_nat i;
                          Report.updatedAt := Date_now env0 + Z.of_nat i |})
                    (seq 0 25);
     bucket := ∅; calls := [] |}.

(** ** The other routes of the application *)

Definition set_Reports (f : list Report.t -> list Report.t) (w : world) : world :=
  {| Soundboards := Soundboards w; HISTORY := HISTORY w; MESSAGE := MESSAGE w;
     profile := profile w; feedback := feedback w; Reports := f (Reports w);
     bucket := bucket w; calls := calls w |}.

(** [Message.findAll({ where: { email } })]: the statement has no
    [ORDER BY], so the rows come in the order the database chooses. *)
Definition Message_findAll (e : env) (email : string) : M (list Message.t) :=
  do! external e (query SELECT "MESSAGE") in
  let! w := get in
  ret (unordered e (List.filter (fun m => String.eqb (Message.email m) email) (MESSAGE w))).

(** [Message.destroy({ where: { email } })] *)
Definition Message_destroy (e : env) (email : string) : M unit :=
  do! external e (query DELETE "MESSAGE") in
  modify (set_MESSAGE (List.filter (fun m => negb (String.eqb (Message.email m) email)))).

(** [History.destroy({ where: { email } })] *)
Definition History_destroy (e : env) (email : string) : M unit :=
  do! external e (query DELETE "HISTORY") in
  modify (set_HISTORY
            (List.filter (fun r => negb (sql_eq (History.email r) (VStr email))))).

Definition History_toJSON (r : History.t) : value :=
  VObj [("email", History.email r); ("id", VStr (History.id r));
        ("title", History.title r)].

Definition Message_toJSON (m : Message.t) : value :=
  VObj [("message_id", VStr (Message.message_id m));
        ("email", VStr (Message.email m));
        ("message", Message.message m);
        ("created_at", VNum (of_Z (Message.created_at m)));
        ("is_speech_to_text", Message.is_speech_to_text m)].

(** [SELECT * FROM profile WHERE email = ?]; the columns of a profile are
    those the statements of the application name. *)
Definition profile_select (e : env) (email : value) : M (list Profile.t) :=
  do! external e (query SELECT "profile") in
  let! w := get in
  ret (List.filter (fun r => sql_eq (Profile.email r) email) (profile w)).

(** [INSERT INTO profile (name, email) VALUES (?, ?)] *)
Definition profile_insert (e : env) (name email : value) : M unit :=
  do! external e (query INSERT "profile") in
  modify (set_profile (fun rows =>
    (rows ++ [{| Profile.name := name; Profile.email := email;
                 Profile.profile_picture_url := VNull |}])%list)).

Definition Profile_toJSON (r : Profile.t) : value :=
  VObj [("name", Profile.name r); ("email", Profile.email r);
        ("profile_picture_url", Profile.profile_picture_url r)].

(** [Report.create({ comment })] *)
Definition Report_create (e : env) (comment : value) : M Report.t :=
  if negb (accepts_text comment)
  then throw "Validation error"
  else
    do! external e (query INSERT "Reports") in
    let! w := get in
    if existsb (fun r => String.eqb (Report.id r) (UUIDV4 e)) (Reports w)
    then throw "Validation error"
    else
      let report := {| Report.id := UUIDV4 e;
                       Report.comment := comment;
                       Report.createdAt := Date_now e;
                       Report.updatedAt := Date_now e |} in
      do! modify (set_Reports (fun rows => (rows ++ [report])%list)) in
      ret report.

(** [GET /] *)
Definition get_root : response :=
  respond 200 (VObj [("success", VBool true);
                     ("message", VStr "Welcome to the jungle");
                     ("version", VStr "1.0.0")]).

(** [GET /health]; [uptime] is what [process.uptime()] answers. *)
Definition get_health (e : env) (uptime : number) : response :=
  respond 200 (VObj [("success", VBool true);
                     ("timestamp", VNum (of_Z (Date_now e)));
                     ("uptime", VNum uptime);
                     ("status", VStr "healthy")]).

(** [GET /history/:email] *)
Definition get_history (e : env) (email : string) : world -> response * world :=
  route
    (let! history := History_findOne e (VStr email) in
     match history with
     | None =>
         ret (respond 404
                (VObj [("message",
                        VStr ("History dengan email " ++ email ++ " tidak ditemukan"))]))
     | Some h =>
         let! messages := Message_findAll e email in
         ret (respond 200
                (VObj [("message", VStr "Data ditemukan");
                       ("data", VObj [("history", History_toJSON h);
                                      ("messages", VArr (map Message_toJSON messages))])]))
     end)
    (fun message => respond 500 (VObj [("message", VStr message)])).

(** [DELETE /history/:email] *)
Definition delete_history (e : env) (email : string) : world -> response * world :=
  route
    (let! history := History_findOne e (VStr email) in
     match history with
     | None =>
         ret (respond 404
                (VObj [("message",
                        VStr ("History dengan email " ++ email ++ " tidak ditemukan"))]))
     | Some _ =>
         do! Message_destroy e email in
         do! History_destroy e email in
         ret (respond 200
                (VObj [("message",
                        VStr ("History dan message dengan email " ++ email
                              ++ " telah dihapus"))]))
     end)
    (fun message => respond 500 (VObj [("message", VStr message)])).

(** [POST /profile] *)
Definition post_profile (e : env) (body : gmap string value)
    : world -> response * world :=
  route
    (let name := prop body "name" in
     let email := prop body "email" in
     if negb (truthy name) || negb (truthy email)
     then ret (respond 400 (failure "message" "Name and email are required"))
     else
       let! existingProfile := profile_select e email in
       if (0 <? length existingProfile)%nat
       then ret (respond 400 (failure "message" "Email already exists"))
       else
         do! profile_insert e name email in
         ret (respond 201
                (VObj [("success", VBool true);
                       ("message", VStr "Profile created successfully");
                       ("data", VObj [("name", name); ("email", email)])])))
    (fun message => respond 500 (failure "message" message)).

(** [GET /profile/:email] *)
Definition get_profile (e : env) (email : string) : world -> response * world :=
  route
    (let! rows := profile_select e (VStr email) in
     match rows with
     | [] => ret (respond 404 (failure "message" "Profile not found"))
     | profile :: _ =>
         ret (respond 200 (VObj [("success", VBool true);
                                 ("data", Profile_toJSON profile)]))
     end)
    (fun message => respond 500 (failure "message" message)).

(** [POST /report] *)
Definition post_report (e : env) (body : gmap string value)
    : world -> response * world :=
  route
    (let comment := prop body "comment" in
     if negb (truthy comment)
     then ret (respond 400 (failure "message" "Comment harus diisi"))
     else
       let! report := Report_create e comment in
       ret (respond 201
              (VObj [("success", VBool true);
                     ("data", VObj [("id", VStr (Report.id report));
                                    ("comment", Report.comment report);
                                    ("createdAt", VNum (of_Z (Report.createdAt report)))])])))
    (fun message => respond 500 (failure "message" message)).

(** ** Routing

    A request is taken by the first route, in the order of registration,
    whose method and path match.  The path is given by its segments, each
    not empty and written without percent-encoding, so that a parameter is
    its segment; the fixed segments of a route match without regard to
    case, as Express routes do by default. *)

Inductive method := M_GET | M_POST | M_PUT | M_DELETE.

Record request := {
  req_method : method;
  req_path : list string;
  req_body : gmap string value;
  req_query : gmap string value;
  req_file : option upload
}.

Definition lower_ascii (a : ascii) : ascii :=
  let n := nat_of_ascii a in
  if ((65 <=? n) && (n <=? 90))%nat then ascii_of_nat (n + 32) else a.

Fixpoint lower (s : string) : string :=
  match s with
  | EmptyString => EmptyString
  | String a r => String (lower_ascii a) (lower r)
  end.

(** A fixed segment of a route. *)
Definition is_segment (name segment : string) : bool := String.eqb (lower segment) name.

(** A parameter of a route. *)
Definition is_param (segment : string) : bool := negb (String.eqb segment "").

(** The application: the handler that takes the request, if any. *)
Definition app (e : env) (uptime : number) (req : request)
    : option (world -> response * world) :=
  match req_method req, req_path req with
  | M_GET, [] => Some (fun w => (get_root, w))
  | M_GET, [a] =>
      if is_segment "health" a then Some (fun w => (get_health e uptime, w))
      else if is_segment "report" a then Some (get_report e (req_query req))
      else None
  | M_POST, [a] =>
      if is_segment "soundboards" a then Some (post_soundboards e (req_body req))
      else if is_segment "profile" a then Some (post_profile e (req_body req))
      else if is_segment "feedback" a then Some (post_feedback e (req_body req))
      else if is_segment "report" a then Some (post_report e (req_body req))
      else None
  | M_GET, [a; b] =>
      if is_segment "soundboards" a && is_param b then Some (get_soundboards e b)
      else if is_segment "history" a && is_param b then Some (get_history e b)
      else if is_segment "profile" a && is_param b then Some (get_profile e b)
      else None
  | M_DELETE, [a; b] =>
      if is_segment "soundboards" a && is_param b then Some (delete_soundboards e b)
      else if is_segment "history" a && is_param b then Some (delete_history e b)
      else None
  | M_POST, [a; b] =>
      if is_segment "history" a && is_segment "email" b
      then Some (post_history_email e (req_body req))
      else if is_segment "history" a && is_param b
      then Some (post_history e b (req_body req))
      else None
  | M_PUT, [a; b] =>
      if is_segment "profile" a && is_param b
      then Some (put_profile e b (req_body req) (req_file req))
      else None
  | _, _ => None
  end.

(** ** The text generation service

    The second application of the repository: one route, which sends a
    prompt to a generative model. *)

Module Generate.

(** The double quote. *)
Definition quote : string := String (ascii_of_nat 34) EmptyString.

(** The prompt built around the topic. *)
Definition prompt_of (topic : value) : string :=
  "Saya membutuhkan informasi berdasarkan topik " ++ quote ++ ToString topic
    ++ quote ++ ".".

(** [POST /generate]; [generateContent] gives the text the model answers a
    prompt with, or the error of the call.  The result is the response and
    the prompts sent to the model. *)
Definition post_generate (generateContent : string -> result string)
    (body : gmap string value) : response * list string :=
  let topic := prop body "topic" in
  if negb (truthy topic)
  then (respond 400 (VObj [("error", VStr "The 'topic' field is required")]), [])
  else
    let prompt := prompt_of topic in
    match generateContent prompt with
    | Ok text => (respond 200 (VObj [("response", VStr text)]), [prompt])
    | Err _ => (respond 500 (VObj [("error", VStr "Failed to generate content")]), [prompt])
    end.

End Generate.

(** ** Vocabulary of the further statements *)

(** The tables and the bucket of a world, the log of calls left out. *)
Definition stored (w : world) : world :=
  {| Soundboards := Soundboards w; HISTORY := HISTORY w; MESSAGE := MESSAGE w;
     profile := profile w; feedback := feedback w; Reports := Reports w;
     bucket := bucket w; calls := [] |}.

(** The audio of a soundboard as the bucket holds it. *)
Definition audio_blob (e : env) : blob :=
  {| content := audioContent e; contentType := "audio/mpeg" |}.

(** The messages of an email, in table order. *)
Definition messages_of (email : string) (w : world) : list Message.t :=
  List.filter (fun m => String.eqb (Message.email m) email) (MESSAGE w).

(** The database answers a [SELECT] with the rows it selected, in an order
    of its own. *)
Definition answers_selected (e : env) : Prop :=
  forall rows, unordered e rows ≡ₚ rows.

(** The foreign key of [MESSAGE]: every message belongs to a history. *)
Definition messages_have_history (w : world) : Prop :=
  forall m, In m (MESSAGE w) ->
  exists h, In h (HISTORY w) /\ History.email h = VStr (Message.email m).

(** The profiles of an email, in table order. *)
Definition profiles_of (email : string) (w : world) : list Profile.t :=
  List.filter (fun r => sql_eq (Profile.email r) (VStr email)) (profile w).

(** ** Further sample requests *)

(** The database refuses every statement that writes. *)
Definition env_database_readonly : env :=
  {| GCP_BUCKET_NAME := GCP_BUCKET_NAME env0;
     uuidv4 := uuidv4 env0;
     UUIDV4 := UUIDV4 env0;
     Date_now := Date_now env0;
     audioContent := audioContent env0;
     unordered := unordered env0;
     fault := fun c =>
       match c with
       | query SELECT _ => None
       | query _ _ => Some "ER_OPTION_PREVENTS_STATEMENT"
       | _ => None
       end |}.

(** The world after a soundboard was created. *)
Definition world_soundboard : world := snd (post_soundboards env0 soundboard_body world0).

(** The row a successful creation appends. *)
Definition created_soundboard (e : env) (title text email : string) : Soundboard.t :=
  {| Soundboard.id := UUIDV4 e;
     Soundboard.title := VStr title;
     Soundboard.text := VStr text;
     Soundboard.audioUrl :=
       "https://storage.googleapis.com/" ++ GCP_BUCKET_NAME e ++ "/" ++ uuidv4 e ++ ".mp3";
     Soundboard.fileName := uuidv4 e ++ ".mp3";
     Soundboard.createdByEmail := VStr email;
     Soundboard.createdAt := Date_now e;
     Soundboard.updatedAt := Date_now e |}.

(** A world whose only soundboard has a URL that ends in a slash. *)
Definition world_unnamed_object : world :=
  set_Soundboards
    (fun _ => [{| Soundboard.id := UUIDV4 env0;
                  Soundboard.title := VStr "Salam";
                  Soundboard.text := VStr "Selamat pagi";
                  Soundboard.audioUrl := "https://storage.googleapis.com/handlips-audio/";
                  Soundboard.fileName := "";
                  Soundboard.createdByEmail := VStr "sari@example.com";
                  Soundboard.createdAt := Date_now env0;
                  Soundboard.updatedAt := Date_now env0 |}])
    world0.

(** The database refuses to delete from [HISTORY]. *)
Definition env_history_locked : env :=
  {| GCP_BUCKET_NAME := GCP_BUCKET_NAME env0;
     uuidv4 := uuidv4 env1;
     UUIDV4 := UUIDV4 env1;
     Date_now := Date_now env1;
     audioContent := audioContent env0;
     unordered := unordered env0;
     fault := fun c =>
       match c with
       | query DELETE "HISTORY" => Some "Lock wait timeout exceeded"
       | _ => None
       end |}.

(** The world after a history was opened and a message appended to it. *)
Definition world_message : world :=
  snd (post_history env1 "sari@example.com" message_body world_history).

(** The database answers a [SELECT] without [ORDER BY] last row first. *)
Definition env_last_first : env :=
  {| GCP_BUCKET_NAME := GCP_BUCKET_NAME env0;
     uuidv4 := "c1d2e3f4-a5b6-4c7d-8e9f-0a1b2c3d4e5f";
     UUIDV4 := "7e6f5a4b-3c2d-4e1f-9a0b-8c7d6e5f4a3b";
     Date_now := 1730419320000;
     audioContent := audioContent env0;
     unordered := @rev Message.t;
     fault := fun _ => None |}.

Definition reply_body : gmap string value :=
  {[ "message" := VStr "Baik, terima kasih"; "is_speech_to_text" := VBool false ]}.

(** No two profiles have the same email. *)
Fixpoint unique_profiles (rows : list Profile.t) : bool :=
  match rows with
  | [] => true
  | r :: rest =>
      negb (existsb (fun r' => sql_eq (Profile.email r') (Profile.email r)) rest)
      && unique_profiles rest
  end.

(** The profile an update leaves: the new name, and the new picture when
    there is one. *)
Definition updated_profile (name picture : value) (r : Profile.t) : Profile.t :=
  {| Profile.name := name;
     Profile.email := Profile.email r;
     Profile.profile_picture_url :=
       if truthy picture then picture else Profile.profile_picture_url r |}.

(** The public URL of an object of the bucket. *)
Definition public_url (e : env) (filename : string) : string :=
  "https://storage.googleapis.com/" ++ GCP_BUCKET_NAME e ++ "/" ++ filename.

Definition profile_body : gmap string value :=
  {[ "name" := VStr "Sari"; "email" := VStr "sari@example.com" ]}.

(** The world after a profile was created. *)
Definition world_profile : world := snd (post_profile env0 profile_body world0).

Definition document : upload :=
  {| originalname := "cv.pdf"; buffer := []; mimetype := "application/pdf" |}.

(** The query string that asks for a page. *)
Definition page_query (page limit : Z) : gmap string value :=
  {[ "page" := VStr (Z_to_string page); "limit" := VStr (Z_to_string limit) ]}.

(** The items of the [data] array of a response. *)
Definition response_data (r : response) : list value :=
  match json r with
  | VObj fields =>
      match List.find (fun field => String.eqb (fst field) "data") fields with
      | Some (_, VArr items) => items
      | _ => []
      end
  | _ => []
  end.

(** The reports, newest first. *)
Definition reports_newest_first (w : world) : list Report.t :=
  merge_sort (newest_first Report.createdAt) (Reports w).

Definition report_body : gmap string value := {[ "comment" := VStr "Suara terputus" ]}.

(** A request for a path of two segments. *)
Definition post_to (a b : string) (body : gmap string value) : request :=
  {| req_method := M_POST; req_path := [a; b]; req_body := body;
     req_query := ∅; req_file := None |}.

(** The model answers every prompt with the same text. *)
Definition model_answers (text : string) : string -> result string := fun _ => Ok text.

(** The model is unreachable. *)
Definition model_down : string -> result string := fun _ => Err "fetch failed".

(** * Properties *)

(** ** The fragment of ECMAScript, on examples *)

Example StringToNumber_examples :
  map StringToNumber ["10"; " 2.5 "; "1e3"; "0x1f"; ""; "abc"; "5."; "."; "-0x10"; "12px"]
  = [of_Z 10; Fin (5 # 2); of_Z 1000; of_Z 31; of_Z 0; NaN; of_Z 5; NaN; NaN; NaN].
Proof. reflexivity. Qed.

Example parseInt_examples :
  map parseInt [VStr "10"; VStr " -12px"; VStr "0x1f"; VStr "abc"; VStr "1e3";
                VNum (Fin (7 # 2)); VNum (of_Z 30); VArr [VStr "4"; VStr "9"]]
  = [of_Z 10; of_Z (-12); of_Z 31; NaN; of_Z 1; of_Z 3; of_Z 30; of_Z 4].
Proof. reflexivity. Qed.

Example NumberToString_examples :
  map NumberToString [of_Z 0; of_Z (-15); Fin (5 # 2); Fin (1 # 20); of_Z (10 ^ 21)]
  = ["0"; "-15"; "2.5"; "0.05"; "1e+21"].
Proof. reflexivity. Qed.

Example truthy_examples :
  map truthy [VUndefined; VNull; VStr ""; VNum (of_Z 0); VNum NaN; VStr "0"; VArr []; VObj []]
  = [false; false; false; false; false; true; true; true].
Proof. reflexivity. Qed.

Example split_pop_example :
  pop (split "/" "https://storage.googleapis.com/handlips-audio/a.mp3") = Some "a.mp3".
Proof. reflexivity. Qed.

(** ** Numerals read back *)

Lemma take_uint_digits d : take_uint (NilEmpty.string_of_uint d) = (d, "").
Proof.
  induction d as [|d IH|d IH|d IH|d IH|d IH|d IH|d IH|d IH|d IH|d IH];
    simpl; rewrite ?IH; reflexivity.
Qed.

Lemma skip_ws_digits d : skip_ws (NilEmpty.string_of_uint d) = NilEmpty.string_of_uint d.
Proof. destruct d; reflexivity. Qed.

Lemma radix_prefix_digits d : radix_prefix (NilEmpty.string_of_uint d) = None.
Proof.
  destruct d as [|d|d|d|d|d|d|d|d|d|d]; try reflexivity.
  destruct d; reflexivity.
Qed.

Lemma take_sign_digits d :
  take_sign (NilEmpty.string_of_uint d) = (false, NilEmpty.string_of_uint d).
Proof. destruct d; reflexivity. Qed.

Lemma starts_with_Infinity_digits d :
  starts_with "Infinity" (NilEmpty.string_of_uint d) = None.
Proof. destruct d; reflexivity. Qed.

Lemma string_of_uint_nonempty d :
  d <> Decimal.Nil -> String.eqb (NilEmpty.string_of_uint d) "" = false.
Proof. destruct d; intros H; [congruence|..]; reflexivity. Qed.

Lemma Qred_inject_Z z : Qred (inject_Z z) = inject_Z z.
Proof.
  unfold Qred, inject_Z.
  pose proof (Z.ggcd_gcd z 1) as Hg. pose proof (Z.ggcd_correct_divisors z 1) as Hd.
  destruct (Z.ggcd z 1) as [g [a b]]. simpl in *.
  rewrite Z.gcd_1_r in Hg. subst g. destruct Hd as [Ha Hb].
  rewrite Z.mul_1_l in Ha, Hb. subst a b. reflexivity.
Qed.

Lemma of_Q_inject_Z q z : (q == inject_Z z)%Q -> of_Q q = of_Z z.
Proof.
  intros H. unfold of_Q, of_Z. rewrite <- (Qred_inject_Z z). f_equal.
  now apply Qred_complete.
Qed.

Lemma sub_of_Z a b : sub (of_Z a) (of_Z b) = of_Z (a - b).
Proof.
  unfold sub, of_Z. apply of_Q_inject_Z. unfold Z.sub.
  now rewrite inject_Z_plus, inject_Z_opp.
Qed.

Lemma mul_of_Z a b : mul (of_Z a) (of_Z b) = of_Z (a * b).
Proof. unfold mul, of_Z. apply of_Q_inject_Z. now rewrite inject_Z_mult. Qed.

Lemma StringToNumber_digits d :
  d <> Decimal.Nil ->
  StringToNumber (NilEmpty.string_of_uint d) = of_Z (Z.of_N (N.of_uint d)).
Proof.
  intros Hd. unfold StringToNumber.
  rewrite skip_ws_digits, (string_of_uint_nonempty _ Hd), radix_prefix_digits,
    take_sign_digits, starts_with_Infinity_digits.
  unfold take_decimal. rewrite take_uint_digits.
  destruct d; [congruence|..]; cbn -[N.of_uint Qred inject_Z Qplus Qmult].
  all: apply of_Q_inject_Z;
    change (inject_Z (Z.of_N (N.of_uint Decimal.Nil))) with 0%Q; ring.
Qed.

Lemma parseInt_string_digits d :
  d <> Decimal.Nil ->
  parseInt_string (NilEmpty.string_of_uint d) = of_Z (Z.of_N (N.of_uint d)).
Proof.
  intros Hd. unfold parseInt_string.
  rewrite skip_ws_digits, take_sign_digits, radix_prefix_digits, take_uint_digits.
  destruct d; [congruence|..]; reflexivity.
Qed.

Lemma Z_to_string_nonneg z :
  (0 <= z)%Z ->
  exists d, Z_to_string z = NilEmpty.string_of_uint d /\ d <> Decimal.Nil
            /\ Z.of_N (N.of_uint d) = z.
Proof.
  intros Hz. destruct z as [|p|p]; [| |lia].
  - exists (Decimal.D0 Decimal.Nil). repeat split. discriminate.
  - exists (Pos.to_uint p). split; [reflexivity|]. split.
    + apply DecimalPos.Unsigned.to_uint_nonnil.
    + unfold N.of_uint. now rewrite DecimalPos.Unsigned.of_to.
Qed.

(** [Number(String(z)) = z] and [parseInt(String(z)) = z] for a natural [z]. *)
Lemma ToNumber_numeral z : (0 <= z)%Z -> ToNumber (VStr (Z_to_string z)) = of_Z z.
Proof.
  intros Hz. destruct (Z_to_string_nonneg z Hz) as (d & -> & Hd & <-).
  now apply StringToNumber_digits.
Qed.

Lemma parseInt_numeral z : (0 <= z)%Z -> parseInt (VStr (Z_to_string z)) = of_Z z.
Proof.
  intros Hz. destruct (Z_to_string_nonneg z Hz) as (d & -> & Hd & <-).
  now apply parseInt_string_digits.
Qed.

Lemma NumberToString_of_Z z :
  (Z.abs z < 10 ^ 21)%Z -> NumberToString (of_Z z) = Z_to_string z.
Proof.
  intros Hz. unfold NumberToString, of_Z. rewrite Qred_inject_Z. simpl Qden. simpl Qnum.
  apply Z.ltb_lt in Hz. rewrite Hz. reflexivity.
Qed.

Lemma parseInt_of_Z z : (0 <= z < 10 ^ 21)%Z -> parseInt (VNum (of_Z z)) = of_Z z.
Proof.
  intros Hz. unfold parseInt. cbn [ToString].
  rewrite NumberToString_of_Z by lia.
  destruct (Z_to_string_nonneg z) as (d & -> & Hd & <-); [lia|].
  now apply parseInt_string_digits.
Qed.

Lemma row_count_of_Z z : (0 <= z)%Z -> row_count (of_Z z) = Some (Z.to_nat z).
Proof.
  intros Hz. unfold row_count, of_Z. rewrite Qred_inject_Z. simpl.
  apply Z.leb_le in Hz. now rewrite Hz.
Qed.

(** [Math.ceil(c / l)] is the least [t] with [c <= l * t]. *)
Lemma ceil_of_Z_div c l :
  (0 < l)%Z ->
  exists t, Math_ceil (div (of_Z c) (of_Z l)) = of_Z t /\ (l * (t - 1) < c <= l * t)%Z.
Proof.
  intros Hl. exists (Qceiling (inject_Z c / inject_Z l)). split.
  - unfold div, of_Z, is_zero. simpl Qnum.
    destruct (Z.eqb_spec l 0); [lia|]. unfold Math_ceil, of_Q, of_Z. do 2 f_equal.
    apply Qceiling_comp. apply Qred_correct.
  - set (q := (inject_Z c / inject_Z l)%Q).
    assert (Hlq : (0 < inject_Z l)%Q)
      by (change 0%Q with (inject_Z 0); now rewrite <- Zlt_Qlt).
    assert (Hc : (inject_Z c == q * inject_Z l)%Q).
    { unfold q. field. intros H. rewrite H in Hlq. now apply Qlt_irrefl in Hlq. }
    pose proof (Qceiling_lt q) as H1. pose proof (Qle_ceiling q) as H2.
    split.
    + rewrite Zlt_Qlt, inject_Z_mult, Hc, Qmult_comm.
      apply Qmult_lt_compat_r; [exact Hlq|]. exact H1.
    + rewrite Zle_Qle, inject_Z_mult, Hc, (Qmult_comm (inject_Z l)).
      apply Qmult_le_compat_r; [exact H2|]. now apply Qlt_le_weak.
Qed.

Lemma numeral_or_default_read v n d :
  numeral_or_default v n d -> (0 <= n < 10 ^ 21)%Z ->
  ToNumber (or_default v (VNum (of_Z d))) = of_Z n
  /\ parseInt (or_default v (VNum (of_Z d))) = of_Z n.
Proof.
  intros [-> | [-> ->]] Hn; unfold or_default; simpl is_undefined; cbv iota.
  - split; [apply ToNumber_numeral | apply parseInt_numeral]; lia.
  - split; [reflexivity | now apply parseInt_of_Z].
Qed.

Lemma truthy_Fin q : truthy (VNum (Fin q)) = negb (Qnum q =? 0)%Z.
Proof. reflexivity. Qed.

Lemma lt_Fin_1 q : lt (VNum (Fin q)) (VNum (of_Z 1)) = negb (Qle_bool 1 q).
Proof. reflexivity. Qed.

Lemma gt_Fin_4 q : gt (VNum (Fin q)) (VNum (of_Z 4)) = negb (Qle_bool q 4).
Proof. reflexivity. Qed.

(** ** Strings and lists *)

Lemma append_assoc (a b c : string) : (a ++ b) ++ c = a ++ (b ++ c).
Proof.
  induction a as [|x a IH]; [reflexivity|].
  change (String x ((a ++ b) ++ c) = String x (a ++ b ++ c)). now rewrite IH.
Qed.

Lemma contains_app c s t : contains c (s ++ t) = contains c s || contains c t.
Proof.
  induction s as [|a s IH]; simpl; [reflexivity|].
  rewrite IH. apply orb_assoc.
Qed.

Lemma uuid_chars_no_slash i s : uuid_chars i s = true -> contains "/" s = false.
Proof.
  revert i. induction s as [|a s IH]; intros i; simpl; [reflexivity|].
  intros H. apply andb_true_iff in H as [Ha Hs].
  rewrite (IH _ Hs), orb_false_r.
  destruct (Ascii.eqb a "/") eqn:E; [|reflexivity].
  apply Ascii.eqb_eq in E. subst a.
  revert Ha. simpl. destruct (_ || _)%bool; vm_compute; discriminate.
Qed.

Lemma split_no_sep sep s : contains sep s = false -> split sep s = [s].
Proof.
  induction s as [|a s IH]; simpl; [reflexivity|].
  intros H. apply orb_false_iff in H as [Ha Hs].
  rewrite Ha, (IH Hs). reflexivity.
Qed.

(** Splitting [p ++ sep ++ f] ends with [f] when [f] has no separator. *)
Lemma split_app_sep sep p f :
  contains sep f = false ->
  exists l, split sep (p ++ String sep f) = (l ++ [f])%list /\ l <> [].
Proof.
  intros Hf. induction p as [|a p (l & IH & Hl)]; simpl.
  - rewrite Ascii.eqb_refl, (split_no_sep _ _ Hf). exists [""].
    split; [reflexivity | discriminate].
  - rewrite IH. destruct (Ascii.eqb a sep).
    + exists ("" :: l). split; [reflexivity | discriminate].
    + destruct l as [|h t]; [congruence|]. simpl.
      exists (String a h :: t). split; [reflexivity | discriminate].
Qed.

Lemma pop_split_app_sep sep p f :
  contains sep f = false -> pop (split sep (p ++ String sep f)) = Some f.
Proof.
  intros Hf. destruct (split_app_sep sep p f Hf) as (l & -> & _).
  unfold pop. apply last_snoc.
Qed.

Lemma pop_split_url (a b f : string) :
  contains "/" f = false -> pop (split "/" (a ++ b ++ "/" ++ f)) = Some f.
Proof.
  intros Hf. rewrite <- append_assoc.
  change ("/" ++ f) with (String "/" f). now apply pop_split_app_sep.
Qed.

(** [split] never answers the empty array, so [pop] finds a last item. *)
Lemma pop_split_is_Some sep s : is_Some (pop (split sep s)).
Proof.
  unfold pop. induction s as [|a s IH]; simpl.
  - eauto.
  - destruct (Ascii.eqb a sep).
    + destruct (split sep s) eqn:E; simpl; eauto.
    + destruct (split sep s) as [|h t] eqn:E; simpl; eauto.
      destruct t; simpl in *; eauto.
Qed.

Lemma find_none_of {A} (f : A -> bool) (l : list A) :
  (forall x, In x l -> f x = false) -> List.find f l = None.
Proof.
  induction l as [|x l IH]; simpl; intros H; [reflexivity|].
  rewrite (H x) by auto. apply IH. auto.
Qed.

Lemma find_some_of {A} (f : A -> bool) (l : list A) x :
  In x l -> f x = true -> exists y, List.find f l = Some y.
Proof.
  induction l as [|a l IH]; simpl; intros Hin Hf; [contradiction|].
  destruct (f a) eqn:E; [eauto|].
  destruct Hin as [-> | Hin]; [congruence | auto].
Qed.

Lemma existsb_none_of {A} (f : A -> bool) (l : list A) :
  (forall x, In x l -> f x = false) -> existsb f l = false.
Proof.
  intros H. apply not_true_is_false. intros E.
  apply existsb_exists in E as (x & Hx & Hfx). rewrite (H x Hx) in Hfx. discriminate.
Qed.

Lemma map_unmatched {A} (f : A -> bool) (g : A -> A) (l : list A) :
  (forall x, In x l -> f x = false) -> map (fun x => if f x then g x else x) l = l.
Proof.
  induction l as [|x l IH]; simpl; intros H; [reflexivity|].
  rewrite (H x) by auto. f_equal. apply IH. auto.
Qed.

Lemma filter_unmatched {A} (f : A -> bool) (l : list A) :
  (forall x, In x l -> f x = false) -> List.filter f l = [].
Proof.
  induction l as [|x l IH]; simpl; intros H; [reflexivity|].
  rewrite (H x) by auto. apply IH. auto.
Qed.

(** ** The database *)

Lemma sql_eq_text v s : sql_eq v (VStr s) = true <-> v = VStr s.
Proof.
  destruct v; simpl; try (split; [discriminate | congruence]).
  rewrite String.eqb_eq. split; congruence.
Qed.

Lemma sql_eq_sym a b : sql_eq a b = sql_eq b a.
Proof.
  destruct a as [| | x | x | x | |], b as [| | y | y | y | |]; simpl; try reflexivity.
  - destruct x, y; reflexivity.
  - destruct x as [|s|p], y as [|t|q]; simpl; try reflexivity.
    + destruct s, t; reflexivity.
    + unfold Qeq_bool. apply Z.eqb_sym.
  - apply String.eqb_sym.
Qed.

Lemma sql_eq_other v s : v <> VStr s -> sql_eq v (VStr s) = false.
Proof. intros H. apply not_true_is_false. intros E. now apply sql_eq_text in E. Qed.

#[global] Instance newest_first_trans {A} (createdAt : A -> Z) :
  Transitive (newest_first createdAt).
Proof. intros a b c. unfold newest_first. lia. Qed.

#[global] Instance newest_first_total {A} (createdAt : A -> Z) :
  Total (newest_first createdAt).
Proof. intros a b. unfold newest_first. lia. Qed.

(** Unfolds the plumbing of a handler. *)
Ltac run :=
  unfold route, bind, try_catch, external, get, modify, ret, throw.

(** ** POST /soundboards *)

Lemma missing_or_empty_falsy v : missing_or_empty v -> truthy v = false.
Proof. intros [-> | ->]; reflexivity. Qed.

(** C3. A request to create a soundboard whose title, text or email is
    missing or empty is answered 400; the world is left as it was: no call
    to the speech synthesis, no upload to the bucket, no row created. *)
Theorem post_soundboards_blank_rejected e body w :
  missing_or_empty (prop body "title")
  \/ missing_or_empty (prop body "text")
  \/ missing_or_empty (prop body "email") ->
  post_soundboards e body w
  = (respond 400 (VObj [("error", VStr "Title, text, and email are required")]), w).
Proof.
  intros H. unfold post_soundboards, route.
  assert (Hf : negb (truthy (prop body "title")) || negb (truthy (prop body "text"))
               || negb (truthy (prop body "email")) = true).
  { destruct H as [H | [H | H]]; apply missing_or_empty_falsy in H; rewrite H; simpl;
      rewrite ?orb_true_r; reflexivity. }
  rewrite Hf. reflexivity.
Qed.

Lemma post_soundboards_blank_rejected_witness :
  let body : gmap string value := {[ "title" := VStr "Salam"; "text" := VStr "" ]} in
  post_soundboards env0 body world0
  = (respond 400 (VObj [("error", VStr "Title, text, and email are required")]), world0).
Proof.
  intros body. apply post_soundboards_blank_rejected.
  right. left. right. reflexivity.
Defined.

(** C1. When the title, the text and the email are non-empty texts and the
    synthesis, the upload and the insertion succeed, the soundboard is
    created (201) and the last path segment of the URL of the persisted row
    is the file name of that row. *)
Theorem post_soundboards_audioUrl_names_file e body w title text email :
  nonempty_text (prop body "title") title ->
  nonempty_text (prop body "text") text ->
  nonempty_text (prop body "email") email ->
  is_uuid (uuidv4 e) = true ->
  fault e (synthesizeSpeech (VStr text)) = None ->
  fault e (file_save (uuidv4 e ++ ".mp3")) = None ->
  fault e (query INSERT "Soundboards") = None ->
  (forall r, In r (Soundboards w) -> Soundboard.id r <> UUIDV4 e) ->
  exists row,
    let r := post_soundboards e body w in
    status (fst r) = 201
    /\ Soundboards (snd r) = (Soundboards w ++ [row])%list
    /\ Soundboard.fileName row = uuidv4 e ++ ".mp3"
    /\ pop (split "/" (Soundboard.audioUrl row)) = Some (Soundboard.fileName row).
Proof.
  intros [Ht Ht'] [Hx Hx'] [He He'] Hu Hs Hf Hq Hfresh.
  eexists. unfold post_soundboards, route.
  rewrite Ht, Hx, He. simpl.
  apply String.eqb_neq in Ht', Hx', He'. rewrite Ht', Hx', He'. simpl.
  unfold generateSpeech, uploadToGCS, file_save_, Soundboard_create. run. simpl.
  rewrite Hs. simpl. rewrite Hf. simpl. rewrite Hq. simpl.
  rewrite existsb_none_of
    by (intros r Hr; apply String.eqb_neq; auto).
  simpl. split; [reflexivity|]. split; [reflexivity|]. split; [reflexivity|].
  cbn [Soundboard.audioUrl Soundboard.fileName]. apply pop_split_url.
  rewrite contains_app. apply andb_true_iff in Hu as [_ Hu].
  rewrite (uuid_chars_no_slash _ _ Hu). reflexivity.
Qed.

Lemma post_soundboards_audioUrl_names_file_witness :
  exists row,
    let r := post_soundboards env0 soundboard_body world0 in
    status (fst r) = 201
    /\ Soundboards (snd r) = (Soundboards world0 ++ [row])%list
    /\ Soundboard.fileName row = uuidv4 env0 ++ ".mp3"
    /\ pop (split "/" (Soundboard.audioUrl row)) = Some (Soundboard.fileName row).
Proof.
  apply (post_soundboards_audioUrl_names_file env0 soundboard_body world0
           "Salam" "Selamat pagi" "sari@example.com").
  - split; [reflexivity | discriminate].
  - split; [reflexivity | discriminate].
  - split; [reflexivity | discriminate].
  - reflexivity.
  - reflexivity.
  - reflexivity.
  - reflexivity.
  - intros r [].
Defined.

Example post_soundboards_synthesis_fails :
  post_soundboards env_synthesis_down soundboard_body world0
  = (respond 500 (failure "error" "Failed to create soundboard"),
     log (synthesizeSpeech (VStr "Selamat pagi")) world0).
Proof. reflexivity. Qed.

(** The invariant of the table is kept by the route, whatever the request. *)
Lemma post_soundboards_invariant e body w :
  is_uuid (uuidv4 e) = true ->
  Forall url_names_file (Soundboards w) ->
  Forall url_names_file (Soundboards (snd (post_soundboards e body w))).
Proof.
  intros Hu Hinv. unfold post_soundboards, route.
  destruct (_ || _)%bool; [exact Hinv|].
  unfold generateSpeech, uploadToGCS, file_save_, Soundboard_create. run.
  destruct (fault e (synthesizeSpeech _)); simpl; [exact Hinv|].
  destruct (fault e (file_save _)); simpl; [exact Hinv|].
  destruct (negb _); simpl; [exact Hinv|].
  destruct (fault e (query INSERT _)); simpl; [exact Hinv|].
  destruct (existsb _ _); simpl; [exact Hinv|].
  apply Forall_app. split; [exact Hinv|]. constructor; [|constructor].
  unfold url_names_file. cbn [Soundboard.audioUrl Soundboard.fileName].
  apply pop_split_url.
  rewrite contains_app. apply andb_true_iff in Hu as [_ Hu].
  rewrite (uuid_chars_no_slash _ _ Hu). reflexivity.
Qed.

(** ** GET /soundboards/:email *)

Lemma bucket_file_named r w :
  names_an_object r = true ->
  exists filename,
    pop (split "/" (Soundboard.audioUrl r)) = Some filename
    /\ bucket_file (Soundboard.audioUrl r) w = (Ok filename, w).
Proof.
  unfold names_an_object, bucket_file. intros H.
  destruct (pop (split "/" (Soundboard.audioUrl r))) as [filename|]; [|discriminate].
  exists filename. split; [reflexivity|].
  cbn [truthy]. rewrite H. reflexivity.
Qed.

Lemma validate_soundboard_listed e r w :
  names_an_object r = true ->
  exists w', validate_soundboard e r w = (Ok (listed e (bucket w) r), w')
             /\ bucket w' = bucket w.
Proof.
  intros Hr. destruct (bucket_file_named r w Hr) as (filename & Hpop & Hfile).
  unfold validate_soundboard, listed, fileExists, bind at 1. rewrite Hfile, Hpop.
  unfold file_exists_. run.
  destruct (fault e (file_exists filename)); simpl; eauto.
Qed.

Lemma Promise_all_validate e rows : forall w,
  (forall r, In r rows -> names_an_object r = true) ->
  exists w', Promise_all_map (validate_soundboard e) rows w
             = (Ok (map (listed e (bucket w)) rows), w')
             /\ bucket w' = bucket w.
Proof.
  induction rows as [|r rows IH]; intros w Hrows; simpl.
  - eexists. split; reflexivity.
  - destruct (validate_soundboard_listed e r w) as (w1 & -> & Hb1).
    { apply Hrows. left. reflexivity. }
    unfold bind at 1. destruct (IH w1) as (w2 & -> & Hb2).
    { intros x Hx. apply Hrows. right. exact Hx. }
    rewrite Hb1. eexists. split; [reflexivity | congruence].
Qed.

(** C8. When the database answers the lookup: an owner without soundboards
    gets 404, not a success with an empty list; an owner with soundboards,
    the URL of each of them ending in the name of an object, gets them all,
    newest first by creation time, each with a [fileExists] flag, and the
    flag is false whenever the existence check fails. *)
Theorem get_soundboards_listing e email w :
  fault e (query SELECT "Soundboards") = None ->
  let r := get_soundboards e email w in
  (owned_by email w = [] ->
   fst r = respond 404 (VObj [("success", VBool false);
                              ("message", VStr "No soundboards found for this email")]))
  /\ (owned_by email w <> [] ->
      (forall s, In s (owned_by email w) -> names_an_object s = true) ->
      exists rows,
        rows ≡ₚ owned_by email w
        /\ StronglySorted (newest_first Soundboard.createdAt) rows
        /\ fst r = respond 200
                     (VObj [("success", VBool true);
                            ("message", VStr "Soundboards retrieved successfully");
                            ("data", VArr (map (listed e (bucket w)) rows))])
        /\ forall s filename,
             pop (split "/" (Soundboard.audioUrl s)) = Some filename ->
             fault e (file_exists filename) <> None ->
             fileExists e (bucket w) s = false).
Proof.
  intros Hf r. subst r.
  unfold get_soundboards, route, bind at 1, Soundboard_findAll. run.
  rewrite Hf. cbn [log Soundboards]. fold (owned_by email w).
  set (rows := merge_sort (newest_first Soundboard.createdAt) (owned_by email w)).
  assert (Hperm : rows ≡ₚ owned_by email w) by apply merge_sort_Permutation.
  split.
  - intros Hnil. rewrite Hnil in Hperm. apply Permutation_nil_r in Hperm.
    rewrite Hperm. reflexivity.
  - intros Hne Hnamed. exists rows. split; [exact Hperm|]. split.
    { apply StronglySorted_merge_sort; apply _. }
    split.
    + destruct rows as [|x rows'] eqn:E.
      { apply Permutation_nil_l in Hperm. congruence. }
      cbn [length Nat.eqb]. rewrite <- E.
      destruct (Promise_all_validate e rows (log (query SELECT "Soundboards") w))
        as (w' & -> & _); [|reflexivity].
      intros s Hs. apply Hnamed. rewrite E in Hs. exact (Permutation_in s Hperm Hs).
    + intros s filename Hpop Hfault. unfold fileExists. rewrite Hpop.
      destruct (fault e (file_exists filename)); [reflexivity | congruence].
Qed.

Lemma get_soundboards_listing_witness :
  fst (get_soundboards env0 "budi@example.com" world_soundboards)
  = respond 404 (VObj [("success", VBool false);
                       ("message", VStr "No soundboards found for this email")])
  /\ exists rows,
       rows ≡ₚ owned_by "sari@example.com" world_soundboards
       /\ StronglySorted (newest_first Soundboard.createdAt) rows
       /\ fst (get_soundboards env_storage_down "sari@example.com" world_soundboards)
          = respond 200
              (VObj [("success", VBool true);
                     ("message", VStr "Soundboards retrieved successfully");
                     ("data", VArr (map (listed env_storage_down (bucket world_soundboards))
                                      rows))])
       /\ forall s filename,
            pop (split "/" (Soundboard.audioUrl s)) = Some filename ->
            fault env_storage_down (file_exists filename) <> None ->
            fileExists env_storage_down (bucket world_soundboards) s = false.
Proof.
  split.
  - apply (get_soundboards_listing env0 "budi@example.com" world_soundboards);
      reflexivity.
  - apply (get_soundboards_listing env_storage_down "sari@example.com" world_soundboards);
      [reflexivity | vm_compute; discriminate |].
    intros s Hs. vm_compute in Hs. destruct Hs as [<- | [<- | []]]; reflexivity.
Defined.

Example get_soundboards_newest_first :
  json (fst (get_soundboards env_storage_down "sari@example.com" world_soundboards))
  = VObj [("success", VBool true);
          ("message", VStr "Soundboards retrieved successfully");
          ("data",
           VArr [VObj [("id", VStr "6a5b4c3d-2e1f-4a0b-8c9d-7e6f5a4b3c2d");
                       ("text", VStr "Selamat pagi");
                       ("title", VStr "Salam");
                       ("audioUrl", VStr "https://storage.googleapis.com/handlips-audio/9d8c7b6a-5f4e-4d3c-a2b1-0f9e8d7c6b5a.mp3");
                       ("fileName", VStr "9d8c7b6a-5f4e-4d3c-a2b1-0f9e8d7c6b5a.mp3");
                       ("createdByEmail", VStr "sari@example.com");
                       ("createdAt", VNum (of_Z 1730419260000));
                       ("updatedAt", VNum (of_Z 1730419260000));
                       ("fileExists", VBool false)];
                 VObj [("id", VStr "0b6f1c2a-7d3e-4a8b-9c5d-2e1f0a9b8c7d");
                       ("text", VStr "Selamat pagi");
                       ("title", VStr "Salam");
                       ("audioUrl", VStr "https://storage.googleapis.com/handlips-audio/3f2b8c1e-9a4d-4e6f-8b7a-1c2d3e4f5a6b.mp3");
                       ("fileName", VStr "3f2b8c1e-9a4d-4e6f-8b7a-1c2d3e4f5a6b.mp3");
                       ("createdByEmail", VStr "sari@example.com");
                       ("createdAt", VNum (of_Z 1730419200000));
                       ("updatedAt", VNum (of_Z 1730419200000));
                       ("fileExists", VBool false)]])].
Proof. vm_compute. reflexivity. Qed.

(** ** DELETE /soundboards/:id *)

(** C6. Deleting an identifier that matches no soundboard leaves the rows
    and the bucket as they were and issues no call but the lookup, so no
    deletion of a blob is attempted; when the database answers the lookup
    the response is 404. *)
Theorem delete_soundboards_unknown_id e id w :
  (forall r, In r (Soundboards w) -> Soundboard.id r <> id) ->
  let r := delete_soundboards e id w in
  (fault e (query SELECT "Soundboards") = None ->
   fst r = respond 404 (VObj [("success", VBool false);
                              ("message", VStr "Soundboard not found")]))
  /\ calls (snd r) = (calls w ++ [query SELECT "Soundboards"])%list
  /\ Soundboards (snd r) = Soundboards w
  /\ bucket (snd r) = bucket w.
Proof.
  intros H.
  assert (Hfind : List.find (fun r => String.eqb (Soundboard.id r) id) (Soundboards w) = None).
  { apply find_none_of. intros r Hr. apply String.eqb_neq. auto. }
  unfold delete_soundboards, Soundboard_findByPk. run.
  destruct (fault e (query SELECT "Soundboards")) eqn:Hq; simpl.
  - repeat split; congruence.
  - rewrite Hfind. simpl. auto.
Qed.

Lemma delete_soundboards_unknown_id_witness :
  let r := delete_soundboards env0 "00000000-0000-4000-8000-000000000000" world_soundboards in
  (fault env0 (query SELECT "Soundboards") = None ->
   fst r = respond 404 (VObj [("success", VBool false);
                              ("message", VStr "Soundboard not found")]))
  /\ calls (snd r) = (calls world_soundboards ++ [query SELECT "Soundboards"])%list
  /\ Soundboards (snd r) = Soundboards world_soundboards
  /\ bucket (snd r) = bucket world_soundboards.
Proof.
  apply (delete_soundboards_unknown_id env0 _ world_soundboards).
  intros r Hr. vm_compute in Hr. destruct Hr as [<- | [<- | []]]; discriminate.
Defined.

(** C7. For an existing soundboard whose URL ends in the name of an
    object, when the database answers: the blob deletion is attempted after
    the lookup and before the row deletion; whether it succeeds or fails,
    the row is deleted and the response is 200.  When it fails the bucket
    is left as it was. *)
Theorem delete_soundboards_best_effort e id w soundboard :
  List.find (fun r => String.eqb (Soundboard.id r) id) (Soundboards w) = Some soundboard ->
  names_an_object soundboard = true ->
  fault e (query SELECT "Soundboards") = None ->
  fault e (query DELETE "Soundboards") = None ->
  exists filename,
    pop (split "/" (Soundboard.audioUrl soundboard)) = Some filename
    /\ let r := delete_soundboards e id w in
       status (fst r) = 200
       /\ Soundboards (snd r)
          = List.filter
              (fun r => negb (String.eqb (Soundboard.id r) (Soundboard.id soundboard)))
              (Soundboards w)
       /\ calls (snd r)
          = (calls w ++ [query SELECT "Soundboards"; file_delete filename;
                         query DELETE "Soundboards"])%list
       /\ (fault e (file_delete filename) <> None \/ bucket w !! filename = None ->
           bucket (snd r) = bucket w).
Proof.
  intros Hfind Hnamed Hsel Hdel.
  destruct (bucket_file_named soundboard (log (query SELECT "Soundboards") w) Hnamed)
    as (filename & Hpop & Hfile).
  exists filename. split; [exact Hpop|].
  unfold delete_soundboards, Soundboard_findByPk. run.
  rewrite Hsel. simpl. rewrite Hfind, Hfile. unfold file_delete_. run. simpl.
  destruct (fault e (file_delete filename)) eqn:Hf; simpl.
  - unfold Soundboard_destroy. run. simpl. rewrite Hdel. simpl.
    rewrite <- !app_assoc. simpl. auto.
  - destruct (bucket w !! filename) eqn:Hb; simpl;
      unfold Soundboard_destroy; run; simpl; rewrite Hdel; simpl;
      rewrite <- !app_assoc; simpl; repeat split; auto.
    intros [H | H]; congruence.
Qed.

Lemma delete_soundboards_best_effort_witness :
  exists filename,
    pop (split "/" "https://storage.googleapis.com/handlips-audio/3f2b8c1e-9a4d-4e6f-8b7a-1c2d3e4f5a6b.mp3")
    = Some filename
    /\ let r := delete_soundboards env_storage_down (UUIDV4 env0) world_soundboards in
       status (fst r) = 200
       /\ length (Soundboards (snd r)) = 1%nat
       /\ calls (snd r)
          = (calls world_soundboards
             ++ [query SELECT "Soundboards"; file_delete filename;
                 query DELETE "Soundboards"])%list
       /\ bucket (snd r) = bucket world_soundboards.
Proof.
  destruct (delete_soundboards_best_effort env_storage_down (UUIDV4 env0) world_soundboards
              {| Soundboard.id := UUIDV4 env0;
                 Soundboard.title := VStr "Salam";
                 Soundboard.text := VStr "Selamat pagi";
                 Soundboard.audioUrl := "https://storage.googleapis.com/handlips-audio/3f2b8c1e-9a4d-4e6f-8b7a-1c2d3e4f5a6b.mp3";
                 Soundboard.fileName := "3f2b8c1e-9a4d-4e6f-8b7a-1c2d3e4f5a6b.mp3";
                 Soundboard.createdByEmail := VStr "sari@example.com";
                 Soundboard.createdAt := Date_now env0;
                 Soundboard.updatedAt := Date_now env0 |}
              eq_refl eq_refl eq_refl eq_refl)
    as (filename & Hpop & Hstatus & Hrows & Hcalls & Hbucket).
  exists filename. split; [exact Hpop|]. split; [exact Hstatus|]. split.
  - rewrite Hrows. reflexivity.
  - split; [exact Hcalls|]. apply Hbucket. left. discriminate.
Defined.

(** ** POST /history/email *)

Lemma unique_emails_count rows row email :
  unique_emails rows = true -> In row rows -> History.email row = VStr email ->
  length (List.filter (fun r => sql_eq (History.email r) (VStr email)) rows) = 1%nat.
Proof.
  induction rows as [|r rows IH]; simpl; intros Hu Hin He; [contradiction|].
  apply andb_true_iff in Hu as [Hr Hu]. apply negb_true_iff in Hr.
  destruct Hin as [-> | Hin].
  - rewrite He. simpl. rewrite String.eqb_refl. simpl. f_equal.
    rewrite He in Hr.
    rewrite filter_unmatched; [reflexivity|].
    intros x Hx. apply not_true_is_false. intros E.
    assert (existsb (fun r' => sql_eq (History.email r') (VStr email)) rows = true);
      [|congruence].
    apply existsb_exists. eauto.
  - destruct (sql_eq (History.email r) (VStr email)) eqn:E; [|auto].
    exfalso. apply sql_eq_text in E.
    assert (existsb (fun r' => sql_eq (History.email r') (History.email r)) rows = true);
      [|congruence].
    apply existsb_exists. exists row. split; [exact Hin|].
    rewrite He, E. simpl. apply String.eqb_refl.
Qed.

Lemma unique_emails_snoc rows row :
  unique_emails rows = true ->
  existsb (fun r => sql_eq (History.email r) (History.email row)) rows = false ->
  unique_emails (rows ++ [row]) = true.
Proof.
  induction rows as [|r rows IH]; simpl; intros Hu Hn; [reflexivity|].
  apply andb_true_iff in Hu as [Hr Hu]. apply orb_false_iff in Hn as [Hn1 Hn2].
  rewrite (IH Hu Hn2), andb_true_r, existsb_app. simpl.
  apply negb_true_iff in Hr. rewrite Hr, sql_eq_sym, Hn1. reflexivity.
Qed.

(** The primary key of [HISTORY] is kept by the route that creates its rows. *)
Lemma post_history_email_unique e body w :
  unique_emails (HISTORY w) = true ->
  unique_emails (HISTORY (snd (post_history_email e body w))) = true.
Proof.
  intros Hu. unfold post_history_email, route.
  destruct (negb (truthy (prop body "email")) || negb (truthy (prop body "title")));
    [exact Hu|].
  unfold History_findOne, History_create. run.
  destruct (fault e (query SELECT "HISTORY")); simpl; [exact Hu|].
  destruct (List.find _ (HISTORY w)); simpl; [exact Hu|].
  destruct (negb (accepts_text (prop body "email") && accepts_text (prop body "title")));
    simpl; [exact Hu|].
  destruct (fault e (query INSERT "HISTORY")); simpl; [exact Hu|].
  destruct (existsb _ (HISTORY w)) eqn:Hex; simpl; [exact Hu|].
  now apply unique_emails_snoc.
Qed.

(** C4. When a row of [HISTORY] already has the email of the request (and
    the emails of the table are distinct, as its primary key has them), the
    request creates nothing: the table is left as it was and holds exactly
    one row for that email; the response is never 201, and it is 400 when
    the database answers the lookup. *)
Theorem post_history_email_rejects_second e body w email row :
  prop body "email" = VStr email ->
  In row (HISTORY w) -> History.email row = VStr email ->
  unique_emails (HISTORY w) = true ->
  let r := post_history_email e body w in
  (fault e (query SELECT "HISTORY") = None -> status (fst r) = 400)
  /\ status (fst r) <> 201
  /\ HISTORY (snd r) = HISTORY w
  /\ length (history_of email (snd r)) = 1%nat.
Proof.
  intros Hb Hin He Hu.
  assert (Hcount := unique_emails_count _ _ _ Hu Hin He).
  destruct (find_some_of (fun r => sql_eq (History.email r) (VStr email)) (HISTORY w) row Hin)
    as [found Hfound]; [now apply sql_eq_text|].
  unfold history_of, post_history_email, route. rewrite Hb.
  destruct (negb (truthy (VStr email)) || negb (truthy (prop body "title"))) eqn:Hv.
  - simpl. repeat split; auto.
  - unfold History_findOne. run.
    destruct (fault e (query SELECT "HISTORY")); simpl.
    + repeat split; auto; discriminate.
    + rewrite Hfound. simpl. repeat split; auto.
Qed.

Lemma post_history_email_rejects_second_witness :
  status (fst (post_history_email env0 history_body world0)) = 201
  /\ let r := post_history_email env1 history_body world_history in
     (fault env1 (query SELECT "HISTORY") = None -> status (fst r) = 400)
     /\ status (fst r) <> 201
     /\ HISTORY (snd r) = HISTORY world_history
     /\ length (history_of "sari@example.com" (snd r)) = 1%nat.
Proof.
  split; [reflexivity|].
  apply (post_history_email_rejects_second env1 history_body world_history
           "sari@example.com"
           {| History.email := VStr "sari@example.com"; History.id := uuidv4 env0;
              History.title := VStr "Percakapan" |}).
  - reflexivity.
  - left. reflexivity.
  - reflexivity.
  - reflexivity.
Defined.

(** ** POST /history/:email *)




(** ** POST /feedback *)

(** C2, as the claim states it, fails: the rating 2.5 is not an integer and
    the request is accepted, a row is inserted. *)
Lemma post_feedback_fraction_accepted :
  ~ (forall e body w q,
       prop body "rating" = VNum (Fin q) -> ~ is_integer q ->
       let r := post_feedback e body w in
       status (fst r) = 400 /\ feedback (snd r) = feedback w).
Proof.
  intros H.
  specialize (H env0 (feedback_body (VNum (Fin (5 # 2)))) world0 (5 # 2) eq_refl).
  destruct H as [H _]; [intros E; discriminate E|].
  vm_compute in H. discriminate H.
Qed.

(** C2, amended. For a numeric rating, when the database accepts the
    insertion: the request is accepted (201, one row inserted with the
    comment and the rating) when the comment is truthy and the rating lies
    between 1 and 4, whether it is an integer or not; it is rejected with
    400 and changes nothing when the comment is falsy or the rating is
    below 1 or above 4. *)
Theorem post_feedback_range e body w q :
  prop body "rating" = VNum (Fin q) ->
  fault e (query INSERT "feedback") = None ->
  let comment := prop body "comment" in
  let r := post_feedback e body w in
  (truthy comment = true -> (1 <= q <= 4)%Q ->
   status (fst r) = 201
   /\ feedback (snd r)
      = (feedback w ++ [{| Feedback.id := next_feedback_id w;
                           Feedback.comment := comment;
                           Feedback.rating := VNum (Fin q) |}])%list)
  /\ (truthy comment = false \/ (q < 1)%Q \/ (4 < q)%Q ->
      status (fst r) = 400 /\ snd r = w).
Proof.
  intros Hr Hf comment r. subst comment r. unfold post_feedback, route. rewrite Hr.
  rewrite truthy_Fin, lt_Fin_1, gt_Fin_4.
  split.
  - intros Hc [H1 H4]. rewrite Hc.
    assert (Hz : (Qnum q =? 0)%Z = false).
    { apply Z.eqb_neq. intros E. unfold Qle in H1. simpl in H1. lia. }
    rewrite Hz. apply Qle_bool_iff in H1, H4. rewrite H1, H4. simpl.
    unfold feedback_insert. run. rewrite Hf. simpl. auto.
  - intros [Hc | Hq].
    + rewrite Hc. simpl. auto.
    + destruct (negb (truthy (prop body "comment")) || negb (negb (Qnum q =? 0)%Z));
        [simpl; auto|].
      assert (Hb : negb (Qle_bool 1 q) || negb (Qle_bool q 4) = true).
      { destruct Hq as [Hq | Hq]; apply Qlt_not_le in Hq;
          rewrite <- Qle_bool_iff in Hq; apply not_true_is_false in Hq; rewrite Hq;
          simpl; rewrite ?orb_true_r; reflexivity. }
      rewrite Hb. simpl. auto.
Qed.

Lemma post_feedback_range_witness :
  (forall n, In n [1; 2; 3; 4]%Z ->
     let r := post_feedback env0 (feedback_body (VNum (of_Z n))) world0 in
     status (fst r) = 201
     /\ feedback (snd r) = [{| Feedback.id := 1; Feedback.comment := VStr "Bagus";
                               Feedback.rating := VNum (of_Z n) |}])
  /\ (forall n, In n [0; 5]%Z ->
        let r := post_feedback env0 (feedback_body (VNum (of_Z n))) world0 in
        status (fst r) = 400 /\ snd r = world0)
  /\ (let r := post_feedback env0 (feedback_body (VNum (Fin (5 # 2)))) world0 in
      status (fst r) = 201
      /\ feedback (snd r) = [{| Feedback.id := 1; Feedback.comment := VStr "Bagus";
                                Feedback.rating := VNum (Fin (5 # 2)) |}]).
Proof.
  split; [|split].
  - intros n Hn.
    apply (post_feedback_range env0 (feedback_body (VNum (of_Z n))) world0 (inject_Z n)).
    + simpl in Hn. destruct Hn as [<- | [<- | [<- | [<- | []]]]]; reflexivity.
    + reflexivity.
    + simpl in Hn. destruct Hn as [<- | [<- | [<- | [<- | []]]]]; reflexivity.
    + simpl in Hn. destruct Hn as [<- | [<- | [<- | [<- | []]]]]; split; discriminate.
  - intros n Hn.
    apply (post_feedback_range env0 (feedback_body (VNum (of_Z n))) world0 (inject_Z n)).
    + simpl in Hn. destruct Hn as [<- | [<- | []]]; reflexivity.
    + reflexivity.
    + simpl in Hn. destruct Hn as [<- | [<- | []]]; [right; left | right; right];
        reflexivity.
  - apply (post_feedback_range env0 (feedback_body (VNum (Fin (5 # 2)))) world0 (5 # 2)).
    + reflexivity.
    + reflexivity.
    + reflexivity.
    + split; discriminate.
Defined.

(** ** GET /report *)

(** C9. For a page and a limit given as decimal numerals of positive
    integers (or left to their defaults 1 and 10), within the safe
    integers, when the database answers: the response is 200 with the
    reports newest first from offset [(page - 1) * limit], at most [limit]
    of them, and [totalPages] is the ceiling of the row count divided by
    the limit, that is the least [t] with [count <= limit * t].  In
    particular 25 rows with limit 10 give 10 rows on page 1 and 3 pages. *)
Theorem get_report_pages e query_ w page limit :
  numeral_or_default (prop query_ "page") page 1 ->
  numeral_or_default (prop query_ "limit") limit 10 ->
  (1 <= page <= MAX_SAFE_INTEGER)%Z -> (1 <= limit <= MAX_SAFE_INTEGER)%Z ->
  ((page - 1) * limit <= MAX_SAFE_INTEGER)%Z ->
  fault e (query SELECT "Reports") = None ->
  let count := Z.of_nat (length (Reports w)) in
  exists totalPages,
    (limit * (totalPages - 1) < count <= limit * totalPages)%Z
    /\ get_report e query_ w
       = (respond 200
            (VObj [("success", VBool true);
                   ("total", VNum (of_Z count));
                   ("currentPage", VNum (of_Z page));
                   ("totalPages", VNum (of_Z totalPages));
                   ("data", VArr (map Report_toJSON (reports_page w page limit)))]),
          log (query SELECT "Reports") w)
    /\ (page = 1%Z -> limit = 10%Z -> count = 25%Z ->
        totalPages = 3%Z /\ length (reports_page w page limit) = 10%nat).
Proof.
  intros Hp Hl Hpage Hlimit Hoff Hf count. unfold MAX_SAFE_INTEGER in *.
  assert (H21 : (2 ^ 53 - 1 < 10 ^ 21)%Z) by reflexivity.
  destruct (numeral_or_default_read _ _ _ Hp) as [Hp1 Hp2]; [lia|].
  destruct (numeral_or_default_read _ _ _ Hl) as [Hl1 Hl2]; [lia|].
  destruct (ceil_of_Z_div count limit) as (t & Ht & Hbounds); [lia|].
  exists t. split; [exact Hbounds|]. split.
  - unfold get_report, Report_findAndCountAll. run.
    rewrite Hf, Hp1, Hp2, Hl1, Hl2, sub_of_Z, mul_of_Z.
    rewrite parseInt_of_Z by nia.
    rewrite !row_count_of_Z by nia.
    cbn [fst snd log Reports]. fold count. rewrite Ht. reflexivity.
  - intros -> -> Hc. split; [lia|].
    unfold reports_page. rewrite length_take, length_drop.
    rewrite (Permutation_length (merge_sort_Permutation _ _)). lia.
Qed.

Lemma get_report_pages_witness :
  let query_ : gmap string value := {[ "page" := VStr "1"; "limit" := VStr "10" ]} in
  exists totalPages,
    totalPages = 3%Z
    /\ length (reports_page world_reports 1 10) = 10%nat
    /\ get_report env0 query_ world_reports
       = (respond 200
            (VObj [("success", VBool true);
                   ("total", VNum (of_Z 25));
                   ("currentPage", VNum (of_Z 1));
                   ("totalPages", VNum (of_Z totalPages));
                   ("data", VArr (map Report_toJSON (reports_page world_reports 1 10)))]),
          log (query SELECT "Reports") world_reports).
Proof.
  intros query_.
  destruct (get_report_pages env0 query_ world_reports 1 10) as (t & _ & Heq & H25).
  - left. reflexivity.
  - left. reflexivity.
  - unfold MAX_SAFE_INTEGER. lia.
  - unfold MAX_SAFE_INTEGER. lia.
  - unfold MAX_SAFE_INTEGER. lia.
  - reflexivity.
  - destruct H25 as [Ht Hlen]; [reflexivity..|].
    exists t. split; [exact Ht|]. split; [exact Hlen | exact Heq].
Defined.

Example get_report_second_page :
  let query_ : gmap string value := {[ "page" := VStr "3"; "limit" := VStr "10" ]} in
  map Report.id (reports_page world_reports 3 10) = ["4"; "3"; "2"; "1"; "0"]
  /\ json (fst (get_report env0 query_ world_reports))
     = VObj [("success", VBool true);
             ("total", VNum (of_Z 25));
             ("currentPage", VNum (of_Z 3));
             ("totalPages", VNum (of_Z 3));
             ("data", VArr (map Report_toJSON (reports_page world_reports 3 10)))].
Proof. split; vm_compute; reflexivity. Qed.

(** ** PUT /profile/:email *)

(** C10. A profile update with a name and an accepted image for an email
    that matches no profile: when the upload and the statement succeed, the
    image is saved in the bucket under the key prefixed with the clock,
    then the update matches nothing; the handler compares the first
    component of the result of the statement, which is [undefined], with
    0, so the response is 200 and not 404.  The bucket holds the image
    afterwards, so it has changed if the key was free, while the profiles
    are as they were. *)
Theorem put_profile_unmatched_answers_200 e email body file w :
  truthy (prop body "name") = true ->
  upload_single (Some file) = Ok (Some file) ->
  (forall r, In r (profile w) -> Profile.email r <> VStr email) ->
  let filename := profile_picture_key e file in
  fault e (file_save filename) = None ->
  fault e (query UPDATE "profile") = None ->
  let r := put_profile e email body (Some file) w in
  fst r = respond 200 (VObj [("success", VBool true);
                             ("message", VStr "Profile updated successfully")])
  /\ calls (snd r) = (calls w ++ [file_save filename; query UPDATE "profile"])%list
  /\ bucket (snd r)
     = <[filename := {| content := buffer file; contentType := mimetype file |}]> (bucket w)
  /\ profile (snd r) = profile w
  /\ (bucket w !! filename = None -> bucket (snd r) <> bucket w).
Proof.
  intros Hname Hup Hnone filename Hsave Hupd r. subst r.
  assert (Hm : forall x, In x (profile w) -> sql_eq (Profile.email x) (VStr email) = false)
    by (intros x Hx; apply sql_eq_other; auto).
  unfold put_profile. rewrite Hup. unfold route. rewrite Hname. cbn [negb].
  unfold uploadToGCS, file_save_, profile_update. run.
  fold (profile_picture_key e file). fold filename. rewrite Hsave. cbn [log set_bucket fault].
  rewrite Hupd.
  cbn [log set_profile set_bucket profile bucket calls fst snd strictly_equals].
  rewrite (map_unmatched _ _ _ Hm), <- app_assoc. repeat split.
  intros Hfree Heq.
  assert (Hl : <[filename := {| content := buffer file; contentType := mimetype file |}]>
                 (bucket w) !! filename
               = Some {| content := buffer file; contentType := mimetype file |})
    by apply lookup_insert_eq.
  rewrite Heq, Hfree in Hl. discriminate.
Qed.

Lemma put_profile_unmatched_answers_200_witness :
  let body : gmap string value := {[ "name" := VStr "Sari" ]} in
  let r := put_profile env0 "sari@example.com" body (Some picture) world0 in
  fst r = respond 200 (VObj [("success", VBool true);
                             ("message", VStr "Profile updated successfully")])
  /\ calls (snd r) = [file_save "profiles/1730419200000-sari.png"; query UPDATE "profile"]
  /\ profile (snd r) = []
  /\ bucket (snd r) !! "profiles/1730419200000-sari.png"
     = Some {| content := []; contentType := "image/png" |}
  /\ bucket (snd r) <> bucket world0.
Proof.
  intros body.
  destruct (put_profile_unmatched_answers_200 env0 "sari@example.com" body picture world0)
    as (Hresp & Hcalls & Hbucket & Hprofile & Hchanged).
  - reflexivity.
  - reflexivity.
  - intros r [].
  - reflexivity.
  - reflexivity.
  - split; [exact Hresp|]. split; [exact Hcalls|]. split; [exact Hprofile|]. split.
    + rewrite Hbucket. apply lookup_insert_eq.
    + apply Hchanged. reflexivity.
Defined.

(** The branch that answers 404 is never taken: whatever the request, the
    world and the failures, a profile update does not answer 404. *)
Lemma put_profile_never_not_found e email body file w :
  status (fst (put_profile e email body file w)) <> 404%nat.
Proof.
  unfold put_profile.
  destruct (upload_single file) as [req_file|message]; [|simpl; lia].
  unfold route. destruct (truthy (prop body "name")); [|simpl; lia]. cbn [negb].
  unfold profile_update. run.
  destruct req_file as [f|].
  - unfold uploadToGCS, file_save_. run.
    destruct (fault e (file_save _)); simpl; [lia|].
    destruct (fault e (query UPDATE "profile")); simpl; lia.
  - simpl. destruct (fault e (query UPDATE "profile")); simpl; lia.
Qed.

(** * Further properties *)

(** ** Soundboards *)

(** X1. Creating a soundboard never leaves a row without its audio: either
    the response is 201, exactly one row is appended and the bucket holds
    the synthesised audio under the file name of that row, or the response
    is not 201 and the table is as it was. *)
Theorem post_soundboards_row_has_blob e body w :
  let r := post_soundboards e body w in
  (status (fst r) = 201
   /\ exists row,
        Soundboards (snd r) = (Soundboards w ++ [row])%list
        /\ Soundboard.fileName row = uuidv4 e ++ ".mp3"
        /\ bucket (snd r) !! Soundboard.fileName row = Some (audio_blob e))
  \/ (status (fst r) <> 201 /\ Soundboards (snd r) = Soundboards w).
Proof.
  unfold post_soundboards, route.
  destruct (_ || _)%bool; [right; split; [discriminate | reflexivity]|].
  unfold generateSpeech, uploadToGCS, file_save_, Soundboard_create. run.
  destruct (fault e (synthesizeSpeech _)); simpl;
    [right; split; [discriminate | reflexivity]|].
  destruct (fault e (file_save _)); simpl;
    [right; split; [discriminate | reflexivity]|].
  destruct (negb _); simpl; [right; split; [discriminate | reflexivity]|].
  destruct (fault e (query INSERT _)); simpl;
    [right; split; [discriminate | reflexivity]|].
  destruct (existsb _ _); simpl; [right; split; [discriminate | reflexivity]|].
  left. split; [reflexivity|]. eexists. split; [reflexivity|]. split; [reflexivity|].
  cbn [Soundboard.fileName]. apply lookup_insert_eq.
Qed.

(** X2. When the synthesis and the upload succeed and the database refuses
    the insertion, the response is the generic 500, no row is created and
    the uploaded audio stays in the bucket. *)
Theorem post_soundboards_orphaned_blob e body w message :
  truthy (prop body "title") = true ->
  truthy (prop body "text") = true ->
  truthy (prop body "email") = true ->
  fault e (synthesizeSpeech (prop body "text")) = None ->
  fault e (file_save (uuidv4 e ++ ".mp3")) = None ->
  fault e (query INSERT "Soundboards") = Some message ->
  let r := post_soundboards e body w in
  fst r = respond 500 (failure "error" "Failed to create soundboard")
  /\ Soundboards (snd r) = Soundboards w
  /\ bucket (snd r) = <[uuidv4 e ++ ".mp3" := audio_blob e]> (bucket w).
Proof.
  intros Ht Hx He Hs Hf Hq. unfold post_soundboards, route.
  rewrite Ht, Hx, He. cbn [negb orb].
  unfold generateSpeech, uploadToGCS, file_save_, Soundboard_create. run.
  rewrite Hs. simpl. rewrite Hf. simpl.
  destruct (negb _); simpl; [auto|]. rewrite Hq. simpl. auto.
Qed.

Lemma post_soundboards_orphaned_blob_witness :
  let r := post_soundboards env_database_readonly soundboard_body world0 in
  fst r = respond 500 (failure "error" "Failed to create soundboard")
  /\ Soundboards (snd r) = []
  /\ bucket (snd r)
     = <[uuidv4 env0 ++ ".mp3" := audio_blob env_database_readonly]> (bucket world0).
Proof.
  apply (post_soundboards_orphaned_blob env_database_readonly soundboard_body world0
           "ER_OPTION_PREVENTS_STATEMENT"); reflexivity.
Defined.

Lemma Forall_filter_bool {A} (P : A -> Prop) (f : A -> bool) (l : list A) :
  Forall P l -> Forall P (List.filter f l).
Proof.
  induction 1 as [|x l Hx Hl IH]; simpl; [constructor|].
  destruct (f x); [constructor|]; assumption.
Qed.

(** A listing changes nothing but the log of calls. *)
Lemma validate_soundboard_stored e r w :
  stored (snd (validate_soundboard e r w)) = stored w.
Proof.
  unfold validate_soundboard, bucket_file.
  destruct (pop (split "/" (Soundboard.audioUrl r))) as [filename|]; [|reflexivity].
  destruct (negb (truthy (VStr filename))); [reflexivity|].
  unfold file_exists_. run.
  destruct (fault e (file_exists _)); reflexivity.
Qed.

Lemma Promise_all_validate_stored e rows : forall w,
  stored (snd (Promise_all_map (validate_soundboard e) rows w)) = stored w.
Proof.
  induction rows as [|r rows IH]; intros w; [reflexivity|].
  simpl.
  pose proof (validate_soundboard_stored e r w) as H1.
  destruct (validate_soundboard e r w) as [[v|m] w1]; simpl in *.
  - unfold bind at 1. specialize (IH w1).
    destruct (Promise_all_map (validate_soundboard e) rows w1) as [[vs|m] w2];
      simpl in *; congruence.
  - rewrite IH. exact H1.
Qed.

Lemma get_soundboards_stored e email w :
  stored (snd (get_soundboards e email w)) = stored w.
Proof.
  unfold get_soundboards, route, bind at 1, Soundboard_findAll. run.
  destruct (fault e (query SELECT "Soundboards")); [reflexivity|].
  cbn [log Soundboards]. destruct (length _ =? 0)%nat; [reflexivity|].
  set (rows := merge_sort _ _).
  pose proof (Promise_all_validate_stored e rows (log (query SELECT "Soundboards") w)) as H.
  destruct (Promise_all_map (validate_soundboard e) rows _) as [[vs|m] w']; simpl in *; exact H.
Qed.

(** X3. The invariant of the table, the last segment of [audioUrl] is
    [fileName], is kept by the three routes on soundboards, whatever the
    request, provided [uuidv4()] answers an identifier in its usual form. *)
Theorem soundboards_invariant_kept e body email id w :
  is_uuid (uuidv4 e) = true ->
  Forall url_names_file (Soundboards w) ->
  Forall url_names_file (Soundboards (snd (post_soundboards e body w)))
  /\ Forall url_names_file (Soundboards (snd (get_soundboards e email w)))
  /\ Forall url_names_file (Soundboards (snd (delete_soundboards e id w))).
Proof.
  intros Hu Hinv. split; [now apply post_soundboards_invariant|]. split.
  - pose proof (get_soundboards_stored e email w) as H.
    apply (f_equal Soundboards) in H. simpl in H. now rewrite H.
  - unfold delete_soundboards, Soundboard_findByPk. run.
    destruct (fault e (query SELECT _)); simpl; [exact Hinv|].
    destruct (List.find _ _); simpl; [|exact Hinv].
    unfold bucket_file. destruct (pop _) as [filename|]; simpl; [|exact Hinv].
    destruct (String.eqb filename ""); simpl; [exact Hinv|].
    unfold file_delete_, Soundboard_destroy. run. simpl.
    destruct (fault e (file_delete _)); simpl;
      [|destruct (bucket w !! _); simpl];
      (destruct (fault e (query DELETE _)); simpl;
       [exact Hinv | now apply Forall_filter_bool]).
Qed.

Lemma soundboards_invariant_kept_witness :
  Forall url_names_file (Soundboards (snd (post_soundboards env1 soundboard_body world_soundboard)))
  /\ Forall url_names_file (Soundboards (snd (get_soundboards env1 "sari@example.com" world_soundboard)))
  /\ Forall url_names_file (Soundboards (snd (delete_soundboards env1 (UUIDV4 env0) world_soundboard))).
Proof.
  apply soundboards_invariant_kept.
  - reflexivity.
  - repeat constructor.
Defined.

(** The rows of the table name an object as long as the three routes are
    the only ones that write it. *)
Lemma soundboards_named_kept e body email id w :
  is_uuid (uuidv4 e) = true ->
  Forall (fun r => names_an_object r = true) (Soundboards w) ->
  Forall (fun r => names_an_object r = true) (Soundboards (snd (post_soundboards e body w)))
  /\ Forall (fun r => names_an_object r = true)
       (Soundboards (snd (get_soundboards e email w)))
  /\ Forall (fun r => names_an_object r = true)
       (Soundboards (snd (delete_soundboards e id w))).
Proof.
  intros Hu Hinv. split; [|split].
  - unfold post_soundboards, route.
    destruct (_ || _)%bool; [exact Hinv|].
    unfold generateSpeech, uploadToGCS, file_save_, Soundboard_create. run.
    destruct (fault e (synthesizeSpeech _)); simpl; [exact Hinv|].
    destruct (fault e (file_save _)); simpl; [exact Hinv|].
    destruct (negb _); simpl; [exact Hinv|].
    destruct (fault e (query INSERT _)); simpl; [exact Hinv|].
    destruct (existsb _ _); simpl; [exact Hinv|].
    apply Forall_app. split; [exact Hinv|]. constructor; [|constructor].
    unfold names_an_object. cbn [Soundboard.audioUrl].
    rewrite pop_split_url.
    + destruct (uuidv4 e); reflexivity.
    + rewrite contains_app. apply andb_true_iff in Hu as [_ Hu].
      rewrite (uuid_chars_no_slash _ _ Hu). reflexivity.
  - pose proof (get_soundboards_stored e email w) as H.
    apply (f_equal Soundboards) in H. simpl in H. now rewrite H.
  - unfold delete_soundboards, Soundboard_findByPk. run.
    destruct (fault e (query SELECT _)); simpl; [exact Hinv|].
    destruct (List.find _ _); simpl; [|exact Hinv].
    unfold bucket_file. destruct (pop _) as [filename|]; simpl; [|exact Hinv].
    destruct (String.eqb filename ""); simpl; [exact Hinv|].
    unfold file_delete_, Soundboard_destroy. run. simpl.
    destruct (fault e (file_delete _)); simpl;
      [|destruct (bucket w !! _); simpl];
      (destruct (fault e (query DELETE _)); simpl;
       [exact Hinv | now apply Forall_filter_bool]).
Qed.

(** A soundboard whose URL ends in a slash names no object: the client of
    the bucket refuses the empty name outside the inner [try], so the
    listing and the deletion are answered 500, and the row stays. *)
Example soundboards_unnamed_object :
  fst (get_soundboards env0 "sari@example.com" world_unnamed_object)
  = respond 500 (failure "error" "Failed to fetch soundboards")
  /\ delete_soundboards env0 (UUIDV4 env0) world_unnamed_object
     = (respond 500 (failure "error" "Failed to delete soundboard"),
        log (query SELECT "Soundboards") world_unnamed_object).
Proof. split; reflexivity. Qed.

(** The world a successful creation leaves. *)
Lemma post_soundboards_success e body w title text email :
  nonempty_text (prop body "title") title ->
  nonempty_text (prop body "text") text ->
  nonempty_text (prop body "email") email ->
  fault e (synthesizeSpeech (VStr text)) = None ->
  fault e (file_save (uuidv4 e ++ ".mp3")) = None ->
  fault e (query INSERT "Soundboards") = None ->
  (forall r, In r (Soundboards w) -> Soundboard.id r <> UUIDV4 e) ->
  let r := post_soundboards e body w in
  status (fst r) = 201
  /\ stored (snd r)
     = stored (set_Soundboards (fun rows => (rows ++ [created_soundboard e title text email])%list)
                 (set_bucket (fun b => <[uuidv4 e ++ ".mp3" := audio_blob e]> b) w)).
Proof.
  intros [Ht Ht'] [Hx Hx'] [He He'] Hs Hf Hq Hfresh.
  unfold post_soundboards, route.
  rewrite Ht, Hx, He. simpl.
  apply String.eqb_neq in Ht', Hx', He'. rewrite Ht', Hx', He'. simpl.
  unfold generateSpeech, uploadToGCS, file_save_, Soundboard_create. run. simpl.
  rewrite Hs. simpl. rewrite Hf. simpl. rewrite Hq. simpl.
  rewrite existsb_none_of by (intros r Hr; apply String.eqb_neq; auto).
  simpl. split; reflexivity.
Qed.

Lemma get_soundboards_found e email w :
  fault e (query SELECT "Soundboards") = None ->
  owned_by email w <> [] ->
  (forall s, In s (owned_by email w) -> names_an_object s = true) ->
  fst (get_soundboards e email w)
  = respond 200
      (VObj [("success", VBool true);
             ("message", VStr "Soundboards retrieved successfully");
             ("data", VArr (map (listed e (bucket w))
                              (merge_sort (newest_first Soundboard.createdAt)
                                 (owned_by email w))))]).
Proof.
  intros Hf Hne Hnamed.
  unfold get_soundboards, route, bind at 1, Soundboard_findAll. run.
  rewrite Hf. cbn [log Soundboards]. fold (owned_by email w).
  set (rows := merge_sort (newest_first Soundboard.createdAt) (owned_by email w)).
  assert (Hperm : rows ≡ₚ owned_by email w) by apply merge_sort_Permutation.
  destruct rows as [|x rows'] eqn:E.
  { apply Permutation_nil_l in Hperm. congruence. }
  cbn [length Nat.eqb]. rewrite <- E.
  destruct (Promise_all_validate e rows (log (query SELECT "Soundboards") w))
    as (w' & -> & _); [|reflexivity].
  intros s Hs. apply Hnamed. rewrite E in Hs. exact (Permutation_in s Hperm Hs).
Qed.

Lemma uuid_file_no_slash s : is_uuid s = true -> contains "/" (s ++ ".mp3") = false.
Proof.
  intros Hu. rewrite contains_app. apply andb_true_iff in Hu as [_ Hu].
  now rewrite (uuid_chars_no_slash _ _ Hu).
Qed.

Lemma created_soundboard_named e title text email :
  is_uuid (uuidv4 e) = true ->
  names_an_object (created_soundboard e title text email) = true.
Proof.
  intros Hu. unfold names_an_object, created_soundboard. cbn [Soundboard.audioUrl].
  rewrite pop_split_url by now apply uuid_file_no_slash.
  destruct (uuidv4 e); reflexivity.
Qed.

(** X4. A soundboard that was just created is listed for its owner, when
    the URL of each soundboard the owner had ends in the name of an object:
    the listing answers 200 and contains the new row, with [fileExists]
    true when the existence check is answered. *)
Theorem post_then_get_soundboards e e' body w title text email :
  nonempty_text (prop body "title") title ->
  nonempty_text (prop body "text") text ->
  nonempty_text (prop body "email") email ->
  is_uuid (uuidv4 e) = true ->
  fault e (synthesizeSpeech (VStr text)) = None ->
  fault e (file_save (uuidv4 e ++ ".mp3")) = None ->
  fault e (query INSERT "Soundboards") = None ->
  (forall r, In r (Soundboards w) -> Soundboard.id r <> UUIDV4 e) ->
  (forall s, In s (owned_by email w) -> names_an_object s = true) ->
  fault e' (query SELECT "Soundboards") = None ->
  fault e' (file_exists (uuidv4 e ++ ".mp3")) = None ->
  let w1 := snd (post_soundboards e body w) in
  exists rows,
    fst (get_soundboards e' email w1)
    = respond 200
        (VObj [("success", VBool true);
               ("message", VStr "Soundboards retrieved successfully");
               ("data", VArr (map (listed e' (bucket w1)) rows))])
    /\ In (created_soundboard e title text email) rows
    /\ fileExists e' (bucket w1) (created_soundboard e title text email) = true.
Proof.
  intros Ht Hx He Hu Hs Hf Hq Hfresh Hnamed Hsel Hex w1.
  destruct (post_soundboards_success e body w title text email Ht Hx He Hs Hf Hq Hfresh)
    as [_ Hw1]. fold w1 in Hw1.
  assert (Hrows : Soundboards w1 = (Soundboards w ++ [created_soundboard e title text email])%list)
    by exact (f_equal Soundboards Hw1).
  assert (Hbucket : bucket w1 = <[uuidv4 e ++ ".mp3" := audio_blob e]> (bucket w))
    by exact (f_equal bucket Hw1).
  assert (Hin : In (created_soundboard e title text email) (owned_by email w1)).
  { unfold owned_by. apply filter_In. split.
    - rewrite Hrows. apply in_or_app. right. left. reflexivity.
    - simpl. apply String.eqb_refl. }
  exists (merge_sort (newest_first Soundboard.createdAt) (owned_by email w1)).
  split; [|split].
  - apply get_soundboards_found; [exact Hsel| |].
    + intros E. rewrite E in Hin. destruct Hin.
    + intros s Hs'. unfold owned_by in Hs'. rewrite Hrows, List.filter_app in Hs'.
      apply in_app_or in Hs' as [Hs' | Hs']; [now apply Hnamed|].
      apply filter_In in Hs' as [[<- | []] _]. now apply created_soundboard_named.
  - apply (Permutation_in _ (Permutation_sym (merge_sort_Permutation _ _)) Hin).
  - unfold fileExists, created_soundboard. cbn [Soundboard.audioUrl].
    rewrite pop_split_url by now apply uuid_file_no_slash.
    rewrite Hex, Hbucket, lookup_insert_eq. reflexivity.
Qed.

Lemma post_then_get_soundboards_witness :
  let w1 := snd (post_soundboards env1 soundboard_body world_soundboard) in
  exists rows,
    fst (get_soundboards env0 "sari@example.com" w1)
    = respond 200
        (VObj [("success", VBool true);
               ("message", VStr "Soundboards retrieved successfully");
               ("data", VArr (map (listed env0 (bucket w1)) rows))])
    /\ In (created_soundboard env1 "Salam" "Selamat pagi" "sari@example.com") rows
    /\ fileExists env0 (bucket w1)
         (created_soundboard env1 "Salam" "Selamat pagi" "sari@example.com") = true.
Proof.
  apply (post_then_get_soundboards env1 env0 soundboard_body world_soundboard);
    try (split; [reflexivity | discriminate]); try reflexivity.
  - intros r Hr. vm_compute in Hr. destruct Hr as [<- | []]. discriminate.
  - intros s Hs. vm_compute in Hs. destruct Hs as [<- | []]. reflexivity.
Defined.

Lemma find_snoc_fresh {A} (f : A -> bool) (l : list A) x :
  (forall y, In y l -> f y = false) -> f x = true -> List.find f (l ++ [x]) = Some x.
Proof.
  induction l as [|a l IH]; simpl; intros Hl Hx.
  - now rewrite Hx.
  - rewrite (Hl a) by auto. apply IH; auto.
Qed.

Lemma filter_snoc_fresh {A} (f : A -> bool) (l : list A) x :
  (forall y, In y l -> f y = true) -> f x = false -> List.filter f (l ++ [x]) = l.
Proof.
  induction l as [|a l IH]; simpl; intros Hl Hx.
  - now rewrite Hx.
  - rewrite (Hl a) by auto. f_equal. apply IH; auto.
Qed.

(** The world a successful deletion leaves. *)
Lemma delete_soundboards_success e id w soundboard filename object :
  List.find (fun r => String.eqb (Soundboard.id r) id) (Soundboards w) = Some soundboard ->
  pop (split "/" (Soundboard.audioUrl soundboard)) = Some filename ->
  filename <> "" ->
  bucket w !! filename = Some object ->
  fault e (query SELECT "Soundboards") = None ->
  fault e (file_delete filename) = None ->
  fault e (query DELETE "Soundboards") = None ->
  let r := delete_soundboards e id w in
  status (fst r) = 200
  /\ stored (snd r)
     = stored (set_Soundboards
                 (List.filter (fun r => negb (String.eqb (Soundboard.id r)
                                                (Soundboard.id soundboard))))
                 (set_bucket (fun b => delete filename b) w)).
Proof.
  intros Hfind Hpop Hname Hobj Hsel Hdel Hrow.
  apply String.eqb_neq in Hname.
  unfold delete_soundboards, Soundboard_findByPk. run.
  rewrite Hsel. simpl. rewrite Hfind.
  unfold bucket_file. rewrite Hpop. cbn [truthy]. rewrite Hname.
  unfold file_delete_, Soundboard_destroy. run. simpl.
  rewrite Hdel. simpl. rewrite Hobj. simpl. rewrite Hrow. simpl.
  split; reflexivity.
Qed.

(** X5. Creating a soundboard and deleting it by its identifier, every
    call succeeding, restores the tables and the bucket as they were before
    the creation, when the file name was free in the bucket. *)
Theorem post_then_delete_soundboards e e' body w title text email :
  nonempty_text (prop body "title") title ->
  nonempty_text (prop body "text") text ->
  nonempty_text (prop body "email") email ->
  is_uuid (uuidv4 e) = true ->
  fault e (synthesizeSpeech (VStr text)) = None ->
  fault e (file_save (uuidv4 e ++ ".mp3")) = None ->
  fault e (query INSERT "Soundboards") = None ->
  (forall r, In r (Soundboards w) -> Soundboard.id r <> UUIDV4 e) ->
  bucket w !! (uuidv4 e ++ ".mp3") = None ->
  fault e' (query SELECT "Soundboards") = None ->
  fault e' (file_delete (uuidv4 e ++ ".mp3")) = None ->
  fault e' (query DELETE "Soundboards") = None ->
  let w1 := snd (post_soundboards e body w) in
  let r := delete_soundboards e' (UUIDV4 e) w1 in
  status (fst r) = 200 /\ stored (snd r) = stored w.
Proof.
  intros Ht Hx He Hu Hs Hf Hq Hfresh Hfree Hsel Hdel Hrow w1.
  destruct (post_soundboards_success e body w title text email Ht Hx He Hs Hf Hq Hfresh)
    as [_ Hw1]. fold w1 in Hw1.
  assert (Hrows : Soundboards w1 = (Soundboards w ++ [created_soundboard e title text email])%list)
    by exact (f_equal Soundboards Hw1).
  assert (Hbucket : bucket w1 = <[uuidv4 e ++ ".mp3" := audio_blob e]> (bucket w))
    by exact (f_equal bucket Hw1).
  pose proof (f_equal HISTORY Hw1) as H1. pose proof (f_equal MESSAGE Hw1) as H2.
  pose proof (f_equal profile Hw1) as H3. pose proof (f_equal feedback Hw1) as H4.
  pose proof (f_equal Reports Hw1) as H5. simpl in H1, H2, H3, H4, H5.
  clearbody w1. clear Hw1.
  destruct (delete_soundboards_success e' (UUIDV4 e) w1
              (created_soundboard e title text email) (uuidv4 e ++ ".mp3") (audio_blob e))
    as [Hstatus Hstored]; try assumption.
  - rewrite Hrows. apply find_snoc_fresh.
    + intros y Hy. apply String.eqb_neq. auto.
    + apply String.eqb_refl.
  - apply pop_split_url. now apply uuid_file_no_slash.
  - destruct (uuidv4 e); discriminate.
  - rewrite Hbucket. apply lookup_insert_eq.
  - split; [exact Hstatus|]. rewrite Hstored. unfold stored. simpl.
    rewrite Hbucket, Hrows, (delete_insert_id _ _ _ Hfree), filter_snoc_fresh.
    + congruence.
    + intros y Hy. apply negb_true_iff, String.eqb_neq. auto.
    + now rewrite String.eqb_refl.
Qed.

Lemma post_then_delete_soundboards_witness :
  let w1 := snd (post_soundboards env0 soundboard_body world0) in
  let r := delete_soundboards env1 (UUIDV4 env0) w1 in
  status (fst r) = 200 /\ stored (snd r) = stored world0.
Proof.
  apply (post_then_delete_soundboards env0 env1 soundboard_body world0
           "Salam" "Selamat pagi" "sari@example.com");
    try (split; [reflexivity | discriminate]); try reflexivity.
  intros r [].
Defined.

(** X6. Deleting a soundboard never touches another one: the rows left
    are rows that were there, every row with another identifier is kept,
    and the only object of the bucket that can change is the one named by
    the URL of a row with the identifier of the request. *)
Theorem delete_soundboards_only_target e id w :
  let r := delete_soundboards e id w in
  (forall s, In s (Soundboards (snd r)) -> In s (Soundboards w))
  /\ (forall s, In s (Soundboards w) -> Soundboard.id s <> id -> In s (Soundboards (snd r)))
  /\ (forall k, bucket (snd r) !! k <> bucket w !! k ->
      exists s, In s (Soundboards w) /\ Soundboard.id s = id
                /\ pop (split "/" (Soundboard.audioUrl s)) = Some k).
Proof.
  unfold delete_soundboards, Soundboard_findByPk. run.
  destruct (fault e (query SELECT _)); simpl; [repeat split; auto; congruence|].
  destruct (List.find _ _) as [sb|] eqn:Hfind; simpl; [|repeat split; auto; congruence].
  apply find_some in Hfind as [Hin Hid]. apply String.eqb_eq in Hid.
  unfold bucket_file. destruct (pop _) as [k0|] eqn:Hpop; simpl;
    [|repeat split; auto; congruence].
  destruct (String.eqb k0 ""); simpl; [repeat split; auto; congruence|].
  unfold file_delete_, Soundboard_destroy. run. simpl.
  assert (Hkeep : forall s, In s (Soundboards w) -> Soundboard.id s <> id ->
            In s (List.filter (fun r => negb (String.eqb (Soundboard.id r) (Soundboard.id sb)))
                    (Soundboards w))).
  { intros s Hs Hne. apply filter_In. split; [exact Hs|].
    apply negb_true_iff, String.eqb_neq. congruence. }
  assert (Hsub : forall s,
            In s (List.filter (fun r => negb (String.eqb (Soundboard.id r) (Soundboard.id sb)))
                    (Soundboards w)) -> In s (Soundboards w)).
  { intros s Hs. now apply filter_In in Hs. }
  assert (Hkey : forall k, delete k0 (bucket w) !! k <> bucket w !! k ->
            exists s, In s (Soundboards w) /\ Soundboard.id s = id
                      /\ pop (split "/" (Soundboard.audioUrl s)) = Some k).
  { intros k Hk. destruct (decide (k0 = k)) as [<-|Hne].
    - exists sb. auto.
    - rewrite lookup_delete_ne in Hk by exact Hne. congruence. }
  destruct (fault e (file_delete _)); simpl;
    [|destruct (bucket w !! k0); simpl];
    (destruct (fault e (query DELETE _)); simpl); repeat split; auto; congruence.
Qed.

(** ** Histories and messages *)

(** X7. The first request for an email opens its history: with a
    non-empty email and title, no row for the email and the database
    accepting both statements, the response is 201 with the drawn
    identifier and one row is appended to [HISTORY]; nothing else changes. *)
Theorem post_history_email_created e body w email title :
  nonempty_text (prop body "email") email ->
  nonempty_text (prop body "title") title ->
  no_history email w ->
  fault e (query SELECT "HISTORY") = None ->
  fault e (query INSERT "HISTORY") = None ->
  let r := post_history_email e body w in
  fst r = respond 201
            (VObj [("message", VStr "Data History berhasil dibuat");
                   ("data", VObj [("email", VStr email); ("id", VStr (uuidv4 e));
                                  ("title", VStr title)])])
  /\ stored (snd r)
     = stored (set_HISTORY (fun rows =>
                 (rows ++ [{| History.email := VStr email; History.id := uuidv4 e;
                              History.title := VStr title |}])%list) w).
Proof.
  intros [He He'] [Ht Ht'] Hno Hsel Hins.
  assert (Hnone : forall x, In x (HISTORY w) -> sql_eq (History.email x) (VStr email) = false)
    by (intros x Hx; apply sql_eq_other; auto).
  unfold post_history_email, route. rewrite He, Ht. simpl.
  apply String.eqb_neq in He', Ht'. rewrite He', Ht'. simpl.
  unfold History_findOne, History_create. run. rewrite Hsel. simpl.
  rewrite (find_none_of _ _ Hnone). simpl. rewrite Hins. simpl.
  rewrite (existsb_none_of _ _ Hnone). simpl. split; reflexivity.
Qed.

Lemma post_history_email_created_witness :
  let r := post_history_email env0 history_body world0 in
  fst r = respond 201
            (VObj [("message", VStr "Data History berhasil dibuat");
                   ("data", VObj [("email", VStr "sari@example.com");
                                  ("id", VStr (uuidv4 env0));
                                  ("title", VStr "Percakapan")])])
  /\ stored (snd r)
     = stored (set_HISTORY (fun rows =>
                 (rows ++ [{| History.email := VStr "sari@example.com";
                              History.id := uuidv4 env0;
                              History.title := VStr "Percakapan" |}])%list) world0).
Proof.
  apply (post_history_email_created env0 history_body world0 "sari@example.com" "Percakapan").
  - split; [reflexivity | discriminate].
  - split; [reflexivity | discriminate].
  - intros r [].
  - reflexivity.
  - reflexivity.
Defined.

Lemma unique_emails_filter f rows :
  unique_emails rows = true -> unique_emails (List.filter f rows) = true.
Proof.
  induction rows as [|r rows IH]; simpl; intros Hu; [reflexivity|].
  apply andb_true_iff in Hu as [Hr Hu]. specialize (IH Hu).
  destruct (f r); [|exact IH]. simpl. rewrite IH, andb_true_r.
  apply negb_true_iff. apply negb_true_iff in Hr.
  apply existsb_none_of. intros x Hx. apply filter_In in Hx as [Hx _].
  apply not_true_is_false. intros E.
  assert (existsb (fun r' => sql_eq (History.email r') (History.email r)) rows = true);
    [|congruence].
  apply existsb_exists. eauto.
Qed.

(** The routes on histories, when they fail or answer, leave [HISTORY]
    as it was or as the statement they reached made it. *)
Lemma post_history_HISTORY e email body w :
  HISTORY (snd (post_history e email body w)) = HISTORY w.
Proof.
  unfold post_history, route.
  destruct (_ || _)%bool; [reflexivity|].
  unfold History_findOne, Message_create. run.
  destruct (fault e (query SELECT _)); simpl; [reflexivity|].
  destruct (List.find _ _); simpl; [|reflexivity].
  destruct (negb _); simpl; [reflexivity|].
  destruct (fault e (query INSERT _)); simpl; [reflexivity|].
  destruct (existsb _ (MESSAGE w)); simpl; [reflexivity|].
  destruct (negb _); reflexivity.
Qed.

Lemma delete_history_tables e email w :
  let r := delete_history e email w in
  (HISTORY (snd r) = HISTORY w
   \/ HISTORY (snd r)
      = List.filter (fun r => negb (sql_eq (History.email r) (VStr email))) (HISTORY w)
        /\ MESSAGE (snd r)
           = List.filter (fun m => negb (String.eqb (Message.email m) email)) (MESSAGE w))
  /\ (MESSAGE (snd r) = MESSAGE w
      \/ MESSAGE (snd r)
         = List.filter (fun m => negb (String.eqb (Message.email m) email)) (MESSAGE w)).
Proof.
  unfold delete_history, route.
  unfold History_findOne, Message_destroy, History_destroy. run.
  destruct (fault e (query SELECT _)); simpl; [auto|].
  destruct (List.find _ _); simpl; [|auto].
  destruct (fault e (query DELETE "MESSAGE")); simpl; [auto|].
  destruct (fault e (query DELETE "HISTORY")); simpl; auto.
Qed.

(** X8. The emails of [HISTORY] stay distinct under the three routes
    that write histories and messages, whatever the request and whatever
    fails. *)
Theorem history_emails_stay_unique e email body body' w :
  unique_emails (HISTORY w) = true ->
  unique_emails (HISTORY (snd (post_history_email e body w))) = true
  /\ unique_emails (HISTORY (snd (post_history e email body' w))) = true
  /\ unique_emails (HISTORY (snd (delete_history e email w))) = true.
Proof.
  intros Hu. split; [now apply post_history_email_unique|]. split.
  - now rewrite post_history_HISTORY.
  - destruct (delete_history_tables e email w) as [[-> | [-> _]] _];
      [exact Hu | now apply unique_emails_filter].
Qed.

Lemma history_emails_stay_unique_witness :
  unique_emails (HISTORY (snd (post_history_email env1 history_body world_message))) = true
  /\ unique_emails
       (HISTORY (snd (post_history env1 "sari@example.com" message_body world_message))) = true
  /\ unique_emails (HISTORY (snd (delete_history env1 "sari@example.com" world_message))) = true.
Proof. apply history_emails_stay_unique. reflexivity. Defined.

(** The world an appended message leaves. *)
Lemma post_history_success e email body w text row :
  prop body "message" = VStr text -> text <> "" ->
  not_null (prop body "is_speech_to_text") = true ->
  In row (HISTORY w) -> History.email row = VStr email ->
  fault e (query SELECT "HISTORY") = None ->
  fault e (query INSERT "MESSAGE") = None ->
  (forall m, In m (MESSAGE w) -> Message.message_id m <> uuidv4 e) ->
  let r := post_history e email body w in
  status (fst r) = 201
  /\ stored (snd r)
     = stored (set_MESSAGE (fun rows =>
                 (rows ++ [{| Message.message_id := uuidv4 e;
                              Message.email := email;
                              Message.message := VStr text;
                              Message.created_at := Date_now e;
                              Message.is_speech_to_text := prop body "is_speech_to_text" |}])%list)
                 w).
Proof.
  intros Hm Ht Hnn Hin He Hsel Hins Hfresh.
  unfold post_history, route. rewrite Hm. simpl.
  apply String.eqb_neq in Ht. rewrite Ht. simpl.
  assert (Hu : is_undefined (prop body "is_speech_to_text") = false)
    by (destruct (prop body "is_speech_to_text"); simpl in *; congruence).
  rewrite Hu. unfold History_findOne, Message_create. run.
  rewrite Hsel. simpl.
  destruct (find_some_of (fun r => sql_eq (History.email r) (VStr email)) (HISTORY w) row Hin)
    as [found Hfound]; [now apply sql_eq_text|].
  rewrite Hfound, Hnn. simpl. rewrite Hins. simpl.
  rewrite existsb_none_of by (intros m Hm'; apply String.eqb_neq; auto).
  assert (Hfk : existsb (fun r => sql_eq (History.email r) (VStr email)) (HISTORY w) = true).
  { apply existsb_exists. exists row. split; [exact Hin | now apply sql_eq_text]. }
  rewrite Hfk. simpl. split; reflexivity.
Qed.

Lemma get_history_answer e email w :
  fault e (query SELECT "HISTORY") = None ->
  fault e (query SELECT "MESSAGE") = None ->
  fst (get_history e email w)
  = match List.find (fun r => sql_eq (History.email r) (VStr email)) (HISTORY w) with
    | None => history_not_found email
    | Some h =>
        respond 200
          (VObj [("message", VStr "Data ditemukan");
                 ("data", VObj [("history", History_toJSON h);
                                ("messages",
                                 VArr (map Message_toJSON
                                         (unordered e (messages_of email w))))])])
    end.
Proof.
  intros Hh Hm. unfold get_history, History_findOne, Message_findAll. run.
  rewrite Hh. simpl. destruct (List.find _ _); simpl; [|reflexivity].
  rewrite Hm. reflexivity.
Qed.

(** X9. A message that was just appended is read back: when the database
    answers with the rows it selected, the history of the email is
    answered 200 with its row and with the messages of that email, those
    it had and the new one, in the order the database gives them. *)
Theorem post_then_get_history e e' email body w text :
  prop body "message" = VStr text -> text <> "" ->
  not_null (prop body "is_speech_to_text") = true ->
  (exists row, In row (HISTORY w) /\ History.email row = VStr email) ->
  fault e (query SELECT "HISTORY") = None ->
  fault e (query INSERT "MESSAGE") = None ->
  (forall m, In m (MESSAGE w) -> Message.message_id m <> uuidv4 e) ->
  fault e' (query SELECT "HISTORY") = None ->
  fault e' (query SELECT "MESSAGE") = None ->
  answers_selected e' ->
  let w1 := snd (post_history e email body w) in
  exists h messages,
    In h (HISTORY w) /\ History.email h = VStr email
    /\ messages ≡ₚ (messages_of email w
                    ++ [{| Message.message_id := uuidv4 e;
                           Message.email := email;
                           Message.message := VStr text;
                           Message.created_at := Date_now e;
                           Message.is_speech_to_text :=
                             prop body "is_speech_to_text" |}])%list
    /\ fst (get_history e' email w1)
       = respond 200
           (VObj [("message", VStr "Data ditemukan");
                  ("data",
                   VObj [("history", History_toJSON h);
                         ("messages", VArr (map Message_toJSON messages))])]).
Proof.
  intros Hm Ht Hnn (row & Hin & He) Hsel Hins Hfresh Hsel' Hmsg' Hord w1.
  destruct (post_history_success e email body w text row Hm Ht Hnn Hin He Hsel Hins Hfresh)
    as [_ Hw1]. fold w1 in Hw1.
  pose proof (f_equal HISTORY Hw1) as H1. pose proof (f_equal MESSAGE Hw1) as H2.
  simpl in H1, H2. clearbody w1. clear Hw1.
  destruct (find_some_of (fun r => sql_eq (History.email r) (VStr email)) (HISTORY w) row Hin)
    as [h Hfound]; [now apply sql_eq_text|].
  exists h, (unordered e' (messages_of email w1)).
  pose proof (find_some _ _ Hfound) as [Hh1 Hh2]. apply sql_eq_text in Hh2.
  split; [exact Hh1|]. split; [exact Hh2|]. split.
  - rewrite (Hord (messages_of email w1)). unfold messages_of.
    rewrite H2, List.filter_app. simpl. rewrite String.eqb_refl. reflexivity.
  - rewrite (get_history_answer e' email w1 Hsel' Hmsg'), H1, Hfound. reflexivity.
Qed.

Lemma post_then_get_history_witness :
  let w1 := snd (post_history env_last_first "sari@example.com" reply_body world_message) in
  exists h messages,
    In h (HISTORY world_message) /\ History.email h = VStr "sari@example.com"
    /\ messages ≡ₚ (messages_of "sari@example.com" world_message
                    ++ [{| Message.message_id := uuidv4 env_last_first;
                           Message.email := "sari@example.com";
                           Message.message := VStr "Baik, terima kasih";
                           Message.created_at := Date_now env_last_first;
                           Message.is_speech_to_text :=
                             prop reply_body "is_speech_to_text" |}])%list
    /\ fst (get_history env_last_first "sari@example.com" w1)
       = respond 200
           (VObj [("message", VStr "Data ditemukan");
                  ("data",
                   VObj [("history", History_toJSON h);
                         ("messages", VArr (map Message_toJSON messages))])]).
Proof.
  apply (post_then_get_history env_last_first env_last_first "sari@example.com" reply_body
           world_message "Baik, terima kasih"); try reflexivity.
  - discriminate.
  - eexists. split; [left; reflexivity | reflexivity].
  - intros m Hm. vm_compute in Hm. destruct Hm as [<- | []]. discriminate.
  - intros rows. symmetry. apply Permutation_rev.
Defined.

(** The database may answer the messages in another order than they were
    appended in. *)
Example get_history_last_first :
  json (fst (get_history env_last_first "sari@example.com"
               (snd (post_history env_last_first "sari@example.com" reply_body world_message))))
  = VObj [("message", VStr "Data ditemukan");
          ("data",
           VObj [("history",
                  History_toJSON {| History.email := VStr "sari@example.com";
                                    History.id := uuidv4 env0;
                                    History.title := VStr "Percakapan" |});
                 ("messages",
                  VArr [Message_toJSON
                          {| Message.message_id := uuidv4 env_last_first;
                             Message.email := "sari@example.com";
                             Message.message := VStr "Baik, terima kasih";
                             Message.created_at := Date_now env_last_first;
                             Message.is_speech_to_text := VBool false |};
                        Message_toJSON
                          {| Message.message_id := uuidv4 env1;
                             Message.email := "sari@example.com";
                             Message.message := VStr "Apa kabar?";
                             Message.created_at := Date_now env1;
                             Message.is_speech_to_text := VBool true |}])])].
Proof. vm_compute. reflexivity. Qed.

Lemma filter_filter_implied {A} (f g : A -> bool) (l : list A) :
  (forall x, In x l -> f x = true -> g x = true) ->
  List.filter f (List.filter g l) = List.filter f l.
Proof.
  induction l as [|x l IH]; simpl; intros H; [reflexivity|].
  destruct (g x) eqn:Hg; simpl.
  - destruct (f x); [f_equal|]; apply IH; auto.
  - destruct (f x) eqn:Hf.
    + rewrite (H x) in Hg by auto. discriminate.
    + apply IH; auto.
Qed.

Lemma filter_filter_excluded {A} (f : A -> bool) (l : list A) :
  List.filter f (List.filter (fun x => negb (f x)) l) = [].
Proof.
  induction l as [|x l IH]; simpl; [reflexivity|].
  destruct (f x) eqn:Hf; simpl; [exact IH|]. now rewrite Hf.
Qed.

(** The world a successful deletion of a history leaves. *)
Lemma delete_history_success e email w row :
  In row (HISTORY w) -> History.email row = VStr email ->
  fault e (query SELECT "HISTORY") = None ->
  fault e (query DELETE "MESSAGE") = None ->
  fault e (query DELETE "HISTORY") = None ->
  let r := delete_history e email w in
  status (fst r) = 200
  /\ stored (snd r)
     = stored (set_HISTORY
                 (List.filter (fun r => negb (sql_eq (History.email r) (VStr email))))
                 (set_MESSAGE
                    (List.filter (fun m => negb (String.eqb (Message.email m) email))) w)).
Proof.
  intros Hin He Hsel Hm Hh.
  destruct (find_some_of (fun r => sql_eq (History.email r) (VStr email)) (HISTORY w) row Hin)
    as [found Hfound]; [now apply sql_eq_text|].
  unfold delete_history, History_findOne, Message_destroy, History_destroy. run.
  rewrite Hsel. simpl. rewrite Hfound, Hm. simpl. rewrite Hh. simpl.
  split; reflexivity.
Qed.

(** X10. Deleting the history of an email, every statement succeeding,
    removes its row and all its messages and nothing else: the histories
    and the messages of any other email are as they were, and a later
    read of the deleted history is answered 404. *)
Theorem delete_history_removes e e' email w :
  (exists row, In row (HISTORY w) /\ History.email row = VStr email) ->
  fault e (query SELECT "HISTORY") = None ->
  fault e (query DELETE "MESSAGE") = None ->
  fault e (query DELETE "HISTORY") = None ->
  fault e' (query SELECT "HISTORY") = None ->
  let r := delete_history e email w in
  status (fst r) = 200
  /\ history_of email (snd r) = []
  /\ messages_of email (snd r) = []
  /\ (forall other, other <> email ->
      history_of other (snd r) = history_of other w
      /\ messages_of other (snd r) = messages_of other w)
  /\ fst (get_history e' email (snd r)) = history_not_found email.
Proof.
  intros (row & Hin & He) Hsel Hm Hh Hsel' r.
  destruct (delete_history_success e email w row Hin He Hsel Hm Hh) as [Hs Hw]. fold r in Hs, Hw.
  pose proof (f_equal HISTORY Hw) as H1. pose proof (f_equal MESSAGE Hw) as H2.
  simpl in H1, H2. clearbody r. clear Hw.
  assert (Hnone : history_of email (snd r) = []).
  { unfold history_of. rewrite H1. apply filter_filter_excluded. }
  split; [exact Hs|]. split; [exact Hnone|]. split; [|split].
  - unfold messages_of. rewrite H2.
    apply (filter_filter_excluded (fun m => String.eqb (Message.email m) email)).
  - intros other Hne. unfold history_of, messages_of. rewrite H1, H2. split.
    + apply filter_filter_implied. intros x _ Hx. apply sql_eq_text in Hx.
      apply negb_true_iff, sql_eq_other. rewrite Hx. congruence.
    + apply filter_filter_implied. intros x _ Hx. apply String.eqb_eq in Hx.
      apply negb_true_iff, String.eqb_neq. congruence.
  - unfold get_history, History_findOne. run. rewrite Hsel'. simpl.
    rewrite find_none_of; [reflexivity|].
    intros x Hx. apply not_true_is_false. intros E.
    assert (In x (history_of email (snd r))) by (apply filter_In; auto).
    rewrite Hnone in H. destruct H.
Qed.

Lemma delete_history_removes_witness :
  let r := delete_history env1 "sari@example.com" world_message in
  status (fst r) = 200
  /\ history_of "sari@example.com" (snd r) = []
  /\ messages_of "sari@example.com" (snd r) = []
  /\ (forall other, other <> "sari@example.com" ->
      history_of other (snd r) = history_of other world_message
      /\ messages_of other (snd r) = messages_of other world_message)
  /\ fst (get_history env0 "sari@example.com" (snd r)) = history_not_found "sari@example.com".
Proof.
  apply (delete_history_removes env1 env0 "sari@example.com" world_message);
    try reflexivity.
  eexists. split; [left; reflexivity | reflexivity].
Defined.

(** X11. The deletion is not atomic: when the messages were deleted and
    the database then refuses to delete the history, the response is 500
    with the message of the error, the messages of the email are gone and
    its history is still there. *)
Theorem delete_history_partial e email w message :
  (exists row, In row (HISTORY w) /\ History.email row = VStr email) ->
  fault e (query SELECT "HISTORY") = None ->
  fault e (query DELETE "MESSAGE") = None ->
  fault e (query DELETE "HISTORY") = Some message ->
  let r := delete_history e email w in
  fst r = respond 500 (VObj [("message", VStr message)])
  /\ messages_of email (snd r) = []
  /\ HISTORY (snd r) = HISTORY w.
Proof.
  intros (row & Hin & He) Hsel Hm Hh.
  destruct (find_some_of (fun r => sql_eq (History.email r) (VStr email)) (HISTORY w) row Hin)
    as [found Hfound]; [now apply sql_eq_text|].
  unfold delete_history, History_findOne, Message_destroy, History_destroy. run.
  rewrite Hsel. simpl. rewrite Hfound, Hm. simpl. rewrite Hh. simpl.
  split; [reflexivity|]. split; [|reflexivity].
  apply (filter_filter_excluded (fun m => String.eqb (Message.email m) email)).
Qed.

Lemma delete_history_partial_witness :
  let r := delete_history env_history_locked "sari@example.com" world_message in
  fst r = respond 500 (VObj [("message", VStr "Lock wait timeout exceeded")])
  /\ messages_of "sari@example.com" (snd r) = []
  /\ HISTORY (snd r) = HISTORY world_message
  /\ length (MESSAGE world_message) = 1%nat.
Proof.
  destruct (delete_history_partial env_history_locked "sari@example.com" world_message
              "Lock wait timeout exceeded") as (H1 & H2 & H3); try reflexivity.
  - eexists. split; [left; reflexivity | reflexivity].
  - repeat split; assumption.
Defined.

Lemma post_history_email_tables e body w :
  MESSAGE (snd (post_history_email e body w)) = MESSAGE w
  /\ forall h, In h (HISTORY w) -> In h (HISTORY (snd (post_history_email e body w))).
Proof.
  unfold post_history_email, route.
  destruct (_ || _)%bool; [auto|].
  unfold History_findOne, History_create. run.
  destruct (fault e (query SELECT _)); simpl; [auto|].
  destruct (List.find _ _); simpl; [auto|].
  destruct (negb _); simpl; [auto|].
  destruct (fault e (query INSERT _)); simpl; [auto|].
  destruct (existsb _ _); simpl; [auto|].
  split; [reflexivity|]. intros h Hh. apply in_or_app. auto.
Qed.

Lemma post_history_MESSAGE e email body w :
  let r := post_history e email body w in
  MESSAGE (snd r) = MESSAGE w
  \/ exists m, MESSAGE (snd r) = (MESSAGE w ++ [m])%list
               /\ exists h, In h (HISTORY w) /\ History.email h = VStr (Message.email m).
Proof.
  unfold post_history, route.
  destruct (_ || _)%bool; [auto|].
  unfold History_findOne, Message_create. run.
  destruct (fault e (query SELECT _)); simpl; [auto|].
  destruct (List.find _ _); simpl; [|auto].
  destruct (negb _); simpl; [auto|].
  destruct (fault e (query INSERT _)); simpl; [auto|].
  destruct (existsb _ (MESSAGE w)); simpl; [auto|].
  destruct (existsb _ (HISTORY w)) eqn:Hfk; simpl; [|auto].
  right. eexists. split; [reflexivity|].
  apply existsb_exists in Hfk as (h & Hh & Heq). apply sql_eq_text in Heq. eauto.
Qed.

(** X12. Every message belongs to a history, and the three routes that
    write histories and messages keep it so, whatever the request and
    whatever fails: a message is appended only under an existing history,
    and a history is deleted only after its messages. *)
Theorem messages_keep_their_history e email body body' w :
  messages_have_history w ->
  messages_have_history (snd (post_history_email e body w))
  /\ messages_have_history (snd (post_history e email body' w))
  /\ messages_have_history (snd (delete_history e email w)).
Proof.
  intros Hinv. split; [|split].
  - destruct (post_history_email_tables e body w) as [Hm Hh].
    intros m Hin. rewrite Hm in Hin. destruct (Hinv m Hin) as (h & Hh1 & Hh2). eauto.
  - pose proof (post_history_HISTORY e email body' w) as Hh.
    destruct (post_history_MESSAGE e email body' w) as [Hm | (m0 & Hm & h0 & Hh0 & He0)];
      intros m Hin; rewrite Hh; rewrite Hm in Hin.
    + exact (Hinv m Hin).
    + apply in_app_or in Hin as [Hin | [<- | []]]; [exact (Hinv m Hin) | eauto].
  - destruct (delete_history_tables e email w) as [[Hh | [Hh Hm]] Hm'].
    + intros m Hin. rewrite Hh.
      destruct Hm' as [Hm' | Hm']; rewrite Hm' in Hin;
        [|apply filter_In in Hin as [Hin _]]; exact (Hinv m Hin).
    + intros m Hin. rewrite Hm in Hin. apply filter_In in Hin as [Hin Hne].
      destruct (Hinv m Hin) as (h & Hh1 & Hh2). exists h. split; [|exact Hh2].
      rewrite Hh. apply filter_In. split; [exact Hh1|].
      apply negb_true_iff in Hne. apply String.eqb_neq in Hne.
      apply negb_true_iff, sql_eq_other. rewrite Hh2. congruence.
Qed.

Lemma messages_keep_their_history_witness :
  messages_have_history world_message
  /\ messages_have_history (snd (post_history_email env0 history_body world_message))
  /\ messages_have_history
       (snd (post_history env0 "sari@example.com" message_body world_message))
  /\ messages_have_history (snd (delete_history env0 "sari@example.com" world_message)).
Proof.
  assert (H : messages_have_history world_message).
  { intros m Hm. vm_compute in Hm. destruct Hm as [<- | []].
    eexists. split; [left; reflexivity | reflexivity]. }
  split; [exact H|]. now apply messages_keep_their_history.
Defined.

(** ** Profiles *)

(** The world a created profile leaves. *)
Lemma post_profile_success e body w email :
  truthy (prop body "name") = true ->
  nonempty_text (prop body "email") email ->
  profiles_of email w = [] ->
  fault e (query SELECT "profile") = None ->
  fault e (query INSERT "profile") = None ->
  let r := post_profile e body w in
  fst r = respond 201
            (VObj [("success", VBool true);
                   ("message", VStr "Profile created successfully");
                   ("data", VObj [("name", prop body "name");
                                  ("email", VStr email)])])
  /\ stored (snd r)
     = stored (set_profile (fun rows =>
                 (rows ++ [{| Profile.name := prop body "name";
                              Profile.email := VStr email;
                              Profile.profile_picture_url := VNull |}])%list) w).
Proof.
  intros Hn [He He'] Hfree Hsel Hins r. subst r.
  unfold post_profile, route. rewrite Hn, He. simpl.
  apply String.eqb_neq in He'. rewrite He'. simpl.
  unfold profile_select, profile_insert. run. rewrite Hsel. simpl.
  fold (profiles_of email w). rewrite Hfree. simpl. rewrite Hins. simpl. auto.
Qed.

(** X13. A profile is created once per email: a request whose email
    already has a profile is answered 400 and changes nothing; a request
    with a truthy name and a non-empty email that has none, the database
    accepting the statements, is answered 201 and appends one profile
    without picture. *)
Theorem post_profile_once e body w email :
  truthy (prop body "name") = true ->
  nonempty_text (prop body "email") email ->
  fault e (query SELECT "profile") = None ->
  let r := post_profile e body w in
  (profiles_of email w <> [] ->
   fst r = respond 400 (failure "message" "Email already exists")
   /\ stored (snd r) = stored w)
  /\ (profiles_of email w = [] -> fault e (query INSERT "profile") = None ->
      fst r = respond 201
                (VObj [("success", VBool true);
                       ("message", VStr "Profile created successfully");
                       ("data", VObj [("name", prop body "name");
                                      ("email", VStr email)])])
      /\ stored (snd r)
         = stored (set_profile (fun rows =>
                     (rows ++ [{| Profile.name := prop body "name";
                                  Profile.email := VStr email;
                                  Profile.profile_picture_url := VNull |}])%list) w)).
Proof.
  intros Hn [He He'] Hsel r. subst r.
  unfold post_profile, route. rewrite Hn, He. simpl.
  apply String.eqb_neq in He'. rewrite He'. simpl.
  unfold profile_select, profile_insert. run. rewrite Hsel. simpl.
  fold (profiles_of email w). split.
  - intros Hne. destruct (profiles_of email w); [congruence|]. simpl. auto.
  - intros Hfree Hins. rewrite Hfree. simpl. rewrite Hins. simpl. auto.
Qed.

Lemma post_profile_once_witness :
  (let r := post_profile env1 profile_body world_profile in
   fst r = respond 400 (failure "message" "Email already exists")
   /\ stored (snd r) = stored world_profile)
  /\ (let r := post_profile env0 profile_body world0 in
      fst r = respond 201
                (VObj [("success", VBool true);
                       ("message", VStr "Profile created successfully");
                       ("data", VObj [("name", VStr "Sari");
                                      ("email", VStr "sari@example.com")])])
      /\ profile (snd r) = [{| Profile.name := VStr "Sari";
                               Profile.email := VStr "sari@example.com";
                               Profile.profile_picture_url := VNull |}]).
Proof.
  split.
  - apply (post_profile_once env1 profile_body world_profile "sari@example.com");
      try reflexivity; [split; [reflexivity | discriminate] | discriminate].
  - destruct (post_profile_once env0 profile_body world0 "sari@example.com")
      as [_ H]; try reflexivity; [split; [reflexivity | discriminate]|].
    destruct H as [H1 H2]; try reflexivity.
    split; [exact H1|]. exact (f_equal profile H2).
Defined.

Lemma get_profile_answer e email w :
  fault e (query SELECT "profile") = None ->
  get_profile e email w
  = (match profiles_of email w with
     | [] => respond 404 (failure "message" "Profile not found")
     | p :: _ => respond 200 (VObj [("success", VBool true); ("data", Profile_toJSON p)])
     end, log (query SELECT "profile") w).
Proof.
  intros Hsel. unfold get_profile, profile_select. run. rewrite Hsel. simpl.
  fold (profiles_of email w). destruct (profiles_of email w); reflexivity.
Qed.

(** X14. A profile that was just created is read back: the read of its
    email is answered 200 with the name and the email of the request and
    no picture. *)
Theorem post_then_get_profile e e' body w email :
  truthy (prop body "name") = true ->
  nonempty_text (prop body "email") email ->
  profiles_of email w = [] ->
  fault e (query SELECT "profile") = None ->
  fault e (query INSERT "profile") = None ->
  fault e' (query SELECT "profile") = None ->
  let w1 := snd (post_profile e body w) in
  fst (get_profile e' email w1)
  = respond 200
      (VObj [("success", VBool true);
             ("data", Profile_toJSON {| Profile.name := prop body "name";
                                        Profile.email := VStr email;
                                        Profile.profile_picture_url := VNull |})]).
Proof.
  intros Hn He Hfree Hsel Hins Hsel' w1.
  destruct (post_profile_success e body w email Hn He Hfree Hsel Hins) as [_ Hw1].
  fold w1 in Hw1.
  pose proof (f_equal profile Hw1) as Hp. simpl in Hp. clearbody w1.
  rewrite (get_profile_answer e' email w1 Hsel'). cbn [fst].
  unfold profiles_of in *. rewrite Hp, List.filter_app, Hfree. simpl.
  rewrite String.eqb_refl. reflexivity.
Qed.

Lemma post_then_get_profile_witness :
  fst (get_profile env1 "sari@example.com" (snd (post_profile env0 profile_body world0)))
  = respond 200
      (VObj [("success", VBool true);
             ("data", Profile_toJSON {| Profile.name := VStr "Sari";
                                        Profile.email := VStr "sari@example.com";
                                        Profile.profile_picture_url := VNull |})]).
Proof.
  apply (post_then_get_profile env0 env1 profile_body world0 "sari@example.com");
    try reflexivity.
  split; [reflexivity | discriminate].
Defined.

(** X15. An update of an existing profile, the upload and the statement
    succeeding, is answered 200; every profile of the email gets the new
    name and keeps its email, it gets the public URL of the stored image
    when an image is attached and keeps its picture otherwise; the other
    profiles are as they were. *)
Theorem put_profile_updates e email body file w :
  truthy (prop body "name") = true ->
  upload_single file = Ok file ->
  profiles_of email w <> [] ->
  (forall f, file = Some f -> fault e (file_save (profile_picture_key e f)) = None) ->
  fault e (query UPDATE "profile") = None ->
  let picture :=
    match file with
    | Some f => VStr (public_url e (profile_picture_key e f))
    | None => VNull
    end in
  let r := put_profile e email body file w in
  fst r = respond 200 (VObj [("success", VBool true);
                             ("message", VStr "Profile updated successfully")])
  /\ profile (snd r)
     = map (fun p => if sql_eq (Profile.email p) (VStr email)
                     then updated_profile (prop body "name") picture p else p)
         (profile w)
  /\ (forall f, file = Some f ->
      bucket (snd r) !! profile_picture_key e f
      = Some {| content := buffer f; contentType := mimetype f |}).
Proof.
  intros Hname Hup Hsome Hsave Hupd picture r. subst r picture.
  unfold put_profile. rewrite Hup. unfold route. rewrite Hname. cbn [negb].
  destruct file as [f|].
  - specialize (Hsave f eq_refl).
    unfold uploadToGCS, file_save_, profile_update. run.
    fold (profile_picture_key e f). rewrite Hsave. cbn [log set_bucket fault].
    rewrite Hupd.
    cbn [log set_profile set_bucket profile bucket calls fst snd strictly_equals].
    split; [reflexivity|]. split; [reflexivity|].
    intros f' [= <-]. apply lookup_insert_eq.
  - unfold profile_update. run.
    rewrite Hupd.
    cbn [log set_profile set_bucket profile bucket calls fst snd strictly_equals].
    split; [reflexivity|]. split; [reflexivity|]. intros f' [=].
Qed.

Lemma put_profile_updates_witness :
  let body : gmap string value := {[ "name" := VStr "Sari Dewi" ]} in
  let r := put_profile env1 "sari@example.com" body (Some picture) world_profile in
  fst r = respond 200 (VObj [("success", VBool true);
                             ("message", VStr "Profile updated successfully")])
  /\ profile (snd r)
     = [{| Profile.name := VStr "Sari Dewi";
           Profile.email := VStr "sari@example.com";
           Profile.profile_picture_url :=
             VStr "https://storage.googleapis.com/handlips-audio/profiles/1730419260000-sari.png" |}]
  /\ bucket (snd r) !! "profiles/1730419260000-sari.png"
     = Some {| content := []; contentType := "image/png" |}.
Proof.
  intros body.
  destruct (put_profile_updates env1 "sari@example.com" body (Some picture) world_profile)
    as (H1 & H2 & H3); try reflexivity.
  - discriminate.
  - split; [exact H1|]. split; [rewrite H2; reflexivity|].
    apply (H3 picture eq_refl).
Defined.

(** X16. A file that is not a JPEG or PNG image is refused before the
    handler runs: the response is 500 with the message of the filter and
    the world is as it was, whatever the body; a file above 5 MiB is
    refused with a 500 in the same way. *)
Theorem put_profile_refuses_file e email body f w :
  let r := put_profile e email body (Some f) w in
  (~ In (mimetype f) allowedMimes ->
   r = (respond 500 (failure "message" "File harus berupa gambar."), w))
  /\ ((5 * 1024 * 1024 < Z.of_nat (length (buffer f)))%Z ->
      status (fst r) = 500 /\ snd r = w).
Proof.
  intros r. subst r. unfold put_profile, upload_single. split.
  - intros Hmime.
    rewrite existsb_none_of; [reflexivity|].
    intros x Hx. apply String.eqb_neq. intros E. apply Hmime. now rewrite E.
  - intros Hsize. destruct (negb _); [auto|].
    apply Z.ltb_lt in Hsize. rewrite Hsize. auto.
Qed.

Lemma put_profile_refuses_file_witness :
  put_profile env0 "sari@example.com" {[ "name" := VStr "Sari" ]} (Some document) world_profile
  = (respond 500 (failure "message" "File harus berupa gambar."), world_profile).
Proof.
  apply (put_profile_refuses_file env0 "sari@example.com" _ document world_profile).
  intros [H | [H | [H | []]]]; discriminate H.
Defined.

(** X17. An update without a name is answered 400 and changes nothing;
    in particular an accepted image that comes with it is not uploaded. *)
Theorem put_profile_requires_name e email body file w :
  truthy (prop body "name") = false ->
  upload_single file = Ok file ->
  put_profile e email body file w = (respond 400 (failure "message" "Name is required"), w).
Proof.
  intros Hname Hup. unfold put_profile. rewrite Hup. unfold route. now rewrite Hname.
Qed.

Lemma put_profile_requires_name_witness :
  put_profile env0 "sari@example.com" ∅ (Some picture) world_profile
  = (respond 400 (failure "message" "Name is required"), world_profile).
Proof. apply put_profile_requires_name; reflexivity. Defined.

Lemma unique_profiles_snoc rows row :
  unique_profiles rows = true ->
  existsb (fun r => sql_eq (Profile.email r) (Profile.email row)) rows = false ->
  unique_profiles (rows ++ [row]) = true.
Proof.
  induction rows as [|r rows IH]; simpl; intros Hu Hn; [reflexivity|].
  apply andb_true_iff in Hu as [Hr Hu]. apply orb_false_iff in Hn as [Hn1 Hn2].
  rewrite (IH Hu Hn2), andb_true_r, existsb_app. simpl.
  apply negb_true_iff in Hr. rewrite Hr, sql_eq_sym, Hn1. reflexivity.
Qed.

Lemma unique_profiles_map (g : Profile.t -> Profile.t) rows :
  (forall r, Profile.email (g r) = Profile.email r) ->
  unique_profiles (map g rows) = unique_profiles rows.
Proof.
  intros Hg. induction rows as [|r rows IH]; simpl; [reflexivity|].
  rewrite IH, Hg. do 2 f_equal.
  clear IH. induction rows as [|x rows IH]; simpl; [reflexivity|].
  now rewrite IH, Hg.
Qed.

Lemma filter_nil_existsb {A} (f : A -> bool) (l : list A) :
  List.filter f l = [] -> existsb f l = false.
Proof.
  induction l as [|x l IH]; simpl; [reflexivity|].
  destruct (f x); [discriminate | exact IH].
Qed.

(** X18. The requests never give two profiles the same email: when the
    emails of the profiles are distinct they are still distinct after a
    creation or an update, whatever the request and whatever fails. *)
Theorem profile_emails_stay_unique e email body file w :
  unique_profiles (profile w) = true ->
  unique_profiles (profile (snd (post_profile e body w))) = true
  /\ unique_profiles (profile (snd (put_profile e email body file w))) = true.
Proof.
  intros Hu. split.
  - unfold post_profile, route.
    destruct (_ || _)%bool; [exact Hu|].
    unfold profile_select, profile_insert. run.
    destruct (fault e (query SELECT _)); simpl; [exact Hu|].
    destruct (List.filter _ _) eqn:Hnone; simpl; [|exact Hu].
    destruct (fault e (query INSERT _)); simpl; [exact Hu|].
    apply unique_profiles_snoc; [exact Hu|]. simpl. now apply filter_nil_existsb.
  - unfold put_profile. destruct (upload_single file) as [req_file|]; [|exact Hu].
    unfold route. destruct (negb _); [exact Hu|].
    destruct req_file as [f|].
    + unfold uploadToGCS, file_save_, profile_update. run.
      destruct (fault e (file_save _)); simpl; [exact Hu|].
      destruct (fault e (query UPDATE _)); simpl; [exact Hu|].
      rewrite unique_profiles_map;
        [exact Hu | intros r; destruct (sql_eq _ _); reflexivity].
    + unfold profile_update. run.
      destruct (fault e (query UPDATE _)); simpl; [exact Hu|].
      rewrite unique_profiles_map;
        [exact Hu | intros r; destruct (sql_eq _ _); reflexivity].
Qed.

Lemma profile_emails_stay_unique_witness :
  unique_profiles (profile (snd (post_profile env1 profile_body world_profile))) = true
  /\ unique_profiles
       (profile (snd (put_profile env1 "sari@example.com" profile_body (Some picture)
                        world_profile))) = true.
Proof. apply profile_emails_stay_unique. reflexivity. Defined.

(** ** Feedback *)

(** X20. The range of a rating is tested by numeric comparisons only: a
    truthy rating that is not a number, such as the text of a word, is
    neither below 1 nor above 4, so with a truthy comment it is accepted
    and inserted as it was sent when the database takes it. *)
Theorem post_feedback_not_a_number e body w :
  truthy (prop body "comment") = true ->
  truthy (prop body "rating") = true ->
  ToNumber (prop body "rating") = NaN ->
  fault e (query INSERT "feedback") = None ->
  let r := post_feedback e body w in
  status (fst r) = 201
  /\ feedback (snd r)
     = (feedback w ++ [{| Feedback.id := next_feedback_id w;
                          Feedback.comment := prop body "comment";
                          Feedback.rating := prop body "rating" |}])%list.
Proof.
  intros Hc Hr Hn Hf. unfold post_feedback, route. rewrite Hc, Hr.
  unfold lt, gt. rewrite Hn. simpl.
  unfold feedback_insert. run. rewrite Hf. simpl. auto.
Qed.

Lemma post_feedback_not_a_number_witness :
  let r := post_feedback env0 (feedback_body (VStr "memuaskan")) world0 in
  status (fst r) = 201
  /\ feedback (snd r)
     = [{| Feedback.id := 1; Feedback.comment := VStr "Bagus";
           Feedback.rating := VStr "memuaskan" |}].
Proof.
  apply (post_feedback_not_a_number env0 (feedback_body (VStr "memuaskan")) world0);
    reflexivity.
Defined.

(** ** Reports *)

Lemma parseInt_of_Z_signed z : (Z.abs z < 10 ^ 21)%Z -> parseInt (VNum (of_Z z)) = of_Z z.
Proof.
  intros Hz. destruct (Z_le_gt_dec 0 z) as [Hpos | Hneg]; [apply parseInt_of_Z; lia|].
  unfold parseInt. cbn [ToString]. rewrite NumberToString_of_Z by exact Hz.
  destruct z as [|p|p]; try lia.
  change (Z_to_string (Z.neg p)) with (String "-" (NilEmpty.string_of_uint (Pos.to_uint p))).
  unfold parseInt_string. cbn [skip_ws]. change (is_ws "-") with false. cbv iota.
  cbn [take_sign]. rewrite radix_prefix_digits, take_uint_digits.
  pose proof (DecimalPos.Unsigned.to_uint_nonnil p) as Hnil.
  assert (Hval : N.of_uint (Pos.to_uint p) = N.pos p)
    by (unfold N.of_uint; apply DecimalPos.Unsigned.of_to).
  destruct (Pos.to_uint p) eqn:E; [congruence|..]; rewrite Hval; reflexivity.
Qed.

Lemma row_count_negative z : (z < 0)%Z -> row_count (of_Z z) = None.
Proof.
  intros Hz. unfold row_count, of_Z. rewrite Qred_inject_Z. simpl.
  destruct (Z.leb_spec 0 z); [lia | reflexivity].
Qed.

(** What the handler reads from a query of two numerals. *)
Lemma get_report_reads e query_ w page limit :
  numeral_or_default (prop query_ "page") page 1 ->
  numeral_or_default (prop query_ "limit") limit 10 ->
  (0 <= page <= MAX_SAFE_INTEGER)%Z -> (0 <= limit <= MAX_SAFE_INTEGER)%Z ->
  (Z.abs ((page - 1) * limit) <= MAX_SAFE_INTEGER)%Z ->
  get_report e query_ w
  = route
      (let! found := Report_findAndCountAll e (of_Z limit) (of_Z ((page - 1) * limit)) in
       let count := of_Z (Z.of_nat (fst found)) in
       ret (respond 200
              (VObj [("success", VBool true);
                     ("total", VNum count);
                     ("currentPage", VNum (of_Z page));
                     ("totalPages", VNum (Math_ceil (div count (of_Z limit))));
                     ("data", VArr (map Report_toJSON (snd found)))])))
      (fun message => respond 500 (failure "message" message)) w.
Proof.
  intros Hp Hl Hpage Hlimit Hoff. unfold MAX_SAFE_INTEGER in *.
  assert (H21 : (2 ^ 53 - 1 < 10 ^ 21)%Z) by reflexivity.
  destruct (numeral_or_default_read _ _ _ Hp) as [Hp1 Hp2]; [lia|].
  destruct (numeral_or_default_read _ _ _ Hl) as [Hl1 Hl2]; [lia|].
  unfold get_report. rewrite Hp1, Hp2, Hl1, Hl2, sub_of_Z, mul_of_Z.
  rewrite parseInt_of_Z_signed by lia. reflexivity.
Qed.

Lemma page_query_numerals page limit :
  numeral_or_default (prop (page_query page limit) "page") page 1
  /\ numeral_or_default (prop (page_query page limit) "limit") limit 10.
Proof.
  unfold page_query, prop. split; left.
  - rewrite lookup_insert_eq. reflexivity.
  - rewrite lookup_insert_ne by discriminate. rewrite lookup_singleton_eq. reflexivity.
Qed.

(** X21. Page 0 is an error: with a positive limit the offset is negative,
    the statement is refused and the response is 500; nothing changes. *)
Theorem get_report_page_zero e query_ w limit :
  prop query_ "page" = VStr "0" ->
  numeral_or_default (prop query_ "limit") limit 10 ->
  (1 <= limit <= MAX_SAFE_INTEGER)%Z ->
  let r := get_report e query_ w in
  status (fst r) = 500 /\ stored (snd r) = stored w.
Proof.
  intros Hp Hl Hlimit.
  rewrite (get_report_reads e query_ w 0 limit); unfold MAX_SAFE_INTEGER in *;
    [|left; exact Hp | exact Hl | lia | lia | lia].
  unfold Report_findAndCountAll. run.
  rewrite row_count_of_Z by lia. rewrite row_count_negative by lia.
  destruct (fault e (query SELECT _)); simpl; auto.
Qed.

Lemma get_report_page_zero_witness :
  let r := get_report env0 (page_query 0 10) world_reports in
  status (fst r) = 500 /\ stored (snd r) = stored world_reports.
Proof.
  apply (get_report_page_zero env0 (page_query 0 10) world_reports 10).
  - reflexivity.
  - left. reflexivity.
  - unfold MAX_SAFE_INTEGER. lia.
Defined.

(** X22. A limit of 0 is not refused: the database answering, the
    response is 200 and its page count is the quotient of the row count
    by zero, infinite when there are reports and not a number when there
    are none (either is sent as [null] in the JSON text). *)
Theorem get_report_limit_zero e query_ w page :
  numeral_or_default (prop query_ "page") page 1 ->
  prop query_ "limit" = VStr "0" ->
  (1 <= page <= MAX_SAFE_INTEGER)%Z ->
  fault e (query SELECT "Reports") = None ->
  exists data,
    fst (get_report e query_ w)
    = respond 200
        (VObj [("success", VBool true);
               ("total", VNum (of_Z (Z.of_nat (length (Reports w)))));
               ("currentPage", VNum (of_Z page));
               ("totalPages", VNum (if (length (Reports w) =? 0)%nat then NaN
                                    else Infinity false));
               ("data", VArr data)]).
Proof.
  intros Hp Hl Hpage Hf.
  rewrite (get_report_reads e query_ w page 0); unfold MAX_SAFE_INTEGER in *;
    [|exact Hp | left; exact Hl | lia | lia | lia].
  unfold Report_findAndCountAll. run. rewrite Hf. cbn [log Reports].
  rewrite !row_count_of_Z by lia. cbn [fst snd].
  eexists. destruct (length (Reports w)) as [|n]; reflexivity.
Qed.

Lemma get_report_limit_zero_witness :
  exists data,
    fst (get_report env0 (page_query 1 0) world_reports)
    = respond 200
        (VObj [("success", VBool true);
               ("total", VNum (of_Z 25));
               ("currentPage", VNum (of_Z 1));
               ("totalPages", VNum (Infinity false));
               ("data", VArr data)]).
Proof.
  apply (get_report_limit_zero env0 (page_query 1 0) world_reports 1).
  - left. reflexivity.
  - reflexivity.
  - unfold MAX_SAFE_INTEGER. lia.
  - reflexivity.
Defined.

(** The world a created report leaves. *)
Lemma post_report_success e body w comment :
  nonempty_text (prop body "comment") comment ->
  fault e (query INSERT "Reports") = None ->
  (forall r, In r (Reports w) -> Report.id r <> UUIDV4 e) ->
  let r := post_report e body w in
  fst r = respond 201
            (VObj [("success", VBool true);
                   ("data", VObj [("id", VStr (UUIDV4 e));
                                  ("comment", VStr comment);
                                  ("createdAt", VNum (of_Z (Date_now e)))])])
  /\ stored (snd r)
     = stored (set_Reports (fun rows =>
                 (rows ++ [{| Report.id := UUIDV4 e; Report.comment := VStr comment;
                              Report.createdAt := Date_now e;
                              Report.updatedAt := Date_now e |}])%list) w).
Proof.
  intros [Hc Hc'] Hins Hfresh. unfold post_report, route. rewrite Hc. simpl.
  apply String.eqb_neq in Hc'. rewrite Hc'. simpl.
  unfold Report_create. run. simpl. rewrite Hins. simpl.
  rewrite existsb_none_of by (intros r Hr; apply String.eqb_neq; auto).
  simpl. split; reflexivity.
Qed.

Lemma newest_sorts_first {A} (createdAt : A -> Z) (l s : list A) x :
  s ≡ₚ (l ++ [x])%list ->
  StronglySorted (newest_first createdAt) s ->
  (forall y, In y l -> (createdAt y < createdAt x)%Z) ->
  exists t, s = x :: t /\ t ≡ₚ l /\ StronglySorted (newest_first createdAt) t.
Proof.
  intros Hperm Hsorted Hnew.
  destruct s as [|h t].
  { apply Permutation_nil in Hperm. destruct l; discriminate. }
  inversion Hsorted as [|? ? Ht Hh]; subst.
  assert (Hx : h = x).
  { assert (Hin : In h (l ++ [x])%list) by (apply (Permutation_in h Hperm); now left).
    apply in_app_or in Hin as [Hin | [Hin | []]]; [|now symmetry].
    assert (Hxin : In x (h :: t)).
    { apply (Permutation_in x (Permutation_sym Hperm)), in_or_app. right. now left. }
    destruct Hxin as [Hxin | Hxin]; [exact Hxin|].
    rewrite List.Forall_forall in Hh. specialize (Hh x Hxin). specialize (Hnew h Hin).
    unfold newest_first in Hh. lia. }
  subst h. exists t. split; [reflexivity|]. split; [|exact Ht].
  apply (Permutation_cons_inv (a := x)).
  rewrite Hperm. symmetry. apply Permutation_cons_append.
Qed.

(** X23. A report that was just created is counted and listed first: the
    creation is answered 201 with the drawn identifier, the comment and the
    time of the clock; when this time is later than the creation time of
    every earlier report, the first page of the list, for a positive
    limit, counts one report more and begins with the new report, the
    earlier reports following it newest first. *)
Theorem post_then_get_report e e' body query_ w comment limit :
  nonempty_text (prop body "comment") comment ->
  fault e (query INSERT "Reports") = None ->
  (forall r, In r (Reports w) -> Report.id r <> UUIDV4 e) ->
  (forall r, In r (Reports w) -> (Report.createdAt r < Date_now e)%Z) ->
  numeral_or_default (prop query_ "page") 1 1 ->
  numeral_or_default (prop query_ "limit") limit 10 ->
  (1 <= limit <= MAX_SAFE_INTEGER)%Z ->
  fault e' (query SELECT "Reports") = None ->
  let r := post_report e body w in
  let created := {| Report.id := UUIDV4 e; Report.comment := VStr comment;
                    Report.createdAt := Date_now e; Report.updatedAt := Date_now e |} in
  let count := (Z.of_nat (length (Reports w)) + 1)%Z in
  fst r = respond 201
            (VObj [("success", VBool true);
                   ("data", VObj [("id", VStr (UUIDV4 e));
                                  ("comment", VStr comment);
                                  ("createdAt", VNum (of_Z (Date_now e)))])])
  /\ exists totalPages earlier,
       (limit * (totalPages - 1) < count <= limit * totalPages)%Z
       /\ earlier ≡ₚ Reports w
       /\ StronglySorted (newest_first Report.createdAt) earlier
       /\ fst (get_report e' query_ (snd r))
          = respond 200
              (VObj [("success", VBool true);
                     ("total", VNum (of_Z count));
                     ("currentPage", VNum (of_Z 1));
                     ("totalPages", VNum (of_Z totalPages));
                     ("data",
                      VArr (Report_toJSON created
                            :: map Report_toJSON
                                 (take (Z.to_nat (limit - 1)) earlier)))]).
Proof.
  intros Hc Hins Hfresh Hlater Hp Hl Hlimit Hsel r created count.
  destruct (post_report_success e body w comment Hc Hins Hfresh) as [Hresp Hw1].
  fold r in Hresp, Hw1. pose proof (f_equal Reports Hw1) as Hrows. simpl in Hrows.
  fold created in Hrows. clearbody r.
  split; [exact Hresp|].
  destruct (ceil_of_Z_div count limit) as (t & Ht & Hbounds); [lia|].
  destruct (newest_sorts_first Report.createdAt (Reports w)
              (merge_sort (newest_first Report.createdAt) (Reports (snd r))) created)
    as (earlier & Hsorted & Hperm & Hearlier).
  { rewrite <- Hrows. apply merge_sort_Permutation. }
  { apply StronglySorted_merge_sort; apply _. }
  { exact Hlater. }
  exists t, earlier. split; [exact Hbounds|]. split; [exact Hperm|].
  split; [exact Hearlier|].
  rewrite (get_report_reads e' query_ (snd r) 1 limit Hp Hl);
    unfold MAX_SAFE_INTEGER in *; [|lia..].
  unfold Report_findAndCountAll. run. rewrite Hsel. cbn [log Reports].
  rewrite !row_count_of_Z by lia. cbn [fst snd].
  rewrite Hsorted, Hrows, length_app. simpl length.
  replace (Z.of_nat (length (Reports w) + 1)) with count by (unfold count; lia).
  rewrite Ht. change (Z.to_nat ((1 - 1) * limit)) with 0%nat. rewrite drop_0.
  replace (Z.to_nat limit) with (S (Z.to_nat (limit - 1))) by lia.
  reflexivity.
Qed.

Lemma post_then_get_report_witness :
  let r := post_report env_last_first report_body world_reports in
  let created := {| Report.id := UUIDV4 env_last_first;
                    Report.comment := VStr "Suara terputus";
                    Report.createdAt := Date_now env_last_first;
                    Report.updatedAt := Date_now env_last_first |} in
  fst r = respond 201
            (VObj [("success", VBool true);
                   ("data", VObj [("id", VStr (UUIDV4 env_last_first));
                                  ("comment", VStr "Suara terputus");
                                  ("createdAt", VNum (of_Z (Date_now env_last_first)))])])
  /\ exists totalPages earlier,
       (10 * (totalPages - 1) < 26 <= 10 * totalPages)%Z
       /\ earlier ≡ₚ Reports world_reports
       /\ StronglySorted (newest_first Report.createdAt) earlier
       /\ fst (get_report env1 ∅ (snd r))
          = respond 200
              (VObj [("success", VBool true);
                     ("total", VNum (of_Z 26));
                     ("currentPage", VNum (of_Z 1));
                     ("totalPages", VNum (of_Z totalPages));
                     ("data",
                      VArr (Report_toJSON created
                            :: map Report_toJSON (take 9 earlier)))]).
Proof.
  apply (post_then_get_report env_last_first env1 report_body ∅ world_reports
           "Suara terputus" 10).
  - split; [reflexivity | discriminate].
  - reflexivity.
  - intros r Hr. vm_compute in Hr.
    repeat (destruct Hr as [<- | Hr]; [discriminate|]). destruct Hr.
  - intros r Hr. vm_compute in Hr.
    repeat (destruct Hr as [<- | Hr]; [reflexivity|]). destruct Hr.
  - right. split; reflexivity.
  - right. split; reflexivity.
  - unfold MAX_SAFE_INTEGER. lia.
  - reflexivity.
Defined.

Lemma chunks_cover {A} (s : list A) (l : nat) : forall n,
  concat (map (fun i => take l (drop (i * l) s)) (seq 0 n)) = take (n * l) s.
Proof.
  induction n as [|n IH]; [reflexivity|].
  rewrite seq_S, map_app, concat_app, IH. simpl.
  rewrite app_nil_r, take_take_drop. f_equal. lia.
Qed.

(** X24. Walking the pages gives every report once, newest first: when
    the reports have distinct creation times, so that their order is
    determined, and the limit is positive, the [data] of the pages 1 to
    [n], one after the other, is the list of all the reports by decreasing
    creation time as soon as [n] pages of [limit] rows can hold them. *)
Theorem get_report_pages_cover e w limit n :
  NoDup (map Report.createdAt (Reports w)) ->
  (1 <= limit)%Z ->
  (Z.of_nat n * limit <= MAX_SAFE_INTEGER)%Z ->
  (Z.of_nat (length (Reports w)) <= Z.of_nat n * limit)%Z ->
  fault e (query SELECT "Reports") = None ->
  concat (map (fun p => response_data (fst (get_report e (page_query (Z.of_nat p) limit) w)))
            (seq 1 n))
  = map Report_toJSON (reports_newest_first w).
Proof.
  intros _ Hl Hsafe Hcount Hf.
  assert (Hpage : forall p, In p (seq 1 n) ->
            response_data (fst (get_report e (page_query (Z.of_nat p) limit) w))
            = map Report_toJSON
                (take (Z.to_nat limit)
                   (drop ((p - 1) * Z.to_nat limit) (reports_newest_first w)))).
  { intros p Hp. apply in_seq in Hp.
    destruct (page_query_numerals (Z.of_nat p) limit) as [Hq1 Hq2].
    rewrite (get_report_reads e _ w (Z.of_nat p) limit Hq1 Hq2);
      unfold MAX_SAFE_INTEGER in *; [|nia..].
    unfold Report_findAndCountAll. run. rewrite Hf. cbn [log Reports].
    rewrite !row_count_of_Z by nia. cbn [fst snd].
    unfold response_data. cbn [json respond List.find fst String.eqb]. simpl.
    unfold reports_newest_first. do 3 f_equal. nia. }
  rewrite (map_ext_in _ _ _ Hpage).
  rewrite <- seq_shift, map_map.
  rewrite (map_ext _ (fun i => map Report_toJSON
                         (take (Z.to_nat limit)
                            (drop (i * Z.to_nat limit) (reports_newest_first w)))))
    by (intros i; do 3 f_equal; lia).
  rewrite <- (map_map (fun i => take (Z.to_nat limit)
                                   (drop (i * Z.to_nat limit) (reports_newest_first w)))
                (map Report_toJSON)).
  rewrite <- concat_map, chunks_cover. f_equal. apply take_ge.
  unfold reports_newest_first.
  rewrite (Permutation_length (merge_sort_Permutation _ _)). nia.
Qed.

Lemma get_report_pages_cover_witness :
  concat (map (fun p => response_data (fst (get_report env0 (page_query (Z.of_nat p) 10)
                                              world_reports)))
            (seq 1 3))
  = map Report_toJSON (reports_newest_first world_reports).
Proof.
  apply (get_report_pages_cover env0 world_reports 10 3).
  - apply (bool_decide_unpack _). vm_compute. reflexivity.
  - lia.
  - unfold MAX_SAFE_INTEGER. lia.
  - vm_compute. discriminate.
  - reflexivity.
Defined.

Lemma delete_soundboards_only_target_witness :
  let r := delete_soundboards env1 (UUIDV4 env0) world_soundboards in
  map Soundboard.id (Soundboards (snd r)) = [UUIDV4 env1]
  /\ (forall s, In s (Soundboards (snd r)) -> In s (Soundboards world_soundboards))
  /\ (forall s, In s (Soundboards world_soundboards) -> Soundboard.id s <> UUIDV4 env0 ->
      In s (Soundboards (snd r))).
Proof.
  intros r. split; [reflexivity|].
  destruct (delete_soundboards_only_target env1 (UUIDV4 env0) world_soundboards)
    as (Hsub & Hkeep & _).
  split; [exact Hsub | exact Hkeep].
Defined.

(** ** Reads *)

(** X25. The four routes that read leave every table and the bucket as
    they were, whatever the request and whatever fails: listing the
    soundboards of an owner, reading a history, reading a profile and
    listing the reports only add to the log of calls. *)
Theorem reads_change_nothing e email query_ w :
  stored (snd (get_soundboards e email w)) = stored w
  /\ stored (snd (get_history e email w)) = stored w
  /\ stored (snd (get_profile e email w)) = stored w
  /\ stored (snd (get_report e query_ w)) = stored w.
Proof.
  split; [apply get_soundboards_stored|]. split; [|split].
  - unfold get_history, History_findOne, Message_findAll. run.
    destruct (fault e (query SELECT "HISTORY")); simpl; [reflexivity|].
    destruct (List.find _ _); simpl; [|reflexivity].
    destruct (fault e (query SELECT "MESSAGE")); reflexivity.
  - unfold get_profile, profile_select. run.
    destruct (fault e (query SELECT _)); simpl; [reflexivity|].
    destruct (List.filter _ _); reflexivity.
  - unfold get_report, Report_findAndCountAll. run.
    destruct (fault e (query SELECT _)); [reflexivity|].
    destruct (row_count _); [|reflexivity]. destruct (row_count _); reflexivity.
Qed.

(** ** Routing *)

Lemma post_history_email_MESSAGE e body w :
  MESSAGE (snd (post_history_email e body w)) = MESSAGE w.
Proof. apply post_history_email_tables. Qed.

(** X26. The route that opens a history shadows the route that appends a
    message: a POST to [/history/email], in any letter case, is taken by
    the former, so it never appends a message, whatever its body; a POST
    to another non-empty last segment is taken by the latter with this
    segment as the email. *)
Theorem post_history_email_shadows e uptime a b body w :
  lower a = "history" ->
  (lower b = "email" ->
   exists handler,
     app e uptime (post_to a b body) = Some handler
     /\ handler w = post_history_email e body w
     /\ MESSAGE (snd (handler w)) = MESSAGE w)
  /\ (lower b <> "email" -> b <> "" ->
      app e uptime (post_to a b body) = Some (post_history e b body)).
Proof.
  intros Ha. unfold app, post_to, is_segment, is_param. cbn [req_method req_path req_body].
  rewrite Ha, !String.eqb_refl. cbn [andb]. split.
  - intros Hb. rewrite Hb, String.eqb_refl. eexists. split; [reflexivity|].
    split; [reflexivity | apply post_history_email_MESSAGE].
  - intros Hb Hne. apply String.eqb_neq in Hb, Hne. now rewrite Hb, Hne.
Qed.

Lemma post_history_email_shadows_witness :
  (exists handler,
     app env1 (of_Z 12) (post_to "history" "Email" message_body) = Some handler
     /\ handler world_history = post_history_email env1 message_body world_history
     /\ MESSAGE (snd (handler world_history)) = MESSAGE world_history)
  /\ app env1 (of_Z 12) (post_to "history" "sari@example.com" message_body)
     = Some (post_history env1 "sari@example.com" message_body).
Proof.
  destruct (post_history_email_shadows env1 (of_Z 12) "history" "Email" message_body
              world_history eq_refl) as [H1 _].
  destruct (post_history_email_shadows env1 (of_Z 12) "history" "sari@example.com"
              message_body world_history eq_refl) as [_ H2].
  split; [apply H1; reflexivity | apply H2; discriminate].
Defined.

(** ** The text generation service *)

(** X27. The generation route never calls the model without a topic: a
    falsy topic is answered 400 and no prompt is sent.  With a topic
    exactly one prompt is sent, the fixed sentence around the topic as a
    text; the answer of the model is returned with 200, and a failure of
    the call is answered 500 with a fixed message that does not carry the
    error. *)
Theorem post_generate_calls generateContent body :
  let topic := prop body "topic" in
  let r := Generate.post_generate generateContent body in
  (truthy topic = false -> status (fst r) = 400 /\ snd r = [])
  /\ (truthy topic = true ->
      snd r = [Generate.prompt_of topic]
      /\ (forall text, generateContent (Generate.prompt_of topic) = Ok text ->
          fst r = respond 200 (VObj [("response", VStr text)]))
      /\ (forall message, generateContent (Generate.prompt_of topic) = Err message ->
          fst r = respond 500 (VObj [("error", VStr "Failed to generate content")]))).
Proof.
  intros topic r. subst topic r. unfold Generate.post_generate. split.
  - intros ->. simpl. auto.
  - intros ->. simpl.
    destruct (generateContent _); simpl; repeat split; intros ? [=]; congruence.
Qed.

Lemma post_generate_calls_witness :
  Generate.post_generate (model_answers "Bahasa isyarat adalah ...") ∅
  = (respond 400 (VObj [("error", VStr "The 'topic' field is required")]), [])
  /\ (let body : gmap string value := {[ "topic" := VStr "bahasa isyarat" ]} in
      snd (Generate.post_generate model_down body)
      = [Generate.prompt_of (VStr "bahasa isyarat")]
      /\ fst (Generate.post_generate (model_answers "Bahasa isyarat adalah ...") body)
         = respond 200 (VObj [("response", VStr "Bahasa isyarat adalah ...")])
      /\ fst (Generate.post_generate model_down body)
         = respond 500 (VObj [("error", VStr "Failed to generate content")])).
Proof.
  split; [reflexivity|]. intros body.
  destruct (post_generate_calls model_down body) as [_ H1].
  destruct (post_generate_calls (model_answers "Bahasa isyarat adalah ...") body) as [_ H2].
  destruct H1 as (Hp & _ & Herr); [reflexivity|].
  destruct H2 as (_ & Hok & _); [reflexivity|].
  split; [exact Hp|]. split; [apply Hok; reflexivity | apply (Herr "fetch failed"); reflexivity].
Defined.

Example prompt_of_example :
  String.length (Generate.prompt_of (VStr "cuaca")) = 53%nat
  /\ Generate.prompt_of (VStr "cuaca")
     = "Saya membutuhkan informasi berdasarkan topik "
         ++ Generate.quote ++ "cuaca" ++ Generate.quote ++ ".".
Proof. split; reflexivity. Qed.
